(** * Deployment readiness assessment: a shallow embedding

    Model of [scripts/deployment-readiness-assessment.py].

    Conventions of the embedding.
    - Python [str] is modelled by [string] (a sequence of bytes); [str.lower]
      and the whitespace tests act on the ASCII range only.
    - Python [int] is [Z]; a Python [float] is the rational [Q] that the
      binary64 holds.  The readiness score is computed with the rounding of
      binary64 ([round64]); [inf] and [nan] have no value in [Q].  Durations
      are read from the world as such values.
    - A Python [dict] used as a map ([results['details']]) is a [gmap]; the
      ordered dictionaries whose iteration order is observable (the categories
      of a run, a configuration document) are association lists.
    - Everything the script obtains from outside (child processes, the
      database, HTTP, the file system) is read from a [world] of oracles, and
      every call made to the outside is appended to a log of [event]s.
    - Exceptions are values of type [exn]; only subclasses of [Exception]
      are modelled.
    - A call of [print] fails only when the encoding of the console cannot
      encode the line, so a line of ASCII text is always written.  The lines
      that can hold other characters are those of the summary that [main]
      prints after a run (the emoji of its markers and recommendations, the
      issue texts): these are modelled, as the list of the lines printed; the
      progress lines of the assessors, which are ASCII, are not.  A console
      that is closed is outside the model. *)

From Stdlib Require Import ZArith QArith Qabs Qpower String Ascii List Bool Lia
  DecimalString.
From stdpp Require Import gmap strings.
Import ListNotations.

Open Scope string_scope.
Open Scope list_scope.
Open Scope Z_scope.

(** ** Python strings *)

Definition is_upper (c : ascii) : bool :=
  let n := nat_of_ascii c in (65 <=? n)%nat && (n <=? 90)%nat.

Definition lower_char (c : ascii) : ascii :=
  if is_upper c then ascii_of_nat (nat_of_ascii c + 32) else c.

(** [s.lower()] *)
Fixpoint lower (s : string) : string :=
  match s with
  | EmptyString => EmptyString
  | String c t => String (lower_char c) (lower t)
  end.

(** [sub in s] *)
Fixpoint str_in (sub s : string) : bool :=
  String.prefix sub s ||
  match s with
  | EmptyString => false
  | String _ t => str_in sub t
  end.

(** Whitespace as [str.isspace] sees it on the ASCII range. *)
Definition is_space (c : ascii) : bool :=
  let n := nat_of_ascii c in
  ((9 <=? n)%nat && (n <=? 13)%nat) || ((28 <=? n)%nat && (n <=? 32)%nat).

Fixpoint lstrip (s : string) : string :=
  match s with
  | EmptyString => EmptyString
  | String c t => if is_space c then lstrip t else s
  end.

Fixpoint rstrip_by (p : ascii -> bool) (s : string) : string :=
  match s with
  | EmptyString => EmptyString
  | String c t =>
      match rstrip_by p t with
      | EmptyString => if p c then EmptyString else String c EmptyString
      | t' => String c t'
      end
  end.

(** [s.strip()] *)
Definition strip (s : string) : string := rstrip_by is_space (lstrip s).

(** [s.rstrip(c)] for a one-character argument *)
Definition rstrip_char (c : ascii) (s : string) : string :=
  rstrip_by (Ascii.eqb c) s.

(** [s.split(sep)] for a one-character separator: never empty. *)
Fixpoint split_on (sep : ascii) (s : string) : list string :=
  match s with
  | EmptyString => [EmptyString]
  | String c t =>
      if Ascii.eqb c sep then EmptyString :: split_on sep t
      else match split_on sep t with
           | w :: ws => String c w :: ws
           | [] => [String c EmptyString]
           end
  end.

(** [s.split()]: runs of whitespace separate the words, no empty word. *)
Fixpoint split_ws_aux (cur : string) (s : string) : list string :=
  match s with
  | EmptyString => if String.eqb cur EmptyString then [] else [cur]
  | String c t =>
      if is_space c
      then (if String.eqb cur EmptyString then split_ws_aux EmptyString t
            else cur :: split_ws_aux EmptyString t)
      else split_ws_aux (cur +:+ String c EmptyString) t
  end.

Definition split_ws (s : string) : list string := split_ws_aux EmptyString s.

(** [str(n)] for an integer *)
Definition str_Z (z : Z) : string := NilZero.string_of_int (Z.to_int z).

Definition str_nat (n : nat) : string := str_Z (Z.of_nat n).

(** Rounding to the nearest integer, ties to even, as [format] rounds. *)
Definition round_half_even (q : Q) : Z :=
  let n := Qnum q in
  let d := Z.pos (Qden q) in
  let f := n / d in
  let r := 2 * (n mod d) in
  if r <? d then f
  else if d <? r then f + 1
  else if Z.even f then f else f + 1.

Definition two_digits (z : Z) : string :=
  if z <? 10 then "0" +:+ str_Z z else str_Z z.

(** [f'{q:.2f}'] *)
Definition format_2f (q : Q) : string :=
  let c := round_half_even (q * 100)%Q in
  let a := Z.abs c in
  (if (c <? 0) || ((c =? 0) && (Qnum q <? 0)) then "-" else "")
  +:+ str_Z (a / 100) +:+ "." +:+ two_digits (a mod 100).

(** The double-quote character, [chr(34)]. *)
Definition dquote : string := String (ascii_of_nat 34) EmptyString.

(** ** Exceptions and outcomes *)

Inductive exn_class : Set :=
| TimeoutExpired        (* subprocess.TimeoutExpired *)
| MySQLError            (* mysql.connector.Error *)
| RequestException      (* requests.exceptions.RequestException *)
| JSONDecodeError
| OSError
| KeyError
| TypeError
| ValueError
| IndexError
| ZeroDivisionError
| OverflowError
| UnboundLocalError
| UnicodeEncodeError
| OtherException.

Record exn : Set := mk_exn { exn_cls : exn_class; exn_msg : string }.

(** [str(e)] *)
Definition str_exn (e : exn) : string := exn_msg e.

Definition is_class (c : exn_class) (e : exn) : bool :=
  match c, exn_cls e with
  | TimeoutExpired, TimeoutExpired
  | MySQLError, MySQLError
  | RequestException, RequestException => true
  | _, _ => false
  end.

Inductive outcome (A : Type) : Type :=
| Ret (a : A)
| Raise (e : exn).

Arguments Ret {A} a.
Arguments Raise {A} e.

(** ** Data model *)

(** One assessor's [results] dictionary. *)
Record category : Type := mk_category {
  score : Z;
  max_score : Z;
  details : gmap string string;
  issues : list string
}.

Inductive status : Set := UNKNOWN | READY | READY_WITH_WARNINGS | NOT_READY.

Definition status_string (s : status) : string :=
  match s with
  | UNKNOWN => "UNKNOWN"
  | READY => "READY"
  | READY_WITH_WARNINGS => "READY_WITH_WARNINGS"
  | NOT_READY => "NOT_READY"
  end.

(** [self.results] *)
Record report : Type := mk_report {
  timestamp : string;
  overall_status : status;
  readiness_score : Q;
  categories : list (string * category);
  critical_issues : list string;
  warnings : list string;
  recommendations : list string
}.

(** ** Issue classifier (run_assessment, "Collect all issues") *)

Definition critical_keywords : list string :=
  ["critical"; "failed"; "error"; "not found"].

(** [any(keyword in issue.lower() for keyword in [...])] *)
Definition is_critical (issue : string) : bool :=
  existsb (fun keyword => str_in keyword (lower issue)) critical_keywords.

(** One iteration of the inner loop: the pair is
    [(critical_issues, warnings)]. *)
Definition classify_issue (acc : list string * list string) (issue : string)
  : list string * list string :=
  if is_critical issue then (fst acc ++ [issue], snd acc)
  else (fst acc, snd acc ++ [issue]).

Definition collect_issues (cats : list (string * category))
  (acc : list string * list string) : list string * list string :=
  fold_left (fun a c => fold_left classify_issue (issues (snd c)) a) cats acc.

(** ** Binary64 arithmetic *)

(** A Python [float] is modelled by the rational it holds.  [round64 x] is
    the binary64 nearest to [x], ties to even, with gradual underflow; the
    exponent has no upper limit here, overflow is tested where it matters. *)
Definition pow2 (e : Z) : Q := Qpower 2 e.

(** The [k] with [2^k <= x < 2^(k+1)], for a positive [x]. *)
Definition floor_log2 (x : Q) : Z :=
  let k := Z.log2 (Qnum x) - Z.log2 (Z.pos (Qden x)) in
  if Qle_bool (pow2 k) x then k else k - 1.

Definition round64 (x : Q) : Q :=
  if Qeq_bool x 0 then 0%Q
  else
    let a := Qabs x in
    let e := Z.max (floor_log2 a - 52) (-1074) in
    let m := round_half_even (a * pow2 (- e)) in
    let r := (inject_Z m * pow2 e)%Q in
    if Qnum x <? 0 then (- r)%Q else r.

(** The largest binary64. *)
Definition float_max : Q := inject_Z ((2 ^ 53 - 1) * 2 ^ 971).

(** [a / b] for two [int]s: the binary64 nearest to the quotient. *)
Definition py_truediv (a b : Z) : outcome Q :=
  if b =? 0 then Raise (mk_exn ZeroDivisionError "division by zero")
  else
    let r := round64 (inject_Z a / inject_Z b) in
    if Qle_bool (Qabs r) float_max then Ret r
    else Raise (mk_exn OverflowError
                  "integer division result too large for a float").

(** [x * y] for two finite [float]s whose product is finite (beyond the
    largest binary64 Python gives [inf], which has no rational). *)
Definition float_mul (x y : Q) : Q := round64 (x * y).

(** ** Readiness aggregator *)

Definition sum_Z (l : list Z) : Z := fold_right Z.add 0 l.

Definition total_score (cats : list (string * category)) : Z :=
  sum_Z (map (fun c => score (snd c)) cats).

Definition max_total_score (cats : list (string * category)) : Z :=
  sum_Z (map (fun c => max_score (snd c)) cats).

(** [(total_score / max_total_score) * 100 if max_total_score > 0 else 0]:
    the quotient is rounded, then the product. *)
Definition compute_readiness_score (cats : list (string * category))
  : outcome Q :=
  if 0 <? max_total_score cats
  then
    match py_truediv (total_score cats) (max_total_score cats) with
    | Ret ratio => Ret (float_mul ratio 100)
    | Raise e => Raise e
    end
  else Ret 0%Q.

Definition is_empty_list {A} (l : list A) : bool :=
  match l with [] => true | _ => false end.

(** "Determine overall status" *)
Definition determine_status (rs : Q) (critical : list string) : status :=
  if Qle_bool 90 rs && is_empty_list critical then READY
  else if Qle_bool 70 rs && (length critical <=? 2)%nat then READY_WITH_WARNINGS
  else NOT_READY.

(** ** Recommendation generator *)

Definition ready_opening : list string :=
  ["✅ System is ready for deployment";
   "Proceed with deployment checklist"].

Definition warnings_opening : list string :=
  ["⚠️ System has minor issues but may proceed with caution";
   "Address warnings before deployment";
   "Ensure rollback procedures are ready"].

Definition not_ready_opening : list string :=
  ["❌ System is not ready for deployment";
   "Address critical issues before proceeding";
   "Re-run assessment after fixes"].

(** The opening is chosen from the score ratio alone. *)
Definition opening_of_ratio (ratio : Q) : list string :=
  if Qle_bool (9 # 10) ratio then ready_opening
  else if Qle_bool (7 # 10) ratio then warnings_opening
  else not_ready_opening.

Definition all_issues (cats : list (string * category)) : list string :=
  concat (map (fun c => issues (snd c)) cats).

(** [any(kw in issue.lower() for issue in all_issues)] *)
Definition mentions (kw : string) (l : list string) : bool :=
  existsb (fun issue => str_in kw (lower issue)) l.

Definition test_trigger (l : list string) : bool := mentions "test" l.

Definition performance_trigger (l : list string) : bool :=
  existsb (fun issue => str_in "performance" (lower issue)
                        || str_in "slow" (lower issue)) l.

Definition memory_trigger (l : list string) : bool := mentions "memory" l.

Definition database_trigger (l : list string) : bool := mentions "database" l.

Definition test_block : list string :=
  ["Fix failing tests before deployment"].

Definition performance_block : list string :=
  ["Optimize performance before deployment";
   "Consider load testing with BigDecimal operations"].

Definition memory_block : list string :=
  ["Monitor memory usage closely during deployment";
   "Consider increasing JVM heap size"].

Definition database_block : list string :=
  ["Verify database migration scripts";
   "Ensure database backup is current"].

Definition when_block (b : bool) (block : list string) : list string :=
  if b then block else [].

Definition trigger_recommendations (l : list string) : list string :=
  when_block (test_trigger l) test_block
  ++ when_block (performance_trigger l) performance_block
  ++ when_block (memory_trigger l) memory_block
  ++ when_block (database_trigger l) database_block.

(** [generate_recommendations]: the division raises when the maxima sum to
    zero. *)
Definition generate_recommendations (cats : list (string * category))
  : outcome (list string) :=
  if max_total_score cats =? 0
  then Raise (mk_exn ZeroDivisionError "division by zero")
  else
    let ratio := (inject_Z (total_score cats) / inject_Z (max_total_score cats))%Q in
    Ret (opening_of_ratio ratio ++ trigger_recommendations (all_issues cats)).

(** ** Configuration documents *)

(** A parsed JSON value, as [json.load] returns it. *)
#[warnings="-register-all"]
Inductive json : Type :=
| JNull
| JBool (b : bool)
| JInt (z : Z)
| JFloat (q : Q)
| JStr (s : string)
| JList (l : list json)
| JDict (d : list (string * json)).

Fixpoint dict_get (k : string) (d : list (string * json)) : option json :=
  match d with
  | [] => None
  | (k', v) :: d' => if String.eqb k k' then Some v else dict_get k d'
  end.

(** [d[k] = v]: an existing key keeps its place. *)
Fixpoint dict_set (k : string) (v : json) (d : list (string * json))
  : list (string * json) :=
  match d with
  | [] => [(k, v)]
  | (k', v') :: d' =>
      if String.eqb k k' then (k, v) :: d' else (k', v') :: dict_set k v d'
  end.

Definition type_name (v : json) : string :=
  match v with
  | JNull => "NoneType"
  | JBool _ => "bool"
  | JInt _ => "int"
  | JFloat _ => "float"
  | JStr _ => "str"
  | JList _ => "list"
  | JDict _ => "dict"
  end.

(** [v[k]] for a string key [k] *)
Definition subscript (v : json) (k : string) : outcome json :=
  match v with
  | JDict d =>
      match dict_get k d with
      | Some x => Ret x
      | None => Raise (mk_exn KeyError ("'" +:+ k +:+ "'"))
      end
  | JStr _ => Raise (mk_exn TypeError "string indices must be integers, not 'str'")
  | JList _ =>
      Raise (mk_exn TypeError "list indices must be integers or slices, not str")
  | _ => Raise (mk_exn TypeError
                  ("'" +:+ type_name v +:+ "' object is not subscriptable"))
  end.

(** [self.config[k1][k2]] *)
Definition config_item (cfg : list (string * json)) (k1 k2 : string)
  : outcome json :=
  match subscript (JDict cfg) k1 with
  | Ret v => subscript v k2
  | Raise e => Raise e
  end.

Definition Qlt_bool (x y : Q) : bool := negb (Qle_bool y x).

(** [x < v] for a number [x], an [int] or a [float] as [x_type] says, and
    a configured value [v] *)
Definition py_lt (x_type : string) (x : Q) (v : json) : outcome bool :=
  match v with
  | JInt z => Ret (Qlt_bool x (inject_Z z))
  | JFloat q => Ret (Qlt_bool x q)
  | JBool b => Ret (Qlt_bool x (if b then 1 else 0)%Q)
  | _ => Raise (mk_exn TypeError
                  ("'<' not supported between instances of '" +:+ x_type
                   +:+ "' and '" +:+ type_name v +:+ "'"))
  end.

(** One element of the sequence given to [dict.update]: a key and a value.
    A key that is not a string is never read by the script and is left out
    of the association list. *)
Definition update_element (d : list (string * json)) (x : json)
  : outcome (list (string * json)) :=
  let not_a_pair := mk_exn ValueError
    "dictionary update sequence element has the wrong length; 2 is required" in
  match x with
  | JList [JStr k; v] => Ret (dict_set k v d)
  | JList [JList _; _] | JList [JDict _; _] =>
      Raise (mk_exn TypeError "unhashable type")
  | JList [_; _] => Ret d
  | JList _ => Raise not_a_pair
  | JStr (String a (String b EmptyString)) =>
      Ret (dict_set (String a EmptyString) (JStr (String b EmptyString)) d)
  | JStr _ => Raise not_a_pair
  | JDict [(k1, _); (k2, _)] => Ret (dict_set k1 (JStr k2) d)
  | JDict _ => Raise not_a_pair
  | _ => Raise (mk_exn TypeError
                  "cannot convert dictionary update sequence element to a sequence")
  end.

Fixpoint update_from_sequence (d : list (string * json)) (l : list json)
  : outcome (list (string * json)) :=
  match l with
  | [] => Ret d
  | x :: l' =>
      match update_element d x with
      | Ret d' => update_from_sequence d' l'
      | Raise e => Raise e
      end
  end.

(** [d.update(other)]: a shallow merge, keys of [other] replace keys of
    [d]. *)
Definition dict_update (d : list (string * json)) (other : json)
  : outcome (list (string * json)) :=
  match other with
  | JDict u => Ret (fold_left (fun acc kv => dict_set (fst kv) (snd kv) acc) u d)
  | JList l => update_from_sequence d l
  | JStr EmptyString => Ret d
  | JStr _ =>
      Raise (mk_exn ValueError
        "dictionary update sequence element #0 has length 1; 2 is required")
  | _ => Raise (mk_exn TypeError
                  ("'" +:+ type_name other +:+ "' object is not iterable"))
  end.

Definition default_config (db_password : string) : list (string * json) :=
  [("api_base_url", JStr "http://localhost:8080");
   ("database", JDict [("host", JStr "localhost");
                       ("database", JStr "dcf_calculator");
                       ("user", JStr "dcf_user");
                       ("password", JStr db_password)]);
   ("thresholds", JDict [("response_time_ms", JInt 2000);
                         ("memory_usage_mb", JInt 2048);
                         ("test_pass_rate", JFloat 95);
                         ("query_time_ms", JInt 1000)])].

(** ** The outside world *)

Inductive query : Set :=
| SelectOne        (* SELECT 1 *)
| SelectColumns    (* the information_schema.columns query *)
| CountInputs      (* SELECT COUNT( * ) FROM dcf_inputs *)
| CountOutputs     (* SELECT COUNT( * ) FROM dcf_outputs *)
| JoinCount.       (* the join of dcf_inputs and dcf_outputs *)

(** Calls the script makes to the outside, in the order it makes them. *)
Inductive event : Type :=
| EvReadConfig (path : string)
| EvSubprocess (argv : list string)
| EvDbConnect
| EvDbCursor
| EvDbExecute (q : query)
| EvDbFetch (q : query)
| EvDbIsConnected
| EvDbCursorClose
| EvDbConnectionClose
| EvHttpGet (path : string)
| EvHttpPost (path : string)
| EvSaveReport.

(** [subprocess.CompletedProcess] *)
Record completed_process : Set := mk_completed {
  returncode : Z;
  stdout : string
}.

(** [requests.Response] *)
Record response : Set := mk_response {
  status_code : Z;
  text : string
}.

(** A row of the information_schema.columns query. *)
Record column_row : Set := mk_column {
  table_name : string;
  column_name : string;
  data_type : string;
  numeric_precision : option Z;
  numeric_scale : option Z
}.

Record world : Type := mk_world {
  (** [datetime.now().isoformat()] *)
  now : string;
  (** [os.getenv('DB_PASSWORD', '')] *)
  env_db_password : string;
  (** [os.path.exists] *)
  path_exists : string -> bool;
  (** [open(path)] followed by [json.load] *)
  read_json : string -> outcome json;
  (** [subprocess.run(argv, ...)] *)
  subprocess_run : list string -> outcome completed_process;
  (** [mysql.connector.connect( **kwargs )] *)
  db_connect : list (string * json) -> outcome unit;
  (** [connection.cursor()] *)
  db_cursor : outcome unit;
  (** [cursor.execute(q)] *)
  db_execute : query -> outcome unit;
  (** [cursor.fetchall()] after the columns query *)
  db_fetchall : outcome (list column_row);
  (** [cursor.fetchone()] after a count: the first field, if a row came *)
  db_fetchone : query -> outcome (option Z);
  (** [connection.is_connected()], [cursor.close()], [connection.close()] *)
  db_is_connected : outcome bool;
  db_cursor_close : outcome unit;
  db_connection_close : outcome unit;
  (** [requests.get(f"{base}{path}")] and [requests.post] *)
  http_get : json -> string -> outcome response;
  http_post : json -> string -> outcome response;
  (** [(end_time - start_time) * 1000] around the call of an event *)
  elapsed_ms : event -> Q;
  (** [open(filename, 'w')] followed by [json.dump] *)
  write_report : outcome unit;
  (** the encoding of a line that is not ASCII by the encoding of the
      console: done, or the UnicodeEncodeError of its codec *)
  stdout_encode : string -> outcome unit
}.

(** ** A state and exception monad *)

Definition M (S A : Type) : Type := S -> outcome A * S.

Definition ret {S A} (a : A) : M S A := fun s => (Ret a, s).

Definition bind {S A B} (m : M S A) (k : A -> M S B) : M S B :=
  fun s =>
    match m s with
    | (Ret a, s') => k a s'
    | (Raise e, s') => (Raise e, s')
    end.

(** An outcome computed without touching the state. *)
Definition lift {S A} (o : outcome A) : M S A := fun s => (o, s).

Declare Scope monad_scope.
Delimit Scope monad_scope with monad.
Notation "x <- m ;; k" := (bind m (fun x => k))
  (at level 20, m at level 99, k at level 200, only parsing) : monad_scope.
Notation "m ;; k" := (bind m (fun _ => k))
  (at level 100, k at level 200, only parsing, right associativity)
  : monad_scope.
Open Scope monad_scope.

(** [try: body / except ...: handler]: [handlers e] is the clause that
    catches [e], if one does.  The state reached when [e] was raised is
    kept. *)
Definition try_except {S} (body : M S unit) (handlers : exn -> option (M S unit))
  : M S unit :=
  fun s =>
    match body s with
    | (Ret tt, s') => (Ret tt, s')
    | (Raise e, s') =>
        match handlers e with
        | Some h => h s'
        | None => (Raise e, s')
        end
    end.

(** [try: body / finally: fin]: an exception of [fin] replaces the one of
    [body]. *)
Definition try_finally {S} (body : M S unit) (fin : M S unit) : M S unit :=
  fun s =>
    match body s with
    | (Ret tt, s') => fin s'
    | (Raise e, s') =>
        match fin s' with
        | (Ret tt, s'') => (Raise e, s'')
        | (Raise e', s'') => (Raise e', s'')
        end
    end.

(** The state of an assessor: its [results], the names it has bound among
    those the [finally] block asks about, and the log. *)
Record pstate : Type := mk_pstate {
  results : category;
  locals : list string;
  log : list event
}.

Definition emit (ev : event) : M pstate unit :=
  fun s => (Ret tt, mk_pstate (results s) (locals s) (log s ++ [ev])).

(** An outside call: logged, then its outcome. *)
Definition call {A} (ev : event) (o : outcome A) : M pstate A :=
  emit ev ;; lift o.

Definition update_results (f : category -> category) : M pstate unit :=
  fun s => (Ret tt, mk_pstate (f (results s)) (locals s) (log s)).

(** [results['details'][k] = v] *)
Definition set_detail (k v : string) : M pstate unit :=
  update_results (fun r =>
    mk_category (score r) (max_score r) (<[k := v]> (details r)) (issues r)).

(** [results['score'] += p] *)
Definition add_score (p : Z) : M pstate unit :=
  update_results (fun r =>
    mk_category (score r + p) (max_score r) (details r) (issues r)).

(** [results['issues'].append(i)] *)
Definition add_issue (i : string) : M pstate unit :=
  update_results (fun r =>
    mk_category (score r) (max_score r) (details r) (issues r ++ [i])).

Definition bind_local (name : string) : M pstate unit :=
  fun s => (Ret tt, mk_pstate (results s) (name :: locals s) (log s)).

Definition is_bound (name : string) (s : pstate) : bool :=
  existsb (String.eqb name) (locals s).

Definition init_results : category :=
  mk_category 0 100 ∅ [].

(** Runs the body of an assessor on fresh [results] and returns them. *)
Definition with_results (body : M pstate unit) : M (list event) category :=
  fun l =>
    match body (mk_pstate init_results [] l) with
    | (Ret tt, s) => (Ret (results s), log s)
    | (Raise e, s) => (Raise e, log s)
    end.

(** [except Exception as e] *)
Definition except_Exception {S} (h : exn -> M S unit) : exn -> option (M S unit) :=
  fun e => Some (h e).

(** [except C as e] for one of the classes that have a clause of their own *)
Definition except_class {S} (c : exn_class) (h : exn -> M S unit)
  : exn -> option (M S unit) :=
  fun e => if is_class c e then Some (h e) else None.

(** Two clauses in order: the first that matches handles. *)
Definition or_except {S} (h1 h2 : exn -> option (M S unit))
  : exn -> option (M S unit) :=
  fun e => match h1 e with Some h => Some h | None => h2 e end.

(** ** Parsing of command output *)

Definition is_digit (c : ascii) : bool :=
  let n := nat_of_ascii c in (48 <=? n)%nat && (n <=? 57)%nat.

Definition digit_value (c : ascii) : Z := Z.of_nat (nat_of_ascii c) - 48.

(** Decimal digits, single underscores allowed between two digits. *)
Fixpoint parse_digits (acc : Z) (after_digit : bool) (s : string) : option Z :=
  match s with
  | EmptyString => if after_digit then Some acc else None
  | String c t =>
      if is_digit c then parse_digits (10 * acc + digit_value c) true t
      else if Ascii.eqb c "_" && after_digit then parse_digits acc false t
      else None
  end.

(** [int(s)].  The message of the [ValueError] abbreviates [repr(s)]. *)
Definition py_int (s : string) : outcome Z :=
  let t := strip s in
  let parsed :=
    match t with
    | String "-" r => option_map Z.opp (parse_digits 0 false r)
    | String "+" r => parse_digits 0 false r
    | _ => parse_digits 0 false t
    end in
  match parsed with
  | Some z => Ret z
  | None => Raise (mk_exn ValueError
                     ("invalid literal for int() with base 10: '" +:+ s +:+ "'"))
  end.

(** [l[i]] *)
Definition list_item (l : list string) (i : nat) : outcome string :=
  match nth_error l i with
  | Some x => Ret x
  | None => Raise (mk_exn IndexError "list index out of range")
  end.

(** ** Code quality assessor *)

Section Assessors.

Variable cfg : list (string * json).
Variable w : world.

Definition run_command (argv : list string) : M pstate completed_process :=
  call (EvSubprocess argv) (subprocess_run w argv).

Definition backend_tests_probe : M pstate unit :=
  try_except
    (backend_result <- run_command ["mvn"; "test"; "-q"] ;;
     if returncode backend_result =? 0 then
       set_detail "backend_tests" "PASSED" ;;
       add_score 30
     else
       set_detail "backend_tests" "FAILED" ;;
       add_issue "Backend tests failing")
    (or_except
       (except_class TimeoutExpired (fun _ =>
          set_detail "backend_tests" "TIMEOUT" ;;
          add_issue "Backend tests timed out"))
       (except_Exception (fun e =>
          set_detail "backend_tests" ("ERROR: " +:+ str_exn e) ;;
          add_issue ("Backend test execution error: " +:+ str_exn e)))).

Definition test_coverage_probe : M pstate unit :=
  try_except
    (coverage_result <- run_command ["mvn"; "jacoco:report"; "-q"] ;;
     if returncode coverage_result =? 0 then
       set_detail "test_coverage" "GENERATED" ;;
       add_score 20
     else
       set_detail "test_coverage" "FAILED" ;;
       add_issue "Test coverage report generation failed")
    (except_Exception (fun e =>
       set_detail "test_coverage" ("ERROR: " +:+ str_exn e) ;;
       add_issue ("Coverage report error: " +:+ str_exn e))).

Definition static_analysis_probe : M pstate unit :=
  try_except
    (spotbugs_result <- run_command ["mvn"; "spotbugs:check"; "-q"] ;;
     if returncode spotbugs_result =? 0 then
       set_detail "static_analysis" "PASSED" ;;
       add_score 25
     else
       set_detail "static_analysis" "ISSUES_FOUND" ;;
       add_issue "Static analysis found issues")
    (except_Exception (fun e =>
       set_detail "static_analysis" ("ERROR: " +:+ str_exn e) ;;
       add_issue ("Static analysis error: " +:+ str_exn e))).

Definition security_scan_probe : M pstate unit :=
  try_except
    (security_result <- run_command ["mvn"; "dependency-check:check"; "-q"] ;;
     if returncode security_result =? 0 then
       set_detail "security_scan" "PASSED" ;;
       add_score 25
     else
       set_detail "security_scan" "VULNERABILITIES_FOUND" ;;
       add_issue "Security vulnerabilities detected")
    (except_Exception (fun e =>
       set_detail "security_scan" ("ERROR: " +:+ str_exn e) ;;
       add_issue ("Security scan error: " +:+ str_exn e))).

Definition code_quality_body : M pstate unit :=
  backend_tests_probe ;;
  test_coverage_probe ;;
  static_analysis_probe ;;
  security_scan_probe.

Definition assess_code_quality : M (list event) category :=
  with_results code_quality_body.

(** ** Database assessor *)

(** [**v]: the keyword arguments of a call must come from a mapping. *)
Definition as_mapping (v : json) : outcome (list (string * json)) :=
  match v with
  | JDict d => Ret d
  | _ => Raise (mk_exn TypeError
                  ("argument after ** must be a mapping, not " +:+ type_name v))
  end.

(** [cursor.fetchone()[0]] *)
Definition first_field (row : option Z) : outcome Z :=
  match row with
  | Some z => Ret z
  | None => Raise (mk_exn TypeError "'NoneType' object is not subscriptable")
  end.

(** The one [try] block of the assessor, in the order of its comments. *)
Definition open_connection : M pstate unit :=
  db_config <- lift (subscript (JDict cfg) "database") ;;
  kwargs <- lift (as_mapping db_config) ;;
  call EvDbConnect (db_connect w kwargs) ;;
  bind_local "connection" ;;
  call EvDbCursor (db_cursor w) ;;
  bind_local "cursor".

(** "Check database connectivity" *)
Definition connectivity_check : M pstate unit :=
  call (EvDbExecute SelectOne) (db_execute w SelectOne) ;;
  set_detail "connectivity" "OK" ;;
  add_score 20.

(** "Check table structure" *)
Definition table_structure_check : M pstate unit :=
  lift (config_item cfg "database" "database") ;;
  call (EvDbExecute SelectColumns) (db_execute w SelectColumns) ;;
  columns <- call (EvDbFetch SelectColumns) (db_fetchall w) ;;
  let decimal_columns :=
    List.filter (fun col => String.eqb (data_type col) "decimal") columns in
  if negb (is_empty_list decimal_columns) then
    set_detail "bigdecimal_columns"
      (str_nat (length decimal_columns) +:+ " found") ;;
    add_score 30
  else
    set_detail "bigdecimal_columns" "NOT_FOUND" ;;
    add_issue "BigDecimal columns not implemented".

(** "Check data integrity" *)
Definition data_integrity_check : M pstate unit :=
  call (EvDbExecute CountInputs) (db_execute w CountInputs) ;;
  input_row <- call (EvDbFetch CountInputs) (db_fetchone w CountInputs) ;;
  input_count <- lift (first_field input_row) ;;
  call (EvDbExecute CountOutputs) (db_execute w CountOutputs) ;;
  output_row <- call (EvDbFetch CountOutputs) (db_fetchone w CountOutputs) ;;
  output_count <- lift (first_field output_row) ;;
  if (0 <? input_count) && (0 <? output_count) then
    set_detail "data_integrity"
      ("Inputs: " +:+ str_Z input_count +:+ ", Outputs: " +:+ str_Z output_count) ;;
    add_score 25
  else
    set_detail "data_integrity" "NO_DATA" ;;
    add_issue "No test data available".

(** "Test query performance" *)
Definition query_performance_check : M pstate unit :=
  call (EvDbExecute JoinCount) (db_execute w JoinCount) ;;
  let query_time_ms := elapsed_ms w (EvDbExecute JoinCount) in
  threshold <- lift (config_item cfg "thresholds" "query_time_ms") ;;
  fast <- lift (py_lt "float" query_time_ms threshold) ;;
  if fast : bool then
    set_detail "query_performance" (format_2f query_time_ms +:+ "ms") ;;
    add_score 25
  else
    set_detail "query_performance" (format_2f query_time_ms +:+ "ms (SLOW)") ;;
    add_issue ("Query performance below threshold: "
               +:+ format_2f query_time_ms +:+ "ms").

Definition database_checks : M pstate unit :=
  connectivity_check ;;
  table_structure_check ;;
  data_integrity_check ;;
  query_performance_check.

Definition database_try_body : M pstate unit :=
  open_connection ;;
  database_checks.

(** The [finally] block: [cursor.close()] names a variable that is bound
    only once [connection.cursor()] has returned. *)
Definition database_finally : M pstate unit :=
  fun s =>
    (if is_bound "connection" s then
       connected <- call EvDbIsConnected (db_is_connected w) ;;
       if connected : bool then
         (if is_bound "cursor" s then ret tt
          else lift (Raise (mk_exn UnboundLocalError
                 "cannot access local variable 'cursor' where it is not associated with a value"))) ;;
         call EvDbCursorClose (db_cursor_close w) ;;
         call EvDbConnectionClose (db_connection_close w)
       else ret tt
     else ret tt) s.

(** The two [except] clauses, in order. *)
Definition database_handlers : exn -> option (M pstate unit) :=
  or_except
    (except_class MySQLError (fun e =>
       set_detail "database_error" (str_exn e) ;;
       add_issue ("Database connection error: " +:+ str_exn e)))
    (except_Exception (fun e =>
       set_detail "unexpected_error" (str_exn e) ;;
       add_issue ("Unexpected database error: " +:+ str_exn e))).

Definition database_body : M pstate unit :=
  try_finally
    (try_except database_try_body database_handlers)
    database_finally.

Definition assess_database_readiness : M (list event) category :=
  with_results database_body.

(** ** API assessor *)

Definition get (path : string) : M pstate response :=
  base <- lift (subscript (JDict cfg) "api_base_url") ;;
  call (EvHttpGet path) (http_get w base path).

Definition post (path : string) : M pstate response :=
  base <- lift (subscript (JDict cfg) "api_base_url") ;;
  call (EvHttpPost path) (http_post w base path).

Definition health_probe : M pstate unit :=
  try_except
    (health_response <- get "/actuator/health" ;;
     if status_code health_response =? 200 then
       set_detail "health_check" "OK" ;;
       add_score 25
     else
       set_detail "health_check" ("HTTP " +:+ str_Z (status_code health_response)) ;;
       add_issue ("Health check failed: " +:+ str_Z (status_code health_response)))
    (except_class RequestException (fun e =>
       set_detail "health_check" ("ERROR: " +:+ str_exn e) ;;
       add_issue ("Health check error: " +:+ str_exn e))).

Definition financial_probe : M pstate unit :=
  try_except
    (financial_response <- get "/api/financial-data/AAPL" ;;
     if status_code financial_response =? 200 then
       let response_text := text financial_response in
       (* Check for scientific notation *)
       (if str_in "e" (lower response_text) || str_in "E" response_text then
          set_detail "serialization" "SCIENTIFIC_NOTATION_DETECTED" ;;
          add_issue "API responses contain scientific notation"
        else
          set_detail "serialization" "OK" ;;
          add_score 25) ;;
       (* Check for decimal values *)
       (if str_in dquote response_text && str_in "." response_text then
          set_detail "decimal_format" "OK" ;;
          add_score 25
        else
          set_detail "decimal_format" "NO_DECIMALS" ;;
          add_issue "API responses missing decimal values")
     else
       set_detail "financial_endpoint"
         ("HTTP " +:+ str_Z (status_code financial_response)) ;;
       add_issue ("Financial data endpoint failed: "
                  +:+ str_Z (status_code financial_response)))
    (except_class RequestException (fun e =>
       set_detail "financial_endpoint" ("ERROR: " +:+ str_exn e) ;;
       add_issue ("Financial endpoint error: " +:+ str_exn e))).

Definition dcf_probe : M pstate unit :=
  try_except
    (dcf_response <- post "/api/dcf/calculate" ;;
     let response_time_ms := elapsed_ms w (EvHttpPost "/api/dcf/calculate") in
     if status_code dcf_response =? 200 then
       threshold <- lift (config_item cfg "thresholds" "response_time_ms") ;;
       fast <- lift (py_lt "float" response_time_ms threshold) ;;
       if fast : bool then
         set_detail "dcf_performance" (format_2f response_time_ms +:+ "ms") ;;
         add_score 25
       else
         set_detail "dcf_performance" (format_2f response_time_ms +:+ "ms (SLOW)") ;;
         add_issue ("DCF calculation too slow: "
                    +:+ format_2f response_time_ms +:+ "ms")
     else
       set_detail "dcf_endpoint" ("HTTP " +:+ str_Z (status_code dcf_response)) ;;
       add_issue ("DCF calculation failed: " +:+ str_Z (status_code dcf_response)))
    (except_class RequestException (fun e =>
       set_detail "dcf_endpoint" ("ERROR: " +:+ str_exn e) ;;
       add_issue ("DCF endpoint error: " +:+ str_exn e))).

Definition api_body : M pstate unit :=
  health_probe ;;
  financial_probe ;;
  dcf_probe.

Definition assess_api_readiness : M (list event) category :=
  with_results api_body.

(** ** System resources assessor *)

Definition newline : ascii := ascii_of_nat 10.

Definition memory_probe : M pstate unit :=
  try_except
    (java_processes <- run_command ["pgrep"; "-f"; "dcf-calculator"] ;;
     if negb (String.eqb (strip (stdout java_processes)) EmptyString) then
       let pid := hd EmptyString (split_on newline (strip (stdout java_processes))) in
       memory_info <- run_command ["ps"; "-p"; pid; "-o"; "rss="] ;;
       if negb (String.eqb (strip (stdout memory_info)) EmptyString) then
         memory_kb <- lift (py_int (strip (stdout memory_info))) ;;
         let memory_mb := memory_kb / 1024 in
         threshold <- lift (config_item cfg "thresholds" "memory_usage_mb") ;;
         low <- lift (py_lt "int" (inject_Z memory_mb) threshold) ;;
         if low : bool then
           set_detail "memory_usage" (str_Z memory_mb +:+ "MB") ;;
           add_score 40
         else
           set_detail "memory_usage" (str_Z memory_mb +:+ "MB (HIGH)") ;;
           add_issue ("High memory usage: " +:+ str_Z memory_mb +:+ "MB")
       else
         set_detail "memory_usage" "UNKNOWN" ;;
         add_issue "Could not determine memory usage"
     else
       set_detail "java_process" "NOT_RUNNING" ;;
       add_issue "Application not running")
    (except_Exception (fun e =>
       set_detail "resource_check" ("ERROR: " +:+ str_exn e) ;;
       add_issue ("Resource check error: " +:+ str_exn e))).

Definition disk_probe : M pstate unit :=
  try_except
    (disk_info <- run_command ["df"; "-h"; "."] ;;
     if returncode disk_info =? 0 then
       let lines := split_on newline (strip (stdout disk_info)) in
       if (1 <? length lines)%nat then
         line <- lift (list_item lines 1) ;;
         let disk_data := split_ws line in
         available <- lift (list_item disk_data 3) ;;
         field <- lift (list_item disk_data 4) ;;
         let usage_percent := rstrip_char "%" field in
         used <- lift (py_int usage_percent) ;;
         if used <? 90 then
           set_detail "disk_space"
             (available +:+ " available (" +:+ usage_percent +:+ "% used)") ;;
           add_score 30
         else
           set_detail "disk_space"
             (available +:+ " available (" +:+ usage_percent +:+ "% used) - LOW") ;;
           add_issue ("Low disk space: " +:+ usage_percent +:+ "% used")
       else ret tt
     else ret tt)
    (except_Exception (fun e =>
       set_detail "disk_check" ("ERROR: " +:+ str_exn e) ;;
       add_issue ("Disk space check error: " +:+ str_exn e))).

Definition load_probe : M pstate unit :=
  try_except
    (load_info <- run_command ["uptime"] ;;
     if returncode load_info =? 0 then
       set_detail "system_load" (strip (stdout load_info)) ;;
       add_score 30
     else ret tt)
    (except_Exception (fun e =>
       set_detail "load_check" ("ERROR: " +:+ str_exn e))).

Definition system_body : M pstate unit :=
  memory_probe ;;
  disk_probe ;;
  load_probe.

Definition assess_system_resources : M (list event) category :=
  with_results system_body.

(** ** The run *)

(** [self.results['categories']] once the four assessors have returned. *)
Definition run_categories (c1 c2 c3 c4 : category) : list (string * category) :=
  [("code_quality", c1); ("database", c2); ("api", c3); ("system_resources", c4)].

Definition run_assessment : M (list event) report :=
  code_quality <- assess_code_quality ;;
  database <- assess_database_readiness ;;
  api <- assess_api_readiness ;;
  system_resources <- assess_system_resources ;;
  let cats := run_categories code_quality database api system_resources in
  rs <- lift (compute_readiness_score cats) ;;
  let sorted := collect_issues cats ([], []) in
  let st := determine_status rs (fst sorted) in
  recs <- lift (generate_recommendations cats) ;;
  ret (mk_report (now w) st rs cats (fst sorted) (snd sorted) recs).

End Assessors.

(** ** The console summary of [main] *)

Definition nl : string := String newline EmptyString.

Definition is_lower_case (c : ascii) : bool :=
  let n := nat_of_ascii c in (97 <=? n)%nat && (n <=? 122)%nat.

Definition upper_char (c : ascii) : ascii :=
  if is_lower_case c then ascii_of_nat (nat_of_ascii c - 32) else c.

(** [s.title()]: a letter that follows a letter is lower-cased, any other
    letter is upper-cased. *)
Fixpoint title_from (after_letter : bool) (s : string) : string :=
  match s with
  | EmptyString => EmptyString
  | String c t =>
      String (if after_letter then lower_char c else upper_char c)
        (title_from (is_upper c || is_lower_case c) t)
  end.

Definition title (s : string) : string := title_from false s.

(** [s.replace(a, b)] for one-character arguments *)
Fixpoint replace_char (a b : ascii) (s : string) : string :=
  match s with
  | EmptyString => EmptyString
  | String c t => String (if Ascii.eqb c a then b else c) (replace_char a b t)
  end.

(** [f'{q:.1f}'] *)
Definition format_1f (q : Q) : string :=
  let c := round_half_even (q * 10)%Q in
  let a := Z.abs c in
  (if (c <? 0) || ((c =? 0) && (Qnum q <? 0)) then "-" else "")
  +:+ str_Z (a / 10) +:+ "." +:+ str_Z (a mod 10).

(** ["=" * 60] *)
Definition rule : string := string_of_list_ascii (List.repeat "="%char 60).

(** One line of "Category Scores". *)
Definition category_line (name : string) (data : category) : string :=
  let score_pct :=
    if 0 <? max_score data
    then (inject_Z (score data) / inject_Z (max_score data) * 100)%Q
    else 0%Q in
  "  " +:+ title (replace_char "_" " " name) +:+ ": " +:+ format_1f score_pct
  +:+ "% (" +:+ str_Z (score data) +:+ "/" +:+ str_Z (max_score data) +:+ ")".

Definition critical_lines (l : list string) : list string :=
  if is_empty_list l then []
  else (nl +:+ "Critical Issues (" +:+ str_nat (length l) +:+ "):")
       :: map (fun issue => "  ❌ " +:+ issue) l.

(** The first five warnings, then the number of the others. *)
Definition warning_lines (l : list string) : list string :=
  if is_empty_list l then []
  else (nl +:+ "Warnings (" +:+ str_nat (length l) +:+ "):")
       :: map (fun warning => "  ⚠️ " +:+ warning) (firstn 5 l)
       ++ (if (5 <? length l)%nat
           then ["  ... and " +:+ str_nat (length l - 5) +:+ " more warnings"]
           else []).

(** The arguments of the calls of [print] under "Print summary", in order. *)
Definition print_summary (results : report) : list string :=
  [nl +:+ rule;
   "DEPLOYMENT READINESS ASSESSMENT SUMMARY";
   rule;
   "Overall Status: " +:+ status_string (overall_status results);
   "Readiness Score: " +:+ format_1f (readiness_score results) +:+ "%";
   nl +:+ "Category Scores:"]
  ++ map (fun c => category_line (fst c) (snd c)) (categories results)
  ++ critical_lines (critical_issues results)
  ++ warning_lines (warnings results)
  ++ (nl +:+ "Recommendations:")
     :: map (fun recommendation => "  " +:+ recommendation)
          (recommendations results).

(** ** The console *)

Definition is_ascii (s : string) : bool :=
  forallb (fun c => (nat_of_ascii c <? 128)%nat) (list_ascii_of_string s).

(** [print(line)]: a line of ASCII text is always written; any other line is
    first encoded by the encoding of the console. *)
Definition print (w : world) (line : string) : outcome unit :=
  if is_ascii line then Ret tt else stdout_encode w line.

(** One call of [print] for each line, until one raises. *)
Fixpoint print_all (w : world) (lines : list string) : outcome unit :=
  match lines with
  | [] => Ret tt
  | line :: rest =>
      match print w line with
      | Ret _ => print_all w rest
      | Raise e => Raise e
      end
  end.

(** ** Configuration loading, report writing and the entry point *)

(** An outside call made outside any assessor. *)
Definition log_call {A} (ev : event) (o : outcome A) : M (list event) A :=
  fun l => (o, l ++ [ev]).

Definition load_config (w : world) (config_file : option string)
  : M (list event) (list (string * json)) :=
  let default := default_config (env_db_password w) in
  match config_file with
  | Some path =>
      if negb (String.eqb path EmptyString) && path_exists w path then
        user_config <- log_call (EvReadConfig path) (read_json w path) ;;
        lift (dict_update default user_config)
      else ret default
  | None => ret default
  end.

Definition save_report (w : world) : M (list event) unit :=
  log_call EvSaveReport (write_report w).

(** How the process ends: [sys.exit(code)], or an exception nobody caught
    (the interpreter prints a traceback and the exit status is 1). *)
Inductive process_result : Type :=
| Exited (code : Z)
| Uncaught (e : exn).

Definition exit_status (r : process_result) : Z :=
  match r with
  | Exited code => code
  | Uncaught _ => 1
  end.

Definition exit_code (st : status) : Z :=
  match st with
  | READY => 0
  | READY_WITH_WARNINGS => 1
  | _ => 2
  end.

(** [main] up to the call of [sys.exit]; [argv] is [sys.argv].  The line
    that names the report file is ASCII text and is left out. *)
Definition program (argv : list string) (w : world) : M (list event) report :=
  let config_file := nth_error argv 1 in
  cfg <- load_config w config_file ;;
  rep <- run_assessment cfg w ;;
  save_report w ;;
  lift (print_all w (print_summary rep)) ;;
  ret rep.

Definition main (argv : list string) (w : world) : process_result * list event :=
  match program argv w [] with
  | (Ret rep, l) => (Exited (exit_code (overall_status rep)), l)
  | (Raise e, l) => (Uncaught e, l)
  end.

(** ** Concrete worlds *)

Definition ok_process (out : string) : outcome completed_process :=
  Ret (mk_completed 0 out).

(** Every collaborator answers and every check passes. *)
Definition healthy_subprocess (argv : list string) : outcome completed_process :=
  let cmd := hd EmptyString argv in
  if String.eqb cmd "pgrep" then ok_process ("4242" +:+ nl)
  else if String.eqb cmd "ps" then ok_process (" 524288" +:+ nl)
  else if String.eqb cmd "df" then
    ok_process ("Filesystem Size Used Avail Use% Mounted on" +:+ nl
                +:+ "/dev/sda1 100G 40G 60G 40% /" +:+ nl)
  else if String.eqb cmd "uptime" then
    ok_process (" 10:00 up 1 day, load average: 0.10, 0.20, 0.30" +:+ nl)
  else ok_process EmptyString.

Definition healthy_get (base : json) (path : string) : outcome response :=
  if String.eqb path "/actuator/health" then Ret (mk_response 200 "UP")
  else Ret (mk_response 200 (dquote +:+ "123.45" +:+ dquote)).

Definition healthy_world : world :=
  {| now := "2025-01-01T00:00:00";
     env_db_password := "";
     path_exists := fun _ => false;
     read_json := fun _ => Raise (mk_exn OSError "No such file or directory");
     subprocess_run := healthy_subprocess;
     db_connect := fun _ => Ret tt;
     db_cursor := Ret tt;
     db_execute := fun _ => Ret tt;
     db_fetchall :=
       Ret [mk_column "dcf_inputs" "discount_rate" "decimal" (Some 20) (Some 10)];
     db_fetchone := fun _ => Ret (Some 5);
     db_is_connected := Ret true;
     db_cursor_close := Ret tt;
     db_connection_close := Ret tt;
     http_get := healthy_get;
     http_post := fun _ _ => Ret (mk_response 200 "{}");
     elapsed_ms := fun _ => 12%Q;
     write_report := Ret tt;
     stdout_encode := fun _ => Ret tt |}.

Definition set_subprocess (f : list string -> outcome completed_process)
  (w : world) : world :=
  mk_world (now w) (env_db_password w) (path_exists w) (read_json w) f
    (db_connect w) (db_cursor w) (db_execute w) (db_fetchall w) (db_fetchone w)
    (db_is_connected w) (db_cursor_close w) (db_connection_close w)
    (http_get w) (http_post w) (elapsed_ms w) (write_report w)
    (stdout_encode w).

Definition set_db_connect (f : list (string * json) -> outcome unit)
  (w : world) : world :=
  mk_world (now w) (env_db_password w) (path_exists w) (read_json w)
    (subprocess_run w) f (db_cursor w) (db_execute w) (db_fetchall w)
    (db_fetchone w) (db_is_connected w) (db_cursor_close w)
    (db_connection_close w) (http_get w) (http_post w) (elapsed_ms w)
    (write_report w)
    (stdout_encode w).

Definition set_db_execute (f : query -> outcome unit) (w : world) : world :=
  mk_world (now w) (env_db_password w) (path_exists w) (read_json w)
    (subprocess_run w) (db_connect w) (db_cursor w) f (db_fetchall w)
    (db_fetchone w) (db_is_connected w) (db_cursor_close w)
    (db_connection_close w) (http_get w) (http_post w) (elapsed_ms w)
    (write_report w)
    (stdout_encode w).

Definition set_config_file (exists_ : string -> bool)
  (read : string -> outcome json) (w : world) : world :=
  mk_world (now w) (env_db_password w) exists_ read
    (subprocess_run w) (db_connect w) (db_cursor w) (db_execute w)
    (db_fetchall w) (db_fetchone w) (db_is_connected w) (db_cursor_close w)
    (db_connection_close w) (http_get w) (http_post w) (elapsed_ms w)
    (write_report w)
    (stdout_encode w).

Definition set_elapsed_ms (f : event -> Q) (w : world) : world :=
  mk_world (now w) (env_db_password w) (path_exists w) (read_json w)
    (subprocess_run w) (db_connect w) (db_cursor w) (db_execute w)
    (db_fetchall w) (db_fetchone w) (db_is_connected w) (db_cursor_close w)
    (db_connection_close w) (http_get w) (http_post w) f (write_report w)
    (stdout_encode w).

(** The same, with one command answered differently. *)
Definition override_command (cmd : string) (o : outcome completed_process)
  (f : list string -> outcome completed_process)
  : list string -> outcome completed_process :=
  fun argv =>
    if existsb (String.eqb cmd) argv then o else f argv.

(** The coverage report exits with status 1. *)
Definition coverage_failed_world : world :=
  set_subprocess
    (override_command "jacoco:report" (Ret (mk_completed 1 EmptyString))
       healthy_subprocess)
    healthy_world.

(** The database refuses the connection. *)
Definition db_down_world : world :=
  set_db_connect
    (fun _ => Raise (mk_exn MySQLError "2003: Can't connect to MySQL server"))
    healthy_world.

(** The connection is fine; the columns query is refused. *)
Definition schema_denied_world : world :=
  set_db_execute
    (fun q => match q with
              | SelectColumns =>
                  Raise (mk_exn MySQLError "1142: SELECT command denied")
              | _ => Ret tt
              end)
    healthy_world.

(** [uptime] cannot be started and [df] exits with status 1. *)
Definition no_uptime_world : world :=
  set_subprocess
    (override_command "uptime"
       (Raise (mk_exn OSError "No such file or directory: 'uptime'"))
       (override_command "df" (Ret (mk_completed 1 EmptyString))
          healthy_subprocess))
    healthy_world.

(** The calculation endpoint takes five seconds and the application holds
    three gigabytes. *)
Definition slow_and_big_world : world :=
  set_elapsed_ms (fun _ => 5000%Q)
    (set_subprocess
       (override_command "ps" (ok_process ("3145728" +:+ nl)) healthy_subprocess)
       healthy_world).

(** A configuration file that is not JSON. *)
Definition bad_config_world : world :=
  set_config_file (fun _ => true)
    (fun _ => Raise (mk_exn JSONDecodeError
                       "Expecting value: line 1 column 1 (char 0)"))
    healthy_world.

(** ** Specification predicates *)

(** [m] relates every state to the one it leaves by [R p]; the grade [p]
    adds up along a sequence. *)
Definition graded (R : Z -> pstate -> pstate -> Prop) {A} (p : Z)
  (m : M pstate A) : Prop :=
  forall s, R p s (snd (m s)).

Definition hgraded (R : Z -> pstate -> pstate -> Prop) (q : Z)
  (handlers : exn -> option (M pstate unit)) : Prop :=
  forall e h, handlers e = Some h -> graded R q h.

(** What a step of an assessor may do to its state: the score grows, by at
    most [p]; the maximum stays; the issues and the log are appended to. *)
Definition step_rel (p : Z) (s s' : pstate) : Prop :=
  score (results s) <= score (results s') <= score (results s) + p /\
  max_score (results s') = max_score (results s) /\
  (exists l, issues (results s') = issues (results s) ++ l) /\
  (exists l, log s' = log s ++ l).

Definition keeps_locals (p : Z) (s s' : pstate) : Prop :=
  locals s' = locals s.

(** [m] returns from every state. *)
Definition total {A} (m : M pstate A) : Prop :=
  forall s, exists a s', m s = (Ret a, s').

(** The first thing [m] does is the outside call [ev]. *)
Definition starts_with_call {A} (ev : event) (m : M pstate A) : Prop :=
  forall s, exists l, log (snd (m s)) = log s ++ ev :: l.

(** When the block returns it has written one entry of [details], under one
    of [keys], and either earned [points] and raised no issue, or earned
    nothing and appended one issue. *)
Definition probe_outcome (keys : list string) (points : Z) (m : M pstate unit)
  : Prop :=
  forall s s', m s = (Ret tt, s') ->
    exists k v,
      In k keys /\
      details (results s') = <[k := v]> (details (results s)) /\
      ((score (results s') = score (results s) + points /\
        issues (results s') = issues (results s)) \/
       (score (results s') = score (results s) /\
        exists i, issues (results s') = issues (results s) ++ [i])).

(** When the block returns it has earned all of [p] and raised no issue, or
    it has earned less than [p]. *)
Definition all_or_less (p : Z) (m : M pstate unit) : Prop :=
  forall s s', m s = (Ret tt, s') ->
    (score (results s') = score (results s) + p /\
     issues (results s') = issues (results s)) \/
    score (results s') < score (results s) + p.

(** The [finally] block of the database assessor does not raise: the
    connection reports closed, or the cursor exists and both close. *)
Definition cleanup_ok (w : world) : Prop :=
  db_is_connected w = Ret false \/
  (db_is_connected w = Ret true /\ db_cursor w = Ret tt /\
   db_cursor_close w = Ret tt /\ db_connection_close w = Ret tt).

Definition is_number (v : json) : bool :=
  match v with
  | JInt _ | JFloat _ | JBool _ => true
  | _ => false
  end.

(** What the API assessor reads from the configuration is there. *)
Definition api_config_ok (cfg : list (string * json)) : Prop :=
  (exists base, dict_get "api_base_url" cfg = Some base) /\
  (exists v, config_item cfg "thresholds" "response_time_ms" = Ret v /\
             is_number v = true).

(** A failed request raises a [RequestException], the class the API
    assessor catches. *)
Definition http_failures_handled (w : world) : Prop :=
  forall base path e,
    (http_get w base path = Raise e -> is_class RequestException e = true) /\
    (http_post w base path = Raise e -> is_class RequestException e = true).

(** The calls that the three assessors with one [try] per probe make. *)
Definition code_quality_events : list event :=
  [EvSubprocess ["mvn"; "test"; "-q"];
   EvSubprocess ["mvn"; "jacoco:report"; "-q"];
   EvSubprocess ["mvn"; "spotbugs:check"; "-q"];
   EvSubprocess ["mvn"; "dependency-check:check"; "-q"]].

Definition api_events : list event :=
  [EvHttpGet "/actuator/health";
   EvHttpGet "/api/financial-data/AAPL";
   EvHttpPost "/api/dcf/calculate"].

Definition system_events : list event :=
  [EvSubprocess ["pgrep"; "-f"; "dcf-calculator"];
   EvSubprocess ["df"; "-h"; "."];
   EvSubprocess ["uptime"]].

Definition always_attempted : list event :=
  code_quality_events ++ api_events ++ system_events.

(** Three perfect categories and one that earned nothing. *)
Definition sample_categories : list (string * category) :=
  run_categories (mk_category 100 100 ∅ []) (mk_category 0 100 ∅ [])
    (mk_category 100 100 ∅ []) (mk_category 100 100 ∅ []).

(** The unit tests exit with status 1. *)
Definition tests_failed_world : world :=
  set_subprocess
    (override_command "test" (Ret (mk_completed 1 EmptyString))
       healthy_subprocess)
    healthy_world.

(** Two categories whose issues mention "slow" and "memory". *)
Definition slow_memory_categories : list (string * category) :=
  [("api", mk_category 75 100 ∅ ["DCF calculation too slow: 5000.00ms"]);
   ("system_resources", mk_category 60 100 ∅ ["High memory usage: 3072MB"])].

(** The blocks of the four assessors, each with the points it can earn. *)
Definition probe_blocks (cfg : list (string * json)) (w : world)
  : list (M pstate unit * Z) :=
  [(backend_tests_probe w, 30); (test_coverage_probe w, 20);
   (static_analysis_probe w, 25); (security_scan_probe w, 25);
   (open_connection cfg w, 0); (connectivity_check w, 20);
   (table_structure_check cfg w, 30); (data_integrity_check w, 25);
   (query_performance_check cfg w, 25); (database_finally w, 0);
   (health_probe cfg w, 25); (financial_probe cfg w, 50);
   (dcf_probe cfg w, 25);
   (memory_probe cfg w, 40); (disk_probe w, 30); (load_probe w, 30)].

(** The blocks that record every outcome they handle as one entry of
    [details] and either their points or one issue, with the keys of the
    entry and the points. *)
Definition recording_probes (cfg : list (string * json)) (w : world)
  : list (M pstate unit * list string * Z) :=
  [(backend_tests_probe w, ["backend_tests"], 30);
   (test_coverage_probe w, ["test_coverage"], 20);
   (static_analysis_probe w, ["static_analysis"], 25);
   (security_scan_probe w, ["security_scan"], 25);
   (health_probe cfg w, ["health_check"], 25);
   (dcf_probe cfg w, ["dcf_performance"; "dcf_endpoint"], 25);
   (memory_probe cfg w, ["memory_usage"; "java_process"; "resource_check"], 40)].

(** ** Symbolic execution of a block *)

Ltac proj :=
  cbn [results locals log score max_score details issues fst snd] in *.

Ltac exec_in H :=
  unfold run_command, get, post, call in H;
  unfold try_except, or_except, except_class, except_Exception, bind, ret, lift,
    emit, set_detail, add_score, add_issue, update_results, bind_local in H;
  proj.

Ltac exec :=
  unfold run_command, get, post, call;
  unfold try_except, or_except, except_class, except_Exception, bind, ret, lift,
    emit, set_detail, add_score, add_issue, update_results, bind_local;
  proj.

(** Case analysis on the innermost scrutinee, until none is left. *)
Ltac split_in H :=
  repeat (match type of H with
          | context [match ?x with _ => _ end] =>
              lazymatch x with
              | context [match _ with _ => _ end] => fail
              | _ => destruct x eqn:?
              end
          end; proj).

Ltac split_goal :=
  repeat (match goal with
          | |- context [match ?x with _ => _ end] =>
              lazymatch x with
              | context [match _ with _ => _ end] => fail
              | _ => destruct x eqn:?
              end
          end; proj).

Ltac outcome_leaf :=
  match goal with
  | H : (Raise _, _) = (Ret _, _) |- _ => discriminate H
  | H : (Ret _, ?s1) = (Ret _, ?s2) |- _ =>
      injection H as <-; proj;
      eexists _, _;
      (split;
       [ | split;
           [ reflexivity
           | first [ left; split; [ lia | reflexivity ]
                   | right; split; [ lia | eexists; reflexivity ] ] ] ]);
      cbn [In]; eauto 10
  end.

Ltac prove_outcome probe :=
  intros s s' H; unfold probe in H; exec_in H; split_in H; outcome_leaf.

Ltac prove_log probe :=
  intros s; unfold probe; exec; split_goal;
  rewrite <- ?app_assoc; cbn [app]; try eexists; reflexivity.

Ltac less_leaf :=
  match goal with
  | H : (Raise _, _) = (Ret _, _) |- _ => discriminate H
  | H : (Ret _, ?s1) = (Ret _, ?s2) |- _ =>
      injection H as <-; proj;
      first [ left; split; [ lia | reflexivity ] | right; lia ]
  end.

Ltac prove_less probe :=
  intros s s' H; unfold probe in H; exec_in H; split_in H; less_leaf.

(** A call that is not in a concrete log. *)
Ltac not_in_log :=
  let H := fresh in
  intros H; cbn [In] in H;
  repeat (destruct H as [H|H]; [discriminate H|]); contradiction.

Ltac financial_leaf :=
  match goal with
  | H : (Raise _, _) = (Ret _, _) |- _ => discriminate H
  | H : (Ret _, ?s1) = (Ret _, ?s2) |- _ =>
      injection H as <-; proj; rewrite <- ?app_assoc; cbn [app];
      first [ left; eexists _, _, _;
              (split; [reflexivity|]);
              (split; [first [reflexivity | symmetry; apply app_nil_r]|]);
              cbn [length]; split; lia
            | right; eexists _, _;
              (split; [reflexivity|]); split; [lia | reflexivity] ]
  end.


(** A block that earns [p] points only when all went well: if it returns,
    either it earned exactly [p] and raised no issue, or it earned less and
    raised one; if it raises, it earned less than [p] (when [p] is not 0). *)
Definition strict (p : Z) (m : M pstate unit) : Prop :=
  forall s o s', m s = (o, s') ->
    exists new,
      issues (results s') = issues (results s) ++ new /\
      match o with
      | Ret _ =>
          (score (results s') = score (results s) + p /\ new = []) \/
          (score (results s') < score (results s) + p /\ new <> [])
      | Raise _ =>
          score (results s') <= score (results s) + p /\
          (0 < p -> score (results s') < score (results s) + p)
      end.

Ltac strict_leaf :=
  match goal with
  | H : (_, _) = (?o, ?s2) |- _ =>
      injection H as <- <-; proj; rewrite <- ?app_assoc; cbn [app];
      eexists;
      (split; [first [reflexivity | symmetry; apply app_nil_r]|]);
      first [ left; split; [lia | reflexivity]
            | right; split; [lia | discriminate]
            | split; [lia | intros; lia] ]
  end.

Ltac prove_strict probe :=
  intros s o s' H; unfold probe in H; exec_in H; split_in H; strict_leaf.

(** The coverage report does not finish within its 120 seconds. *)
Definition coverage_timeout_world : world :=
  set_subprocess
    (override_command "jacoco:report"
       (Raise (mk_exn TimeoutExpired "timed out after 120 seconds"))
       healthy_subprocess)
    healthy_world.


(** An override document that gives one threshold only. *)
Definition partial_thresholds : json :=
  JDict [("thresholds", JDict [("query_time_ms", JInt 500)])].

(** The same healthy world, with that document as [config.json]. *)
Definition partial_thresholds_world : world :=
  set_config_file (fun _ => true) (fun _ => Ret partial_thresholds)
    healthy_world.


(** The calls a cursor answers. *)
Definition is_query (ev : event) : bool :=
  match ev with
  | EvDbExecute _ | EvDbFetch _ => true
  | _ => false
  end.

(** The calls an assessor may make: all but reading the configuration and
    writing the report. *)
Definition is_assessor_call (ev : event) : bool :=
  match ev with
  | EvReadConfig _ | EvSaveReport => false
  | _ => true
  end.

(** A step that makes calls of one kind only. *)
Definition emits_only (P : event -> bool) (p : Z) (s s' : pstate) : Prop :=
  exists l, log s' = log s ++ l /\ forallb P l = true.

Definition unbound_cursor : exn :=
  mk_exn UnboundLocalError
    "cannot access local variable 'cursor' where it is not associated with a value".

Definition set_db_cursor (o : outcome unit) (w : world) : world :=
  mk_world (now w) (env_db_password w) (path_exists w) (read_json w)
    (subprocess_run w) (db_connect w) o (db_execute w) (db_fetchall w)
    (db_fetchone w) (db_is_connected w) (db_cursor_close w)
    (db_connection_close w) (http_get w) (http_post w) (elapsed_ms w)
    (write_report w)
    (stdout_encode w).


Definition set_http_get (f : json -> string -> outcome response) (w : world)
  : world :=
  mk_world (now w) (env_db_password w) (path_exists w) (read_json w)
    (subprocess_run w) (db_connect w) (db_cursor w) (db_execute w)
    (db_fetchall w) (db_fetchone w) (db_is_connected w) (db_cursor_close w)
    (db_connection_close w) f (http_post w) (elapsed_ms w) (write_report w)
    (stdout_encode w).


(** The unit tests, the static analysis and the dependency check exit with
    status 1, every timed call takes five seconds and the application holds
    three gigabytes. *)
Definition many_warnings_world : world :=
  set_elapsed_ms (fun _ => 5000%Q)
    (set_subprocess
       (override_command "ps" (ok_process ("3145728" +:+ nl))
          (override_command "test" (Ret (mk_completed 1 EmptyString))
             (override_command "spotbugs:check" (Ret (mk_completed 1 EmptyString))
                (override_command "dependency-check:check"
                   (Ret (mk_completed 1 EmptyString)) healthy_subprocess))))
       healthy_world).

(** The calls of the System Resources assessor. *)
Definition is_system_call (ev : event) : bool :=
  match ev with
  | EvSubprocess (cmd :: _) =>
      existsb (String.eqb cmd) ["pgrep"; "ps"; "df"; "uptime"]
  | _ => false
  end.

Definition not_system_call (ev : event) : bool := negb (is_system_call ev).

(** The console encodes every line. *)
Definition console_ok (w : world) : Prop :=
  forall line, stdout_encode w line = Ret tt.

(** The number a configured value stands for in a comparison. *)
Definition number_value (v : json) : Q :=
  match v with
  | JInt z => inject_Z z
  | JFloat q => q
  | JBool b => if b then 1%Q else 0%Q
  | _ => 0%Q
  end.

(** * Properties *)

(** ** Strings *)

Lemma append_cons (c : ascii) (a b : string) :
  String c a +:+ b = String c (a +:+ b).
Proof. reflexivity. Qed.

Lemma lower_app (a b : string) : lower (a +:+ b) = lower a +:+ lower b.
Proof.
  induction a as [|c a IH]; [reflexivity|].
  cbn [lower]. rewrite !append_cons. cbn [lower]. now rewrite IH.
Qed.

Lemma prefix_app (k a b : string) :
  String.prefix k a = true -> String.prefix k (a +:+ b) = true.
Proof.
  revert a; induction k as [|c k IH]; intros a H;
    [destruct (a +:+ b); reflexivity|].
  destruct a as [|c' a]; [discriminate|].
  rewrite append_cons. cbn [String.prefix] in *.
  destruct (ascii_dec c c'); [now apply IH | discriminate].
Qed.

Lemma str_in_app_l (k a b : string) :
  str_in k a = true -> str_in k (a +:+ b) = true.
Proof.
  induction a as [|c a IH]; intros H.
  - cbn [str_in] in H. rewrite orb_false_r in H.
    destruct k; [|discriminate].
    destruct b; reflexivity.
  - rewrite append_cons.
    change (str_in k (String c a)) with
      (String.prefix k (String c a) || str_in k a) in H.
    change (str_in k (String c (a +:+ b))) with
      (String.prefix k (String c (a +:+ b)) || str_in k (a +:+ b)).
    apply orb_true_iff in H as [H|H]; apply orb_true_iff.
    + left. now apply (prefix_app k (String c a) b).
    + right. now apply IH.
Qed.

(** ** The issue classifier *)

Lemma is_critical_iff (issue : string) :
  is_critical issue = true <->
  exists kw, In kw critical_keywords /\ str_in kw (lower issue) = true.
Proof. unfold is_critical. apply existsb_exists. Qed.

Lemma not_critical_iff (issue : string) :
  is_critical issue = false <->
  forall kw, In kw critical_keywords -> str_in kw (lower issue) = false.
Proof.
  split.
  - intros H kw Hkw. destruct (str_in kw (lower issue)) eqn:E; [|reflexivity].
    assert (is_critical issue = true) by (apply is_critical_iff; eauto).
    congruence.
  - intros H. destruct (is_critical issue) eqn:E; [|reflexivity].
    apply is_critical_iff in E as (kw & Hkw & Hin).
    rewrite (H kw Hkw) in Hin. discriminate.
Qed.

Lemma fold_classify (l : list string) (c wn : list string) :
  fold_left classify_issue l (c, wn) =
  (c ++ List.filter is_critical l,
   wn ++ List.filter (fun i => negb (is_critical i)) l).
Proof.
  revert c wn; induction l as [|i l IH]; intros c wn; cbn [fold_left List.filter].
  - now rewrite !app_nil_r.
  - unfold classify_issue at 2. cbn [fst snd].
    destruct (is_critical i); cbn [negb]; rewrite IH.
    + now rewrite <- app_assoc.
    + now rewrite <- app_assoc.
Qed.

Lemma collect_issues_filter (cats : list (string * category)) (c wn : list string) :
  collect_issues cats (c, wn) =
  (c ++ List.filter is_critical (all_issues cats),
   wn ++ List.filter (fun i => negb (is_critical i)) (all_issues cats)).
Proof.
  unfold collect_issues, all_issues.
  revert c wn; induction cats as [|cat cats IH]; intros c wn;
    cbn [fold_left map concat].
  - now rewrite !app_nil_r.
  - rewrite fold_classify, IH, !List.filter_app, !app_assoc. reflexivity.
Qed.

(** ** The status policy *)

Lemma is_empty_list_length {A} (l : list A) :
  is_empty_list l = true <-> length l = 0%nat.
Proof. destruct l; cbn; split; intros; (reflexivity || discriminate). Qed.

Lemma determine_status_cases (rs : Q) (critical : list string) :
  let gate1 := (90 <= rs)%Q /\ length critical = 0%nat in
  let gate2 := (70 <= rs)%Q /\ (length critical <= 2)%nat in
  (determine_status rs critical = READY <-> gate1) /\
  (determine_status rs critical = READY_WITH_WARNINGS <-> ~ gate1 /\ gate2) /\
  (determine_status rs critical = NOT_READY <-> ~ gate1 /\ ~ gate2).
Proof.
  intros gate1 gate2.
  assert (G1 : Qle_bool 90 rs && is_empty_list critical = true <-> gate1).
  { unfold gate1. rewrite andb_true_iff, Qle_bool_iff, is_empty_list_length.
    reflexivity. }
  assert (G2 : Qle_bool 70 rs && (length critical <=? 2)%nat = true <-> gate2).
  { unfold gate2. rewrite andb_true_iff, Qle_bool_iff, Nat.leb_le. reflexivity. }
  clearbody gate1 gate2. unfold determine_status.
  destruct (Qle_bool 90 rs && is_empty_list critical) eqn:E1.
  - assert (gate1) by now apply G1.
    repeat split; intros; try discriminate; tauto.
  - assert (~ gate1) by (intros g; apply G1 in g; discriminate).
    destruct (Qle_bool 70 rs && (length critical <=? 2)%nat) eqn:E2.
    + assert (gate2) by now apply G2.
      repeat split; intros; try discriminate; tauto.
    + assert (~ gate2) by (intros g; apply G2 in g; discriminate).
      repeat split; intros; try discriminate; tauto.
Qed.

(** ** Unfolding a run *)

Lemma bind_ret_inv {S A B} (m : M S A) (k : A -> M S B) (s s'' : S) (b : B) :
  bind m k s = (Ret b, s'') ->
  exists a s', m s = (Ret a, s') /\ k a s' = (Ret b, s'').
Proof.
  unfold bind. destruct (m s) as [[a|e] s']; intros H; [eauto | discriminate].
Qed.

(** What a completed run is made of. *)
Lemma run_assessment_inv cfg w l rep l' :
  run_assessment cfg w l = (Ret rep, l') ->
  exists c1 c2 c3 c4 l1 l2 l3 rs,
    assess_code_quality w l = (Ret c1, l1) /\
    assess_database_readiness cfg w l1 = (Ret c2, l2) /\
    assess_api_readiness cfg w l2 = (Ret c3, l3) /\
    assess_system_resources cfg w l3 = (Ret c4, l') /\
    let cats := run_categories c1 c2 c3 c4 in
    let sorted := collect_issues cats ([], []) in
    compute_readiness_score cats = Ret rs /\
    generate_recommendations cats = Ret (recommendations rep) /\
    rep = mk_report (now w) (determine_status rs (fst sorted)) rs cats
            (fst sorted) (snd sorted) (recommendations rep).
Proof.
  unfold run_assessment. intros H.
  apply bind_ret_inv in H as (c1 & l1 & H1 & H).
  apply bind_ret_inv in H as (c2 & l2 & H2 & H).
  apply bind_ret_inv in H as (c3 & l3 & H3 & H).
  apply bind_ret_inv in H as (c4 & l4 & H4 & H).
  apply bind_ret_inv in H as (rs & l5 & H5 & H).
  apply bind_ret_inv in H as (recs & l6 & H6 & H).
  unfold lift in H5, H6. unfold ret in H.
  injection H5 as H5 <-. injection H6 as H6 <-. injection H as <- <-.
  exists c1, c2, c3, c4, l1, l2, l3, rs. cbn [recommendations].
  repeat split; assumption.
Qed.

(** ** A graded logic for the assessors *)

Section Graded.

Variable R : Z -> pstate -> pstate -> Prop.
Hypothesis R_refl : forall s, R 0 s s.
Hypothesis R_trans :
  forall p q s1 s2 s3, R p s1 s2 -> R q s2 s3 -> R (p + q) s1 s3.
Hypothesis R_weaken : forall p q s1 s2, p <= q -> R p s1 s2 -> R q s1 s2.

Lemma graded_ret {A} (a : A) : graded R 0 (ret a).
Proof. intros s. apply R_refl. Qed.

Lemma graded_lift {A} (o : outcome A) : graded R 0 (lift o).
Proof. intros s. apply R_refl. Qed.

Lemma graded_weaken {A} (p q : Z) (m : M pstate A) :
  graded R p m -> p <= q -> graded R q m.
Proof. intros H Hpq s. eapply R_weaken; [eassumption | apply H]. Qed.

Lemma graded_bind {A B} (p q : Z) (m : M pstate A) (k : A -> M pstate B) :
  graded R p m -> (forall a, graded R q (k a)) -> 0 <= q ->
  graded R (p + q) (bind m k).
Proof.
  intros Hm Hk Hq s. unfold bind. specialize (Hm s).
  destruct (m s) as [[a|e] s1]; cbn [snd] in *.
  - eapply R_trans; [exact Hm | apply Hk].
  - apply R_weaken with (p := p); [lia | exact Hm].
Qed.

Lemma graded_if {A} (p q : Z) (b : bool) (m1 m2 : M pstate A) :
  graded R p m1 -> graded R q m2 ->
  graded R (Z.max p q) (if b then m1 else m2).
Proof.
  intros H1 H2. destruct b.
  - eapply graded_weaken; [exact H1 | lia].
  - eapply graded_weaken; [exact H2 | lia].
Qed.

Lemma graded_try_except (p q : Z) (body : M pstate unit)
  (handlers : exn -> option (M pstate unit)) :
  graded R p body -> hgraded R q handlers -> 0 <= q ->
  graded R (p + q) (try_except body handlers).
Proof.
  intros Hb Hh Hq s. unfold try_except. specialize (Hb s).
  destruct (body s) as [[[]|e] s1]; cbn [snd] in *.
  - apply R_weaken with (p := p); [lia | exact Hb].
  - destruct (handlers e) as [h|] eqn:E; cbn [snd].
    + eapply R_trans; [exact Hb | now apply (Hh e h)].
    + apply R_weaken with (p := p); [lia | exact Hb].
Qed.

Lemma graded_try_finally (p q : Z) (body fin : M pstate unit) :
  graded R p body -> graded R q fin ->
  graded R (p + q) (try_finally body fin).
Proof.
  intros Hb Hf s. unfold try_finally. specialize (Hb s).
  destruct (body s) as [[[]|e] s1]; cbn [snd] in *.
  - eapply R_trans; [exact Hb | apply Hf].
  - specialize (Hf s1). destruct (fin s1) as [[[]|e'] s2]; cbn [snd] in *;
      eapply R_trans; eassumption.
Qed.

Lemma hgraded_except_Exception (q : Z) (h : exn -> M pstate unit) :
  (forall e, graded R q (h e)) -> hgraded R q (except_Exception h).
Proof. intros H e h' [= <-]. apply H. Qed.

Lemma hgraded_except_class (q : Z) (c : exn_class) (h : exn -> M pstate unit) :
  (forall e, graded R q (h e)) -> hgraded R q (except_class c h).
Proof.
  intros H e h'. unfold except_class.
  destruct (is_class c e); intros [= <-]. apply H.
Qed.

Lemma hgraded_or_except (p q : Z)
  (h1 h2 : exn -> option (M pstate unit)) :
  hgraded R p h1 -> hgraded R q h2 -> hgraded R (Z.max p q) (or_except h1 h2).
Proof.
  intros H1 H2 e h. unfold or_except.
  destruct (h1 e) as [h'|] eqn:E.
  - intros [= <-]. eapply graded_weaken; [now apply (H1 e) | lia].
  - intros E2. eapply graded_weaken; [now apply (H2 e) | lia].
Qed.

End Graded.

(** The two relations the logic is used at. *)

Lemma step_rel_refl (s : pstate) : step_rel 0 s s.
Proof.
  unfold step_rel. repeat split; try lia; exists []; now rewrite app_nil_r.
Qed.

Lemma step_rel_trans (p q : Z) (s1 s2 s3 : pstate) :
  step_rel p s1 s2 -> step_rel q s2 s3 -> step_rel (p + q) s1 s3.
Proof.
  intros (Hs1 & Hm1 & [i1 Hi1] & [l1 Hl1]) (Hs2 & Hm2 & [i2 Hi2] & [l2 Hl2]).
  unfold step_rel. repeat split; try lia.
  - exists (i1 ++ i2). now rewrite Hi2, Hi1, app_assoc.
  - exists (l1 ++ l2). now rewrite Hl2, Hl1, app_assoc.
Qed.

Lemma step_rel_weaken (p q : Z) (s1 s2 : pstate) :
  p <= q -> step_rel p s1 s2 -> step_rel q s1 s2.
Proof.
  intros Hpq (Hs & Hm & Hi & Hl). unfold step_rel. repeat split; try lia; assumption.
Qed.

Lemma keeps_locals_trans (p q : Z) (s1 s2 s3 : pstate) :
  keeps_locals p s1 s2 -> keeps_locals q s2 s3 -> keeps_locals (p + q) s1 s3.
Proof. unfold keeps_locals. congruence. Qed.

(** The primitive steps. *)

Lemma step_emit ev : graded step_rel 0 (emit ev).
Proof.
  intros s. unfold step_rel; cbn. repeat split; try lia.
  - exists []. now rewrite app_nil_r.
  - now exists [ev].
Qed.

Lemma step_call {A} ev (o : outcome A) : graded step_rel 0 (call ev o).
Proof.
  intros s. unfold call, bind, emit, lift, step_rel; cbn.
  destruct o; cbn; repeat split; try lia;
    try (exists []; now rewrite app_nil_r); now exists [ev].
Qed.

Lemma step_set_detail k v : graded step_rel 0 (set_detail k v).
Proof.
  intros s. unfold step_rel; cbn. repeat split; try lia;
    exists []; now rewrite app_nil_r.
Qed.

Lemma step_add_issue i : graded step_rel 0 (add_issue i).
Proof.
  intros s. unfold step_rel; cbn. repeat split; try lia.
  - now exists [i].
  - exists []. now rewrite app_nil_r.
Qed.

Lemma step_bind_local n : graded step_rel 0 (bind_local n).
Proof.
  intros s. unfold step_rel; cbn. repeat split; try lia;
    exists []; now rewrite app_nil_r.
Qed.

Lemma step_add_score p : 0 <= p -> graded step_rel p (add_score p).
Proof.
  intros Hp s. unfold step_rel; cbn. repeat split; try lia;
    exists []; now rewrite app_nil_r.
Qed.

Lemma locals_emit ev : graded keeps_locals 0 (emit ev).
Proof. intros s. reflexivity. Qed.

Lemma locals_call {A} ev (o : outcome A) : graded keeps_locals 0 (call ev o).
Proof. intros s. unfold call, bind, emit, lift. destruct o; reflexivity. Qed.

Lemma locals_set_detail k v : graded keeps_locals 0 (set_detail k v).
Proof. intros s. reflexivity. Qed.

Lemma locals_add_issue i : graded keeps_locals 0 (add_issue i).
Proof. intros s. reflexivity. Qed.

Lemma locals_add_score p : graded keeps_locals 0 (add_score p).
Proof. intros s. reflexivity. Qed.

Lemma keeps_locals_refl (s : pstate) : keeps_locals 0 s s.
Proof. reflexivity. Qed.

Lemma keeps_locals_weaken (p q : Z) (s1 s2 : pstate) :
  p <= q -> keeps_locals p s1 s2 -> keeps_locals q s1 s2.
Proof. intros _ H. exact H. Qed.

Create HintDb graded_db.

(** Walks down a block, one combinator at a time; [prim] closes the
    primitive steps of the relation at hand. *)
Ltac graded_go R refl trans weaken prim :=
  cbv zeta;
  lazymatch goal with
  | |- graded _ _ (bind _ _) =>
      eapply (graded_bind R trans weaken);
      [ graded_go R refl trans weaken prim
      | intros; graded_go R refl trans weaken prim
      | lia ]
  | |- graded _ _ (if _ then _ else _) =>
      eapply (graded_if R weaken);
      [ graded_go R refl trans weaken prim | graded_go R refl trans weaken prim ]
  | |- graded _ _ (try_except _ _) =>
      eapply (graded_try_except R trans weaken);
      [ graded_go R refl trans weaken prim
      | graded_go R refl trans weaken prim
      | lia ]
  | |- graded _ _ (try_finally _ _) =>
      eapply (graded_try_finally R trans);
      [ graded_go R refl trans weaken prim | graded_go R refl trans weaken prim ]
  | |- hgraded _ _ (or_except _ _) =>
      eapply (hgraded_or_except R weaken);
      [ graded_go R refl trans weaken prim | graded_go R refl trans weaken prim ]
  | |- hgraded _ _ (except_class _ _) =>
      eapply (hgraded_except_class R); intros; graded_go R refl trans weaken prim
  | |- hgraded _ _ (except_Exception _) =>
      eapply (hgraded_except_Exception R); intros;
      graded_go R refl trans weaken prim
  | |- graded _ _ (ret _) => apply (graded_ret R refl)
  | |- graded _ _ (lift _) => apply (graded_lift R refl)
  | |- graded _ _ (run_command _ _) =>
      unfold run_command; graded_go R refl trans weaken prim
  | |- graded _ _ (get _ _ _) => unfold get; graded_go R refl trans weaken prim
  | |- graded _ _ (post _ _ _) => unfold post; graded_go R refl trans weaken prim
  | |- _ => prim
  end.

Ltac step_prim :=
  first [ apply step_call | apply step_emit | apply step_set_detail
        | apply step_add_issue | apply step_bind_local
        | apply step_add_score; lia
        | solve [eauto 1 with graded_db] ].

Ltac step_go :=
  graded_go step_rel step_rel_refl step_rel_trans step_rel_weaken step_prim.

(** [gains n]: the block earns at most [n] points and never loses one. *)
Ltac gains n :=
  eapply (graded_weaken step_rel step_rel_weaken _ n); [ step_go | lia ].

Ltac locals_prim :=
  first [ apply locals_call | apply locals_emit | apply locals_set_detail
        | apply locals_add_issue | apply locals_add_score
        | solve [eauto 1 with graded_db] ].

Ltac locals_go :=
  eapply (graded_weaken keeps_locals keeps_locals_weaken _ 0);
  [ graded_go keeps_locals keeps_locals_refl keeps_locals_trans
      keeps_locals_weaken locals_prim
  | lia ].

(** ** Score budgets of the probes *)

Section Budgets.

Variable cfg : list (string * json).
Variable w : world.

Lemma backend_tests_gains : graded step_rel 30 (backend_tests_probe w).
Proof. unfold backend_tests_probe. gains 30. Qed.

Lemma test_coverage_gains : graded step_rel 20 (test_coverage_probe w).
Proof. unfold test_coverage_probe. gains 20. Qed.

Lemma static_analysis_gains : graded step_rel 25 (static_analysis_probe w).
Proof. unfold static_analysis_probe. gains 25. Qed.

Lemma security_scan_gains : graded step_rel 25 (security_scan_probe w).
Proof. unfold security_scan_probe. gains 25. Qed.

Hint Resolve backend_tests_gains test_coverage_gains static_analysis_gains
  security_scan_gains : graded_db.

Lemma code_quality_gains : graded step_rel 100 (code_quality_body w).
Proof. unfold code_quality_body. gains 100. Qed.

Lemma open_connection_gains : graded step_rel 0 (open_connection cfg w).
Proof. unfold open_connection. gains 0. Qed.

Lemma connectivity_gains : graded step_rel 20 (connectivity_check w).
Proof. unfold connectivity_check. gains 20. Qed.

Lemma table_structure_gains : graded step_rel 30 (table_structure_check cfg w).
Proof. unfold table_structure_check. gains 30. Qed.

Lemma data_integrity_gains : graded step_rel 25 (data_integrity_check w).
Proof. unfold data_integrity_check. gains 25. Qed.

Lemma query_performance_gains :
  graded step_rel 25 (query_performance_check cfg w).
Proof. unfold query_performance_check. gains 25. Qed.

Hint Resolve open_connection_gains connectivity_gains table_structure_gains
  data_integrity_gains query_performance_gains : graded_db.

Lemma database_checks_gains : graded step_rel 100 (database_checks cfg w).
Proof. unfold database_checks. gains 100. Qed.

Lemma database_finally_gains : graded step_rel 0 (database_finally w).
Proof.
  intros s. unfold database_finally.
  destruct (is_bound "connection" s); [|apply step_rel_refl].
  destruct (is_bound "cursor" s).
  - assert (G : forall m : M pstate unit, graded step_rel 0 m ->
                step_rel 0 s (snd (m s))) by (intros m Hm; apply Hm).
    apply G. gains 0.
  - assert (G : forall m : M pstate unit, graded step_rel 0 m ->
                step_rel 0 s (snd (m s))) by (intros m Hm; apply Hm).
    apply G. gains 0.
Qed.

Hint Resolve database_checks_gains database_finally_gains : graded_db.

Lemma database_gains : graded step_rel 100 (database_body cfg w).
Proof. unfold database_body, database_handlers, database_try_body. gains 100. Qed.

Lemma health_gains : graded step_rel 25 (health_probe cfg w).
Proof. unfold health_probe. gains 25. Qed.

Lemma financial_gains : graded step_rel 50 (financial_probe cfg w).
Proof. unfold financial_probe. gains 50. Qed.

Lemma dcf_gains : graded step_rel 25 (dcf_probe cfg w).
Proof. unfold dcf_probe. gains 25. Qed.

Hint Resolve health_gains financial_gains dcf_gains : graded_db.

Lemma api_gains : graded step_rel 100 (api_body cfg w).
Proof. unfold api_body. gains 100. Qed.

Lemma memory_gains : graded step_rel 40 (memory_probe cfg w).
Proof. unfold memory_probe. gains 40. Qed.

Lemma disk_gains : graded step_rel 30 (disk_probe w).
Proof. unfold disk_probe. gains 30. Qed.

Lemma load_gains : graded step_rel 30 (load_probe w).
Proof. unfold load_probe. gains 30. Qed.

Hint Resolve memory_gains disk_gains load_gains : graded_db.

Lemma system_gains : graded step_rel 100 (system_body cfg w).
Proof. unfold system_body. gains 100. Qed.

End Budgets.

(** A category returned by an assessor whose body earns at most 100. *)
Lemma with_results_bounds (body : M pstate unit) (l l' : list event)
  (c : category) :
  graded step_rel 100 body ->
  with_results body l = (Ret c, l') ->
  0 <= score c <= max_score c /\ max_score c = 100.
Proof.
  intros Hb H. unfold with_results in H.
  specialize (Hb (mk_pstate init_results [] l)).
  destruct (body (mk_pstate init_results [] l)) as [[[]|e] s]; [|discriminate].
  injection H as <- <-. destruct Hb as (Hs & Hm & _). cbn in Hs, Hm.
  rewrite Hm. lia.
Qed.

(** ** Blocks that always return *)

Lemma total_bind {A B} (m : M pstate A) (k : A -> M pstate B) :
  total m -> (forall a, total (k a)) -> total (bind m k).
Proof.
  intros Hm Hk s. unfold bind. destruct (Hm s) as (a & s1 & ->). apply Hk.
Qed.

Lemma total_set_detail k v : total (set_detail k v).
Proof. intros s. eexists _, _. reflexivity. Qed.

Lemma total_add_issue i : total (add_issue i).
Proof. intros s. eexists _, _. reflexivity. Qed.

Lemma total_add_score p : total (add_score p).
Proof. intros s. eexists _, _. reflexivity. Qed.

(** A [try] whose clauses catch everything and do not raise returns. *)
Lemma total_try_except (body : M pstate unit) handlers :
  (forall e, exists h, handlers e = Some h /\ total h) ->
  total (try_except body handlers).
Proof.
  intros Hh s. unfold try_except.
  destruct (body s) as [[[]|e] s1]; [eexists _, _; reflexivity|].
  destruct (Hh e) as (h & -> & Ht). apply Ht.
Qed.

Ltac total_go :=
  repeat first [ apply total_set_detail | apply total_add_issue
               | apply total_add_score
               | apply total_bind; [ | intros ]
               | solve [eauto 1 with graded_db] ].

Ltac catches_all :=
  apply total_try_except; intros e;
  unfold or_except, except_class, except_Exception;
  repeat match goal with
         | |- context [is_class ?c e] => destruct (is_class c e)
         end;
  eexists; (split; [ reflexivity | total_go ]).

Section Probes.

Variable cfg : list (string * json).
Variable w : world.

Lemma backend_tests_total : total (backend_tests_probe w).
Proof. unfold backend_tests_probe. catches_all. Qed.

Lemma test_coverage_total : total (test_coverage_probe w).
Proof. unfold test_coverage_probe. catches_all. Qed.

Lemma static_analysis_total : total (static_analysis_probe w).
Proof. unfold static_analysis_probe. catches_all. Qed.

Lemma security_scan_total : total (security_scan_probe w).
Proof. unfold security_scan_probe. catches_all. Qed.

Lemma memory_total : total (memory_probe cfg w).
Proof. unfold memory_probe. catches_all. Qed.

Lemma disk_total : total (disk_probe w).
Proof. unfold disk_probe. catches_all. Qed.

Lemma load_total : total (load_probe w).
Proof. unfold load_probe. catches_all. Qed.

Hint Resolve backend_tests_total test_coverage_total static_analysis_total
  security_scan_total memory_total disk_total load_total : graded_db.

Lemma code_quality_total : total (code_quality_body w).
Proof. unfold code_quality_body. total_go. Qed.

Lemma system_total : total (system_body cfg w).
Proof. unfold system_body. total_go. Qed.

Lemma database_guarded_total :
  total (try_except (database_try_body cfg w) database_handlers).
Proof. unfold database_handlers. catches_all. Qed.

(** The calls each block makes. *)

Lemma backend_tests_log s :
  log (snd (backend_tests_probe w s)) =
  log s ++ [EvSubprocess ["mvn"; "test"; "-q"]].
Proof. revert s. prove_log backend_tests_probe. Qed.

Lemma test_coverage_log s :
  log (snd (test_coverage_probe w s)) =
  log s ++ [EvSubprocess ["mvn"; "jacoco:report"; "-q"]].
Proof. revert s. prove_log test_coverage_probe. Qed.

Lemma static_analysis_log s :
  log (snd (static_analysis_probe w s)) =
  log s ++ [EvSubprocess ["mvn"; "spotbugs:check"; "-q"]].
Proof. revert s. prove_log static_analysis_probe. Qed.

Lemma security_scan_log s :
  log (snd (security_scan_probe w s)) =
  log s ++ [EvSubprocess ["mvn"; "dependency-check:check"; "-q"]].
Proof. revert s. prove_log security_scan_probe. Qed.

Lemma memory_log :
  starts_with_call (EvSubprocess ["pgrep"; "-f"; "dcf-calculator"])
    (memory_probe cfg w).
Proof. prove_log memory_probe. Qed.

Lemma disk_log :
  starts_with_call (EvSubprocess ["df"; "-h"; "."]) (disk_probe w).
Proof. prove_log disk_probe. Qed.

Lemma load_log : starts_with_call (EvSubprocess ["uptime"]) (load_probe w).
Proof. prove_log load_probe. Qed.

(** What each block records. *)

Lemma backend_tests_outcome :
  probe_outcome ["backend_tests"] 30 (backend_tests_probe w).
Proof. prove_outcome backend_tests_probe. Qed.

Lemma test_coverage_outcome :
  probe_outcome ["test_coverage"] 20 (test_coverage_probe w).
Proof. prove_outcome test_coverage_probe. Qed.

Lemma static_analysis_outcome :
  probe_outcome ["static_analysis"] 25 (static_analysis_probe w).
Proof. prove_outcome static_analysis_probe. Qed.

Lemma security_scan_outcome :
  probe_outcome ["security_scan"] 25 (security_scan_probe w).
Proof. prove_outcome security_scan_probe. Qed.

Lemma health_outcome : probe_outcome ["health_check"] 25 (health_probe cfg w).
Proof. prove_outcome health_probe. Qed.

Lemma dcf_outcome :
  probe_outcome ["dcf_performance"; "dcf_endpoint"] 25 (dcf_probe cfg w).
Proof. prove_outcome dcf_probe. Qed.

Lemma memory_outcome :
  probe_outcome ["memory_usage"; "java_process"; "resource_check"] 40
    (memory_probe cfg w).
Proof. prove_outcome memory_probe. Qed.

End Probes.

(** ** Full marks leave no issue *)

Lemma all_or_less_of_outcome keys p m :
  0 < p -> probe_outcome keys p m -> all_or_less p m.
Proof.
  intros Hp H s s' E. destruct (H s s' E) as (k & v & _ & _ & [[? ?]|[? _]]).
  - now left.
  - right. lia.
Qed.

Lemma all_or_less_bind p q (m k : M pstate unit) :
  all_or_less p m -> all_or_less q k -> all_or_less (p + q) (bind m (fun _ => k)).
Proof.
  intros Hm Hk s s' E. apply bind_ret_inv in E as ([] & s1 & E1 & E2).
  destruct (Hm s s1 E1) as [[? ?]|?], (Hk s1 s' E2) as [[? ?]|?].
  - left. split; [lia | congruence].
  - right. lia.
  - right. lia.
  - right. lia.
Qed.

Section FullMarks.
Variable cfg : list (string * json).
Variable w : world.

Lemma financial_all_or_less : all_or_less 50 (financial_probe cfg w).
Proof. prove_less financial_probe. Qed.
Lemma disk_all_or_less : all_or_less 30 (disk_probe w).
Proof. prove_less disk_probe. Qed.
Lemma load_all_or_less : all_or_less 30 (load_probe w).
Proof. prove_less load_probe. Qed.

Lemma code_quality_all_or_less : all_or_less 100 (code_quality_body w).
Proof.
  unfold code_quality_body.
  change 100 with (30 + (20 + (25 + 25))).
  repeat apply all_or_less_bind;
    (eapply all_or_less_of_outcome; [lia|]);
    eauto using backend_tests_outcome, test_coverage_outcome,
      static_analysis_outcome, security_scan_outcome.
Qed.

Lemma api_all_or_less : all_or_less 100 (api_body cfg w).
Proof.
  unfold api_body.
  change 100 with (25 + (50 + 25)).
  repeat apply all_or_less_bind.
  - eapply all_or_less_of_outcome; [lia | apply health_outcome].
  - apply financial_all_or_less.
  - eapply all_or_less_of_outcome; [lia | apply dcf_outcome].
Qed.

Lemma system_all_or_less : all_or_less 100 (system_body cfg w).
Proof.
  unfold system_body.
  change 100 with (40 + (30 + 30)).
  repeat apply all_or_less_bind.
  - eapply all_or_less_of_outcome; [lia | apply memory_outcome].
  - apply disk_all_or_less.
  - apply load_all_or_less.
Qed.
End FullMarks.

(** An assessor that earns all of its 100 points has raised no issue. *)
Lemma with_results_full (body : M pstate unit) l l' c :
  all_or_less 100 body ->
  with_results body l = (Ret c, l') -> score c = 100 -> issues c = [].
Proof.
  intros Hb H Hs. unfold with_results in H.
  destruct (body (mk_pstate init_results [] l)) as [[[]|e] s] eqn:E; [|discriminate].
  injection H as <- <-.
  destruct (Hb _ _ E) as [[_ Hi]|Hlt]; cbn in *; [exact Hi | lia].
Qed.

(** ** The database assessor *)

Section Database.
Variable cfg : list (string * json).
Variable w : world.

Lemma database_outage_result l d msg :
  dict_get "database" cfg = Some (JDict d) ->
  db_connect w d = Raise (mk_exn MySQLError msg) ->
  assess_database_readiness cfg w l =
  (Ret (mk_category 0 100 {["database_error" := msg]}
          ["Database connection error: " +:+ msg]),
   l ++ [EvDbConnect]).
Proof.
  intros Hd Hc.
  unfold assess_database_readiness, with_results, database_body, try_finally,
    database_try_body, open_connection, database_handlers, database_finally.
  exec. unfold subscript, as_mapping. rewrite Hd. proj. rewrite Hc. proj.
  cbn [is_class exn_cls is_bound locals existsb str_exn exn_msg].
  unfold init_results; proj. cbn [app]. rewrite insert_empty. reflexivity.
Qed.

Lemma open_connection_locals s :
  db_cursor w = Ret tt -> locals s = [] ->
  match open_connection cfg w s with
  | (Ret _, s') => locals s' = ["cursor"; "connection"]
  | (Raise _, s') => locals s' = []
  end.
Proof.
  intros Hc Hl. unfold open_connection. exec. rewrite Hc.
  split_goal; rewrite ?Hl; reflexivity.
Qed.

Lemma database_checks_locals : graded keeps_locals 0 (database_checks cfg w).
Proof.
  unfold database_checks, connectivity_check, table_structure_check,
    data_integrity_check, query_performance_check.
  locals_go.
Qed.

Lemma database_handlers_locals : hgraded keeps_locals 0 database_handlers.
Proof.
  intros e h He s.
  unfold database_handlers, or_except, except_class, except_Exception in He.
  destruct (is_class MySQLError e); injection He as <-; reflexivity.
Qed.

(** The guarded block returns, with [cursor] bound whenever [connection] is. *)
Lemma database_guarded_locals l :
  db_cursor w = Ret tt ->
  exists s1,
    try_except (database_try_body cfg w) database_handlers
      (mk_pstate init_results [] l) = (Ret tt, s1) /\
    (locals s1 = [] \/ locals s1 = ["cursor"; "connection"]).
Proof.
  intros Hc.
  destruct (database_guarded_total cfg w (mk_pstate init_results [] l))
    as ([] & s1 & E).
  exists s1. split; [exact E|].
  unfold try_except, database_try_body, bind in E.
  pose proof (open_connection_locals (mk_pstate init_results [] l) Hc eq_refl)
    as Ho.
  destruct (open_connection cfg w (mk_pstate init_results [] l))
    as [[[]|e] sa].
  - pose proof (database_checks_locals sa) as Hk. unfold keeps_locals in Hk.
    destruct (database_checks cfg w sa) as [[[]|e] sb]; cbn [snd] in Hk.
    + injection E as <-. right. congruence.
    + destruct (database_handlers e) as [h|] eqn:Eh; [|discriminate].
      pose proof (database_handlers_locals e h Eh sb) as Hh.
      unfold keeps_locals in Hh. rewrite E in Hh. cbn [snd] in Hh.
      right. congruence.
  - destruct (database_handlers e) as [h|] eqn:Eh; [|discriminate].
    pose proof (database_handlers_locals e h Eh sa) as Hh.
    unfold keeps_locals in Hh. rewrite E in Hh. cbn [snd] in Hh.
    left. congruence.
Qed.

Lemma database_finally_returns s :
  cleanup_ok w ->
  (locals s = [] \/ locals s = ["cursor"; "connection"]) ->
  exists s', database_finally w s = (Ret tt, s').
Proof.
  intros Hok Hl. unfold database_finally, is_bound.
  destruct Hl as [-> | ->]; cbn [existsb String.eqb orb];
    [eexists; reflexivity|].
  change (("connection" =? "cursor")%string) with false.
  change (("connection" =? "connection")%string) with true.
  change (("cursor" =? "cursor")%string) with true.
  cbn [orb]. exec.
  destruct Hok as [-> | (-> & _ & -> & ->)]; proj; eexists; reflexivity.
Qed.

Lemma database_returns l :
  cleanup_ok w -> exists c l', assess_database_readiness cfg w l = (Ret c, l').
Proof.
  intros Hok.
  unfold assess_database_readiness, with_results, database_body, try_finally.
  destruct Hok as [Hf | (Ht & Hc & Hcc & Hcl)].
  - destruct (database_guarded_total cfg w (mk_pstate init_results [] l))
      as ([] & s1 & ->).
    unfold database_finally. exec. rewrite Hf. proj.
    destruct (is_bound "connection" s1); eexists _, _; reflexivity.
  - destruct (database_guarded_locals l Hc) as (s1 & -> & Hl).
    destruct (database_finally_returns s1) as (s2 & ->); [right; tauto | exact Hl |].
    eexists _, _; reflexivity.
Qed.
End Database.

(** ** Assessors that return, and the calls they make *)

Lemma py_lt_number t x v :
  is_number v = true -> exists b, py_lt t x v = Ret b.
Proof. destruct v; try discriminate; intros _; eexists; reflexivity. Qed.

Lemma graded_log_extends {A} p (m : M pstate A) s :
  graded step_rel p m -> exists l, log (snd (m s)) = log s ++ l.
Proof. intros H. destruct (H s) as (_ & _ & _ & Hl). exact Hl. Qed.

Lemma with_results_log body l l' (o : outcome category) p :
  graded step_rel p body ->
  with_results body l = (o, l') -> exists x, l' = l ++ x.
Proof.
  intros Hb H. unfold with_results in H.
  destruct (graded_log_extends p body (mk_pstate init_results [] l) Hb) as [x Hx].
  destruct (body (mk_pstate init_results [] l)) as [[[]|e] s];
    injection H as <- <-; exists x; exact Hx.
Qed.

Section Returns.
Variable cfg : list (string * json).
Variable w : world.

Lemma code_quality_returns l :
  exists c, assess_code_quality w l = (Ret c, l ++ code_quality_events).
Proof.
  unfold assess_code_quality, with_results.
  destruct (code_quality_total w (mk_pstate init_results [] l)) as ([] & s & E).
  rewrite E. exists (results s). f_equal.
  unfold code_quality_body, bind in E.
  pose proof (backend_tests_log w (mk_pstate init_results [] l)) as L1.
  destruct (backend_tests_probe w (mk_pstate init_results [] l)) as [[[]|e1] s1];
    [|discriminate].
  pose proof (test_coverage_log w s1) as L2.
  destruct (test_coverage_probe w s1) as [[[]|e2] s2]; [|discriminate].
  pose proof (static_analysis_log w s2) as L3.
  destruct (static_analysis_probe w s2) as [[[]|e3] s3]; [|discriminate].
  pose proof (security_scan_log w s3) as L4.
  rewrite E in L4. cbn [snd log] in *.
  rewrite L4, L3, L2, L1. unfold code_quality_events.
  rewrite <- !app_assoc. reflexivity.
Qed.

Lemma system_returns l :
  exists c l', assess_system_resources cfg w l = (Ret c, l') /\
               forall ev, In ev system_events -> In ev l'.
Proof.
  unfold assess_system_resources, with_results.
  destruct (system_total cfg w (mk_pstate init_results [] l)) as ([] & s & E).
  rewrite E. exists (results s), (log s). split; [reflexivity|].
  unfold system_body, bind in E.
  destruct (memory_log cfg w (mk_pstate init_results [] l)) as [x1 L1].
  destruct (memory_probe cfg w (mk_pstate init_results [] l)) as [[[]|e1] s1];
    [|discriminate].
  destruct (disk_log w s1) as [x2 L2].
  destruct (disk_probe w s1) as [[[]|e2] s2]; [|discriminate].
  destruct (load_log w s2) as [x3 L3].
  rewrite E in L3. cbn [snd log] in *.
  intros ev Hev. rewrite L3, L2, L1.
  unfold system_events in Hev. cbn [In] in Hev.
  rewrite !in_app_iff. cbn [In].
  destruct Hev as [<- | [<- | [<- | []]]]; tauto.
Qed.

Hypothesis Hcfg : api_config_ok cfg.
Hypothesis Hhttp : http_failures_handled w.

Ltac http_class :=
  repeat match goal with
         | H : http_get w ?b ?p = Raise ?e |- _ =>
             lazymatch goal with
             | _ : is_class RequestException e = true |- _ => fail
             | _ => pose proof (proj1 (Hhttp b p e) H)
             end
         | H : http_post w ?b ?p = Raise ?e |- _ =>
             lazymatch goal with
             | _ : is_class RequestException e = true |- _ => fail
             | _ => pose proof (proj2 (Hhttp b p e) H)
             end
         end.

Ltac api_leaf :=
  http_class;
  first [ congruence
        | eexists; split; [ reflexivity | ];
          proj; rewrite <- ?app_assoc; cbn [app]; eexists; reflexivity ].

Lemma health_returns s :
  exists s', health_probe cfg w s = (Ret tt, s') /\
    exists l, log s' = log s ++ EvHttpGet "/actuator/health" :: l.
Proof.
  destruct Hcfg as ([base Hb] & _).
  unfold health_probe. exec. unfold subscript. rewrite Hb.
  split_goal; api_leaf.
Qed.

Lemma financial_returns s :
  exists s', financial_probe cfg w s = (Ret tt, s') /\
    exists l, log s' = log s ++ EvHttpGet "/api/financial-data/AAPL" :: l.
Proof.
  destruct Hcfg as ([base Hb] & _).
  unfold financial_probe. exec. unfold subscript. rewrite Hb.
  split_goal; api_leaf.
Qed.

Lemma dcf_returns s :
  exists s', dcf_probe cfg w s = (Ret tt, s') /\
    exists l, log s' = log s ++ EvHttpPost "/api/dcf/calculate" :: l.
Proof.
  destruct Hcfg as ([base Hb] & (v & Hv & Hn)).
  destruct (py_lt_number "float"
              (elapsed_ms w (EvHttpPost "/api/dcf/calculate")) v Hn)
    as [fast Hf].
  unfold dcf_probe. exec. unfold subscript at 1. rewrite Hb, Hv. proj.
  rewrite Hf.
  split_goal; api_leaf.
Qed.

Lemma api_returns l :
  exists c l', assess_api_readiness cfg w l = (Ret c, l') /\
               forall ev, In ev api_events -> In ev l'.
Proof.
  unfold assess_api_readiness, with_results, api_body, bind.
  destruct (health_returns (mk_pstate init_results [] l)) as (s1 & -> & x1 & L1).
  destruct (financial_returns s1) as (s2 & -> & x2 & L2).
  destruct (dcf_returns s2) as (s3 & -> & x3 & L3).
  exists (results s3), (log s3). split; [reflexivity|].
  intros ev Hev. rewrite L3, L2, L1. cbn [log].
  unfold api_events in Hev. cbn [In] in Hev.
  rewrite !in_app_iff. cbn [In].
  destruct Hev as [<- | [<- | [<- | []]]]; tauto.
Qed.
End Returns.

(** ** Binary64 rounding *)

Lemma round_half_even_le (y : Q) (k : Z) :
  (y <= inject_Z k)%Q -> round_half_even y <= k.
Proof.
  destruct y as [n d]. unfold Qle, inject_Z, round_half_even. cbn [Qnum Qden].
  intros H. rewrite Z.mul_1_r in H.
  pose proof (Z.div_mod n (Z.pos d) ltac:(lia)) as Hdm.
  pose proof (Z.mod_pos_bound n (Z.pos d) ltac:(lia)) as Hb.
  assert (Hf : n / Z.pos d <= k) by (apply Z.div_le_upper_bound; lia).
  destruct (Z.ltb_spec (2 * (n mod Z.pos d)) (Z.pos d)); [exact Hf|].
  assert (n / Z.pos d < k) by nia.
  destruct (Z.ltb_spec (Z.pos d) (2 * (n mod Z.pos d))); [lia|].
  destruct (Z.even (n / Z.pos d)); lia.
Qed.

Lemma round_half_even_nonneg (y : Q) :
  (0 <= y)%Q -> 0 <= round_half_even y.
Proof.
  destruct y as [n d]. unfold Qle, round_half_even. cbn [Qnum Qden].
  intros H. rewrite Z.mul_1_r in H. cbn in H.
  assert (Hf : 0 <= n / Z.pos d) by (apply Z.div_pos; lia).
  destruct (Z.ltb_spec (2 * (n mod Z.pos d)) (Z.pos d)); [exact Hf|].
  destruct (Z.ltb_spec (Z.pos d) (2 * (n mod Z.pos d))); [lia|].
  destruct (Z.even (n / Z.pos d)); lia.
Qed.

Lemma pow2_pos (e : Z) : (0 < pow2 e)%Q.
Proof. unfold pow2. apply Qpower_0_lt. reflexivity. Qed.

Lemma pow2_add (a b : Z) : (pow2 (a + b) == pow2 a * pow2 b)%Q.
Proof. unfold pow2. apply Qpower_plus. discriminate. Qed.

Lemma pow2_Z (k : Z) : 0 <= k -> (pow2 k == inject_Z (2 ^ k))%Q.
Proof. intros H. unfold pow2. now rewrite Zpower_Qpower. Qed.

Lemma pow2_ge_1 (k : Z) : 0 <= k -> (1 <= pow2 k)%Q.
Proof.
  intros H. rewrite (pow2_Z k H). change 1%Q with (inject_Z 1).
  rewrite <- Zle_Qle. pose proof (Z.pow_pos_nonneg 2 k). lia.
Qed.

Lemma pow2_inv (e : Z) : (pow2 (- e) * pow2 e == 1)%Q.
Proof. rewrite <- pow2_add. now replace (- e + e) with 0 by lia. Qed.

Lemma floor_log2_le (x : Q) : (0 < x)%Q -> (pow2 (floor_log2 x) <= x)%Q.
Proof.
  intros Hx. unfold floor_log2.
  destruct (Qle_bool _ x) eqn:E; [now apply Qle_bool_iff|].
  destruct x as [n d]. cbn [Qnum Qden].
  assert (Hn : 0 < n) by (unfold Qlt in Hx; cbn in Hx; lia).
  set (a := Z.log2 n). set (b := Z.log2 (Z.pos d)).
  pose proof (Z.log2_nonneg n) as Ha. pose proof (Z.log2_nonneg (Z.pos d)) as Hb.
  fold a in Ha. fold b in Hb.
  destruct (Z.log2_spec n Hn) as [Ha1 _]. fold a in Ha1.
  destruct (Z.log2_spec (Z.pos d) ltac:(lia)) as [_ Hb2]. fold b in Hb2.
  apply (Qmult_le_r _ _ (pow2 (b + 1))); [apply pow2_pos|].
  rewrite <- pow2_add. replace (a - b - 1 + (b + 1)) with a by lia.
  rewrite (pow2_Z a Ha), (pow2_Z (b + 1)) by lia.
  unfold Qle, Qmult, inject_Z. cbn [Qnum Qden].
  rewrite Z.pow_succ_r in Hb2 by exact Hb.
  replace (2 ^ (b + 1)) with (2 * 2 ^ b) by (rewrite Z.pow_add_r; lia).
  rewrite Pos.mul_1_r, Z.mul_1_r. nia.
Qed.

(** Rounding stays below an integer bound that binary64 holds exactly. *)
Lemma round64_bounds (N : Z) (x : Q) :
  0 < N < 2 ^ 53 -> (0 <= x)%Q -> (x <= inject_Z N)%Q ->
  (0 <= round64 x /\ round64 x <= inject_Z N)%Q.
Proof.
  intros HN H0 HxN. unfold round64.
  destruct (Qeq_bool x 0) eqn:Ez.
  { split; [apply Qle_refl|]. change 0%Q with (inject_Z 0).
    rewrite <- Zle_Qle. lia. }
  assert (Hpos : (0 < x)%Q).
  { apply Qle_lteq in H0 as [H|H]; [exact H|].
    symmetry in H. apply Qeq_bool_iff in H. congruence. }
  destruct x as [[|p|p] d];
    [ discriminate Hpos | | discriminate Hpos ].
  cbn [Qabs Z.abs Qnum Z.ltb Z.compare].
  set (x := Z.pos p # d) in *.
  set (e := Z.max (floor_log2 x - 52) (-1074)).
  assert (He : e <= 0).
  { destruct (Z.le_gt_cases (floor_log2 x) 52) as [?|Hgt]; [lia|]. exfalso.
    pose proof (floor_log2_le x Hpos) as Hl.
    assert (H53 : (pow2 53 <= pow2 (floor_log2 x))%Q).
    { replace (floor_log2 x) with (53 + (floor_log2 x - 53)) by lia.
      rewrite pow2_add. rewrite <- (Qmult_1_r (pow2 53)) at 1.
      apply Qmult_le_l; [apply pow2_pos | apply pow2_ge_1; lia]. }
    assert (HN' : (inject_Z N < pow2 53)%Q).
    { rewrite (pow2_Z 53) by lia. rewrite <- Zlt_Qlt. lia. }
    apply (Qlt_irrefl (pow2 53)).
    eapply Qle_lt_trans; [|exact HN'].
    eapply Qle_trans; [exact H53|]. eapply Qle_trans; [exact Hl | exact HxN]. }
  set (P := 2 ^ (- e)).
  assert (HP : 0 < P) by (apply Z.pow_pos_nonneg; lia).
  assert (HpowP : (pow2 (- e) == inject_Z P)%Q) by (apply pow2_Z; lia).
  assert (Hm1 : round_half_even (x * pow2 (- e)) <= N * P).
  { apply round_half_even_le. rewrite inject_Z_mult, HpowP.
    apply Qmult_le_compat_r; [exact HxN|].
    change 0%Q with (inject_Z 0). rewrite <- Zle_Qle. lia. }
  assert (Hm0 : 0 <= round_half_even (x * pow2 (- e))).
  { apply round_half_even_nonneg. apply Qmult_le_0_compat; [exact H0|].
    apply Qlt_le_weak, pow2_pos. }
  set (m := round_half_even (x * pow2 (- e))) in *.
  split.
  - apply Qmult_le_0_compat; [|apply Qlt_le_weak, pow2_pos].
    change 0%Q with (inject_Z 0). now rewrite <- Zle_Qle.
  - apply Qle_trans with (inject_Z (N * P) * pow2 e)%Q.
    + apply Qmult_le_compat_r; [now rewrite <- Zle_Qle|].
      apply Qlt_le_weak, pow2_pos.
    + rewrite inject_Z_mult, <- HpowP, <- Qmult_assoc, pow2_inv, Qmult_1_r.
      apply Qle_refl.
Qed.

Lemma py_truediv_unit (t m : Z) :
  0 < m -> 0 <= t <= m ->
  py_truediv t m = Ret (round64 (inject_Z t / inject_Z m)) /\
  (0 <= round64 (inject_Z t / inject_Z m) /\
   round64 (inject_Z t / inject_Z m) <= 1)%Q.
Proof.
  intros Hm Ht. unfold py_truediv.
  destruct (Z.eqb_spec m 0); [lia|].
  assert (Hq0 : (0 <= inject_Z t / inject_Z m)%Q).
  { unfold Qle, Qdiv, Qmult, Qinv, inject_Z. destruct m; try lia. cbn. nia. }
  assert (Hq1 : (inject_Z t / inject_Z m <= inject_Z 1)%Q).
  { unfold Qle, Qdiv, Qmult, Qinv, inject_Z. destruct m; try lia. cbn. nia. }
  destruct (round64_bounds 1 _ ltac:(lia) Hq0 Hq1) as [B0 B1].
  set (r := round64 (inject_Z t / inject_Z m)) in *.
  assert (Hfin : Qle_bool (Qabs r) float_max = true).
  { apply Qle_bool_iff. rewrite Qabs_pos by exact B0.
    eapply Qle_trans; [exact B1|]. unfold float_max.
    change 1%Q with (inject_Z 1). rewrite <- Zle_Qle. vm_compute. discriminate. }
  rewrite Hfin. split; [reflexivity|]. split; assumption.
Qed.

(** The score of categories whose points are within their maxima. *)
Lemma compute_readiness_score_bounds (cats : list (string * category)) :
  0 < max_total_score cats ->
  0 <= total_score cats <= max_total_score cats ->
  let rs := float_mul (round64 (inject_Z (total_score cats)
                                / inject_Z (max_total_score cats))) 100 in
  compute_readiness_score cats = Ret rs /\ (0 <= rs /\ rs <= 100)%Q.
Proof.
  intros Hm Ht rs. unfold compute_readiness_score.
  destruct (Z.ltb_spec 0 (max_total_score cats)); [|lia].
  destruct (py_truediv_unit _ _ Hm Ht) as (-> & B0 & B1).
  split; [reflexivity|]. unfold rs, float_mul.
  apply (round64_bounds 100); [lia | |].
  - apply Qmult_le_0_compat; [exact B0 | discriminate].
  - change (inject_Z 100) with (1 * 100)%Q.
    apply Qmult_le_compat_r; [exact B1 | discriminate].
Qed.

(** The score of [t] points out of 400. *)
Lemma points_table :
  forallb (fun t =>
     let rs := float_mul (round64 (inject_Z t / inject_Z 400)) 100 in
     Bool.eqb (Qle_bool 90 rs) (360 <=? t)
     && Bool.eqb (Qle_bool 70 rs) (280 <=? t)
     && Qle_bool (Qabs (rs - inject_Z t / 4)) (1 # 2 ^ 46))
    (map Z.of_nat (seq 0 401)) = true.
Proof. vm_compute. reflexivity. Qed.

Lemma points_score (t : Z) :
  0 <= t <= 400 ->
  let rs := float_mul (round64 (inject_Z t / inject_Z 400)) 100 in
  ((90 <= rs)%Q <-> 360 <= t) /\ ((70 <= rs)%Q <-> 280 <= t) /\
  (Qabs (rs - inject_Z t / 4) <= 1 # 2 ^ 46)%Q.
Proof.
  intros Ht rs. pose proof points_table as H. rewrite forallb_forall in H.
  specialize (H t). cbv zeta in H. fold rs in H.
  assert (Hin : In t (map Z.of_nat (seq 0 401))).
  { apply in_map_iff. exists (Z.to_nat t). split; [lia|].
    apply in_seq. lia. }
  apply H in Hin. apply andb_true_iff in Hin as [Hin H3].
  apply andb_true_iff in Hin as [H1 H2].
  apply Bool.eqb_prop in H1, H2. apply Qle_bool_iff in H3.
  split; [|split; [|exact H3]].
  - rewrite <- Qle_bool_iff, H1. apply Z.leb_le.
  - rewrite <- Qle_bool_iff, H2. apply Z.leb_le.
Qed.

Lemma round_half_even_error (y : Q) :
  (Qabs (inject_Z (round_half_even y) - y) <= 1 # 2)%Q.
Proof.
  destruct y as [n d]. apply Qabs_Qle_condition.
  unfold round_half_even. cbn [Qnum Qden].
  pose proof (Z.div_mod n (Z.pos d) ltac:(lia)) as Hdm.
  pose proof (Z.mod_pos_bound n (Z.pos d) ltac:(lia)) as Hb.
  set (f := n / Z.pos d) in *. set (r := n mod Z.pos d) in *.
  assert (G : forall z, - Z.pos d <= 2 * (z * Z.pos d - n) <= Z.pos d ->
            (- (1 # 2) <= inject_Z z - (n # d) /\ inject_Z z - (n # d) <= 1 # 2)%Q).
  { intros z Hz. unfold Qle, Qminus, Qplus, Qopp, inject_Z. cbn [Qnum Qden].
    rewrite !Pos.mul_1_l. split; nia. }
  destruct (Z.ltb_spec (2 * r) (Z.pos d)); [apply G; nia|].
  destruct (Z.ltb_spec (Z.pos d) (2 * r)); [apply G; nia|].
  destruct (Z.even f); apply G; nia.
Qed.

Lemma pow2_le (a b : Z) : a <= b -> (pow2 a <= pow2 b)%Q.
Proof.
  intros H. replace b with (a + (b - a)) by lia. rewrite pow2_add.
  rewrite <- (Qmult_1_r (pow2 a)) at 1.
  apply Qmult_le_l; [apply pow2_pos | apply pow2_ge_1; lia].
Qed.

Lemma floor_log2_below (x : Q) (k : Z) :
  (0 < x)%Q -> (x <= pow2 k)%Q -> floor_log2 x <= k.
Proof.
  intros Hx Hk. destruct (Z.le_gt_cases (floor_log2 x) k) as [?|Hgt]; [assumption|].
  exfalso. pose proof (floor_log2_le x Hx) as Hl.
  assert (H1 : (pow2 (k + 1) <= pow2 (floor_log2 x))%Q) by (apply pow2_le; lia).
  assert (H2 : (pow2 k < pow2 (k + 1))%Q).
  { rewrite pow2_add. rewrite <- (Qmult_1_r (pow2 k)) at 1.
    apply Qmult_lt_l; [apply pow2_pos | reflexivity]. }
  apply (Qlt_irrefl (pow2 k)).
  eapply Qlt_le_trans; [exact H2|].
  eapply Qle_trans; [exact H1|]. eapply Qle_trans; [exact Hl | exact Hk].
Qed.

(** Rounding moves a number by at most half a unit in the last place. *)
Lemma round64_error (x : Q) (k : Z) :
  -1022 <= k -> (0 <= x)%Q -> (x <= pow2 k)%Q ->
  (Qabs (round64 x - x) <= pow2 (k - 53))%Q.
Proof.
  intros Hk H0 Hxk. unfold round64.
  destruct (Qeq_bool x 0) eqn:Ez.
  { apply Qeq_bool_iff in Ez. rewrite Ez. cbn.
    apply Qlt_le_weak, pow2_pos. }
  assert (Hpos : (0 < x)%Q).
  { apply Qle_lteq in H0 as [H|H]; [exact H|].
    symmetry in H. apply Qeq_bool_iff in H. congruence. }
  destruct x as [[|p|p] d];
    [ discriminate Hpos | | discriminate Hpos ].
  change (Qabs (Z.pos p # d)) with (Z.pos p # d).
  change (Qnum (Z.pos p # d) <? 0) with false. cbv iota.
  set (x := Z.pos p # d) in *.
  pose proof (floor_log2_below x k Hpos Hxk) as Hfl.
  set (e := Z.max (floor_log2 x - 52) (-1074)).
  assert (He : e <= k - 52) by lia.
  set (m := round_half_even (x * pow2 (- e))).
  assert (Heq : (inject_Z m * pow2 e - x
                 == (inject_Z m - x * pow2 (- e)) * pow2 e)%Q).
  { rewrite <- (Qmult_1_r x) at 1. rewrite <- (pow2_inv e). ring. }
  rewrite Heq, Qabs_Qmult, (Qabs_pos (pow2 e)) by apply Qlt_le_weak, pow2_pos.
  apply Qle_trans with ((1 # 2) * pow2 e)%Q.
  - apply Qmult_le_compat_r; [apply round_half_even_error|].
    apply Qlt_le_weak, pow2_pos.
  - apply Qle_trans with (pow2 (e - 1)).
    + replace (e - 1) with (-1 + e) by lia. rewrite pow2_add.
      apply Qle_refl.
    + apply pow2_le. lia.
Qed.

(** The score is the exact percentage up to two roundings. *)
Lemma compute_readiness_score_accuracy (cats : list (string * category)) :
  0 < max_total_score cats ->
  0 <= total_score cats <= max_total_score cats ->
  exists rs,
    compute_readiness_score cats = Ret rs /\
    (Qabs (rs - 100 * inject_Z (total_score cats)
                / inject_Z (max_total_score cats)) <= 1 # 2 ^ 45)%Q.
Proof.
  intros Hm Ht.
  destruct (compute_readiness_score_bounds cats Hm Ht) as (Hc & _).
  eexists. split; [exact Hc|].
  destruct (py_truediv_unit _ _ Hm Ht) as (_ & B0 & B1).
  set (x := (inject_Z (total_score cats) / inject_Z (max_total_score cats))%Q) in *.
  set (r := round64 x) in *. unfold float_mul.
  assert (Hx0 : (0 <= x)%Q).
  { unfold x, Qle, Qdiv, Qmult, Qinv, inject_Z.
    destruct (max_total_score cats); try lia. cbn. nia. }
  assert (Hx1 : (x <= pow2 0)%Q).
  { unfold x, Qle, Qdiv, Qmult, Qinv, inject_Z.
    destruct (max_total_score cats); try lia. cbn. nia. }
  pose proof (round64_error x 0 ltac:(lia) Hx0 Hx1) as E1. fold r in E1.
  assert (Hy0 : (0 <= r * 100)%Q)
    by (apply Qmult_le_0_compat; [exact B0 | discriminate]).
  assert (Hy1 : (r * 100 <= pow2 7)%Q).
  { apply Qle_trans with (1 * 100)%Q;
      [apply Qmult_le_compat_r; [exact B1 | discriminate] | discriminate]. }
  pose proof (round64_error (r * 100) 7 ltac:(lia) Hy0 Hy1) as E2.
  assert (Hsplit : (round64 (r * 100) - 100 * inject_Z (total_score cats)
                                         / inject_Z (max_total_score cats)
                    == (round64 (r * 100) - r * 100) + 100 * (r - x))%Q).
  { unfold x. field. intros Hz. unfold Qeq, inject_Z in Hz. cbn in Hz. lia. }
  rewrite Hsplit.
  eapply Qle_trans; [apply Qabs_triangle|].
  rewrite Qabs_Qmult. change (Qabs 100) with 100%Q.
  apply Qle_trans with (pow2 (7 - 53) + 100 * pow2 (0 - 53))%Q.
  - apply Qplus_le_compat; [exact E2|].
    apply Qmult_le_l; [reflexivity | exact E1].
  - vm_compute. discriminate.
Qed.

(** The exact percentage of [t] points out of 400. *)
Lemma score_thresholds (t : Z) :
  let rs := (inject_Z t / inject_Z 400 * 100)%Q in
  ((90 <= rs)%Q <-> 360 <= t) /\ ((70 <= rs)%Q <-> 280 <= t) /\
  (rs == inject_Z t / 4)%Q.
Proof.
  unfold Qle, Qeq, Qdiv, Qmult, Qinv, inject_Z. cbn. lia.
Qed.

(** ** The calls a block makes *)

Section EmitsOnly.
Variable P : event -> bool.

Lemma emits_only_refl (s : pstate) : emits_only P 0 s s.
Proof. exists []. now rewrite app_nil_r. Qed.

Lemma emits_only_trans (p q : Z) (s1 s2 s3 : pstate) :
  emits_only P p s1 s2 -> emits_only P q s2 s3 -> emits_only P (p + q) s1 s3.
Proof.
  intros (l1 & E1 & F1) (l2 & E2 & F2). exists (l1 ++ l2).
  split; [now rewrite E2, E1, app_assoc|].
  now rewrite forallb_app, F1, F2.
Qed.

Lemma emits_only_weaken (p q : Z) (s1 s2 : pstate) :
  p <= q -> emits_only P p s1 s2 -> emits_only P q s1 s2.
Proof. intros _ H. exact H. Qed.

Lemma emits_emit ev : P ev = true -> graded (emits_only P) 0 (emit ev).
Proof. intros H s. exists [ev]. cbn. now rewrite H. Qed.

Lemma emits_call {A} ev (o : outcome A) :
  P ev = true -> graded (emits_only P) 0 (call ev o).
Proof.
  intros H s. exists [ev]. unfold call, bind, emit, lift.
  destruct o; cbn; now rewrite H.
Qed.

Lemma emits_set_detail k v : graded (emits_only P) 0 (set_detail k v).
Proof. intros s. exists []. cbn. now rewrite app_nil_r. Qed.

Lemma emits_add_issue i : graded (emits_only P) 0 (add_issue i).
Proof. intros s. exists []. cbn. now rewrite app_nil_r. Qed.

Lemma emits_add_score p : graded (emits_only P) 0 (add_score p).
Proof. intros s. exists []. cbn. now rewrite app_nil_r. Qed.

Lemma emits_bind_local n : graded (emits_only P) 0 (bind_local n).
Proof. intros s. exists []. cbn. now rewrite app_nil_r. Qed.

End EmitsOnly.

Ltac emits_prim P :=
  first [ apply (emits_call P); reflexivity
        | apply (emits_emit P); reflexivity
        | apply emits_set_detail | apply emits_add_issue
        | apply emits_add_score | apply emits_bind_local
        | solve [eauto 1 with graded_db] ].

Ltac emits_go P :=
  eapply (graded_weaken (emits_only P) (emits_only_weaken P) _ 0);
  [ graded_go (emits_only P) (emits_only_refl P) (emits_only_trans P)
      (emits_only_weaken P) ltac:(emits_prim P)
  | lia ].

(** ** Runs that complete *)

Lemma run_max_total c1 c2 c3 c4 :
  max_score c1 = 100 -> max_score c2 = 100 -> max_score c3 = 100 ->
  max_score c4 = 100 ->
  max_total_score (run_categories c1 c2 c3 c4) = 400.
Proof.
  intros H1 H2 H3 H4. unfold max_total_score, run_categories.
  cbn [map snd sum_Z fold_right]. lia.
Qed.

Lemma run_total c1 c2 c3 c4 :
  total_score (run_categories c1 c2 c3 c4) =
  score c1 + score c2 + score c3 + score c4.
Proof.
  unfold total_score, run_categories. cbn [map snd sum_Z fold_right]. lia.
Qed.

(** The maxima of a completed run. *)
Lemma run_assessors_bounds cfg w l l1 l2 l3 l4 c1 c2 c3 c4 :
  assess_code_quality w l = (Ret c1, l1) ->
  assess_database_readiness cfg w l1 = (Ret c2, l2) ->
  assess_api_readiness cfg w l2 = (Ret c3, l3) ->
  assess_system_resources cfg w l3 = (Ret c4, l4) ->
  (0 <= score c1 <= 100 /\ max_score c1 = 100) /\
  (0 <= score c2 <= 100 /\ max_score c2 = 100) /\
  (0 <= score c3 <= 100 /\ max_score c3 = 100) /\
  (0 <= score c4 <= 100 /\ max_score c4 = 100).
Proof.
  intros H1 H2 H3 H4.
  apply with_results_bounds in H1; [|apply code_quality_gains].
  apply with_results_bounds in H2; [|apply database_gains].
  apply with_results_bounds in H3; [|apply api_gains].
  apply with_results_bounds in H4; [|apply system_gains].
  repeat split; lia.
Qed.

(** The score of a run whose assessors have returned: that of its points out
    of 400. *)
Lemma run_readiness_score cfg w l l1 l2 l3 l4 c1 c2 c3 c4 :
  assess_code_quality w l = (Ret c1, l1) ->
  assess_database_readiness cfg w l1 = (Ret c2, l2) ->
  assess_api_readiness cfg w l2 = (Ret c3, l3) ->
  assess_system_resources cfg w l3 = (Ret c4, l4) ->
  let cats := run_categories c1 c2 c3 c4 in
  0 <= total_score cats <= 400 /\
  max_total_score cats = 400 /\
  compute_readiness_score cats =
    Ret (float_mul (round64 (inject_Z (total_score cats) / inject_Z 400)) 100).
Proof.
  intros E1 E2 E3 E4 cats.
  destruct (run_assessors_bounds _ _ _ _ _ _ _ _ _ _ _ E1 E2 E3 E4)
    as ((S1 & M1) & (S2 & M2) & (S3 & M3) & (S4 & M4)).
  pose proof (run_max_total c1 c2 c3 c4 M1 M2 M3 M4) as Hm.
  pose proof (run_total c1 c2 c3 c4) as Ht. fold cats in Hm, Ht.
  assert (Hb : 0 <= total_score cats <= 400) by lia.
  split; [exact Hb|]. split; [exact Hm|].
  destruct (compute_readiness_score_bounds cats) as (Hc & _); [lia | lia |].
  rewrite Hc, Hm. reflexivity.
Qed.

Lemma run_returns cfg w l :
  cleanup_ok w -> api_config_ok cfg -> http_failures_handled w ->
  exists rep l',
    run_assessment cfg w l = (Ret rep, l') /\
    forall ev, In ev always_attempted -> In ev l'.
Proof.
  intros Hdb Hcfg Hhttp.
  destruct (code_quality_returns w l) as (c1 & E1).
  destruct (database_returns cfg w (l ++ code_quality_events) Hdb)
    as (c2 & l2 & E2).
  destruct (api_returns cfg w Hcfg Hhttp l2) as (c3 & l3 & E3 & A3).
  destruct (system_returns cfg w l3) as (c4 & l4 & E4 & A4).
  destruct (run_assessors_bounds _ _ _ _ _ _ _ _ _ _ _ E1 E2 E3 E4)
    as ((_ & M1) & (_ & M2) & (_ & M3) & (_ & M4)).
  pose proof (run_max_total c1 c2 c3 c4 M1 M2 M3 M4) as Hmax.
  destruct (with_results_log _ _ _ _ _ (database_gains cfg w) E2) as [x2 X2].
  destruct (with_results_log _ _ _ _ _ (api_gains cfg w) E3) as [x3 X3].
  destruct (with_results_log _ _ _ _ _ (system_gains cfg w) E4) as [x4 X4].
  destruct (run_readiness_score _ _ _ _ _ _ _ _ _ _ _ E1 E2 E3 E4)
    as (_ & _ & Hrs).
  unfold run_assessment, bind. rewrite E1, E2, E3, E4.
  unfold generate_recommendations, lift, ret. rewrite Hrs, Hmax.
  change (400 =? 0) with false. cbv iota.
  eexists _, _. split; [reflexivity|].
  intros ev Hev. unfold always_attempted in Hev.
  rewrite !in_app_iff in Hev. destruct Hev as [Hev | [Hev | Hev]].
  - subst l4 l3 l2. rewrite !in_app_iff. tauto.
  - apply A3 in Hev. subst l4. rewrite in_app_iff. tauto.
  - now apply A4.
Qed.

Lemma program_returns argv w cfg l0 rep l1 :
  load_config w (nth_error argv 1) [] = (Ret cfg, l0) ->
  run_assessment cfg w l0 = (Ret rep, l1) ->
  write_report w = Ret tt ->
  print_all w (print_summary rep) = Ret tt ->
  program argv w [] = (Ret rep, l1 ++ [EvSaveReport]).
Proof.
  intros Hl Hr Hw Hp. unfold program, bind. rewrite Hl, Hr.
  unfold save_report, log_call, lift. rewrite Hw, Hp. reflexivity.
Qed.

Lemma exit_code_range st : st <> UNKNOWN ->
  (st = READY /\ exit_code st = 0) \/
  (st = READY_WITH_WARNINGS /\ exit_code st = 1) \/
  (st = NOT_READY /\ exit_code st = 2).
Proof. destruct st; intros H; try tauto; cbn; tauto. Qed.

Lemma determine_status_known rs critical : determine_status rs critical <> UNKNOWN.
Proof.
  unfold determine_status.
  destruct (_ && _); [discriminate|]. destruct (_ && _); discriminate.
Qed.

Lemma default_config_ok pw : api_config_ok (default_config pw).
Proof.
  split; [eexists; reflexivity|]. eexists. split; reflexivity.
Qed.

Lemma load_config_default w config_file :
  (config_file = None \/ config_file = Some "" \/
   exists p, config_file = Some p /\ path_exists w p = false) ->
  load_config w config_file [] = (Ret (default_config (env_db_password w)), []).
Proof.
  intros [-> | [-> | (p & -> & Hp)]]; try reflexivity.
  unfold load_config. rewrite Hp, andb_false_r. reflexivity.
Qed.

(** ** An exception the API assessor does not catch *)

(** A configuration lookup raises KeyError or TypeError, never a request
    error. *)
Lemma config_item_not_request cfg k1 k2 e :
  config_item cfg k1 k2 = Raise e -> is_class RequestException e = false.
Proof.
  unfold config_item, subscript. intros H.
  destruct (dict_get k1 cfg) as [v|]; [|injection H as <-; reflexivity].
  destruct v; try (injection H as <-; reflexivity).
  destruct (dict_get k2 d); [discriminate | injection H as <-; reflexivity].
Qed.

Lemma api_threshold_escapes cfg w e base r l :
  config_item cfg "thresholds" "response_time_ms" = Raise e ->
  dict_get "api_base_url" cfg = Some base ->
  http_failures_handled w ->
  http_post w base "/api/dcf/calculate" = Ret r ->
  status_code r = 200 ->
  exists l', assess_api_readiness cfg w l = (Raise e, l').
Proof.
  intros Hthr Hb Hhttp Hr Hst.
  unfold assess_api_readiness, with_results, api_body, bind.
  assert (H1 : forall s, exists s', health_probe cfg w s = (Ret tt, s')).
  { intros s. unfold health_probe. exec. unfold subscript. rewrite Hb.
    split_goal;
      try (match goal with
           | H : http_get w ?b ?p = Raise ?x |- _ =>
               pose proof (proj1 (Hhttp b p x) H)
           end; congruence);
      eexists; reflexivity. }
  assert (H2 : forall s, exists s', financial_probe cfg w s = (Ret tt, s')).
  { intros s. unfold financial_probe. exec. unfold subscript. rewrite Hb.
    split_goal;
      try (match goal with
           | H : http_get w ?b ?p = Raise ?x |- _ =>
               pose proof (proj1 (Hhttp b p x) H)
           end; congruence);
      eexists; reflexivity. }
  destruct (H1 (mk_pstate init_results [] l)) as (s1 & ->).
  destruct (H2 s1) as (s2 & ->).
  unfold dcf_probe. exec. unfold subscript at 1. rewrite Hb, Hr. proj.
  rewrite Hst. cbn [Z.eqb Pos.eqb]. rewrite Hthr. proj.
  rewrite (config_item_not_request _ _ _ _ Hthr).
  eexists. reflexivity.
Qed.

Lemma run_threshold_escapes cfg w e base r l :
  config_item cfg "thresholds" "response_time_ms" = Raise e ->
  dict_get "api_base_url" cfg = Some base ->
  http_failures_handled w ->
  http_post w base "/api/dcf/calculate" = Ret r ->
  status_code r = 200 ->
  cleanup_ok w ->
  exists l', run_assessment cfg w l = (Raise e, l').
Proof.
  intros Hthr Hb Hhttp Hr Hst Hdb.
  destruct (code_quality_returns w l) as (c1 & E1).
  destruct (database_returns cfg w (l ++ code_quality_events) Hdb)
    as (c2 & l2 & E2).
  destruct (api_threshold_escapes cfg w e base r l2 Hthr Hb Hhttp Hr Hst)
    as (l3 & E3).
  unfold run_assessment, bind. rewrite E1, E2, E3. eexists. reflexivity.
Qed.

Lemma with_results_emits P body l o l' :
  graded (emits_only P) 0 body ->
  with_results body l = (o, l') ->
  exists x, l' = l ++ x /\ forallb P x = true.
Proof.
  intros Hb H. unfold with_results in H.
  destruct (Hb (mk_pstate init_results [] l)) as (x & Hx & Fx).
  destruct (body (mk_pstate init_results [] l)) as [[[]|e] s];
    injection H as <- <-; exists x; split; assumption.
Qed.

Lemma database_finally_not_system w :
  graded (emits_only not_system_call) 0 (database_finally w).
Proof.
  intros s. unfold database_finally.
  destruct (is_bound "connection" s); [|apply emits_only_refl].
  destruct (is_bound "cursor" s).
  - assert (G : forall m : M pstate unit,
                graded (emits_only not_system_call) 0 m ->
                emits_only not_system_call 0 s (snd (m s)))
      by (intros m Hm; apply Hm).
    apply G. emits_go not_system_call.
  - assert (G : forall m : M pstate unit,
                graded (emits_only not_system_call) 0 m ->
                emits_only not_system_call 0 s (snd (m s)))
      by (intros m Hm; apply Hm).
    apply G. emits_go not_system_call.
Qed.

Lemma database_not_system cfg w :
  graded (emits_only not_system_call) 0 (database_body cfg w).
Proof.
  pose proof (database_finally_not_system w).
  unfold database_body, database_handlers, database_try_body, open_connection,
    database_checks, connectivity_check, table_structure_check,
    data_integrity_check, query_performance_check.
  emits_go not_system_call.
Qed.

Lemma api_not_system cfg w :
  graded (emits_only not_system_call) 0 (api_body cfg w).
Proof.
  unfold api_body, health_probe, financial_probe, dcf_probe.
  emits_go not_system_call.
Qed.

(** The run ends in the API assessor: System Resources is never assessed. *)
Lemma run_threshold_escapes_early cfg w e base r l :
  config_item cfg "thresholds" "response_time_ms" = Raise e ->
  dict_get "api_base_url" cfg = Some base ->
  http_failures_handled w ->
  http_post w base "/api/dcf/calculate" = Ret r ->
  status_code r = 200 ->
  cleanup_ok w ->
  exists x,
    run_assessment cfg w l = (Raise e, l ++ x) /\
    forallb not_system_call x = true.
Proof.
  intros Hthr Hb Hhttp Hr Hst Hdb.
  destruct (code_quality_returns w l) as (c1 & E1).
  destruct (database_returns cfg w (l ++ code_quality_events) Hdb)
    as (c2 & l2 & E2).
  destruct (api_threshold_escapes cfg w e base r l2 Hthr Hb Hhttp Hr Hst)
    as (l3 & E3).
  destruct (with_results_emits _ _ _ _ _ (database_not_system cfg w) E2)
    as (x2 & -> & F2).
  destruct (with_results_emits _ _ _ _ _ (api_not_system cfg w) E3)
    as (x3 & -> & F3).
  exists (code_quality_events ++ x2 ++ x3). split.
  - unfold run_assessment, bind. rewrite E1, E2, E3.
    now rewrite <- !app_assoc.
  - rewrite !forallb_app, F2, F3. reflexivity.
Qed.

(** * The claims *)

(** C1.  In a completed run the status is given by the first rule that
    matches: READY when the score is at least 90 and there is no critical
    issue; otherwise READY_WITH_WARNINGS when the score is at least 70 and
    there are at most two critical issues; otherwise NOT_READY.  A run with a
    critical issue is never READY. *)
Theorem status_policy_first_match cfg w l rep l' :
  run_assessment cfg w l = (Ret rep, l') ->
  let rs := readiness_score rep in
  let n := length (critical_issues rep) in
  let gate1 := (90 <= rs)%Q /\ n = 0%nat in
  let gate2 := (70 <= rs)%Q /\ (n <= 2)%nat in
  (overall_status rep = READY <-> gate1) /\
  (overall_status rep = READY_WITH_WARNINGS <-> ~ gate1 /\ gate2) /\
  (overall_status rep = NOT_READY <-> ~ gate1 /\ ~ gate2) /\
  ((1 <= n)%nat -> overall_status rep <> READY).
Proof.
  intros H.
  apply run_assessment_inv in H
    as (c1 & c2 & c3 & c4 & l1 & l2 & l3 & rs & _ & _ & _ & _ & Hrs & _ & ->).
  cbn [readiness_score critical_issues overall_status].
  set (cats := run_categories c1 c2 c3 c4).
  pose proof (determine_status_cases rs
                (fst (collect_issues cats ([], [])))) as (G1 & G2 & G3).
  cbv zeta in *. split; [exact G1|]. split; [exact G2|]. split; [exact G3|].
  intros Hn Hs. apply G1 in Hs. lia.
Qed.

Lemma status_policy_first_match_witness :
  exists rep l',
    run_assessment (default_config "") coverage_failed_world [] = (Ret rep, l') /\
    (overall_status rep = READY_WITH_WARNINGS <->
     ~ ((90 <= readiness_score rep)%Q /\ length (critical_issues rep) = 0%nat) /\
     (70 <= readiness_score rep)%Q /\ (length (critical_issues rep) <= 2)%nat).
Proof.
  destruct (run_assessment (default_config "") coverage_failed_world [])
    as [[rep|e] l'] eqn:E.
  - exists rep, l'. split; [reflexivity|].
    apply (status_policy_first_match _ _ _ _ _ E).
  - vm_compute in E. discriminate E.
Defined.

Lemma sum_scores_le (cats : list (string * category)) :
  (forall c, In c cats -> 0 <= score (snd c) <= max_score (snd c)) ->
  0 <= total_score cats <= max_total_score cats.
Proof.
  unfold total_score, max_total_score.
  induction cats as [|c cats IH]; intros H; cbn [map sum_Z fold_right]; [lia|].
  specialize (H c (or_introl eq_refl)) as Hc.
  assert (0 <= sum_Z (map (fun c => score (snd c)) cats)
          <= sum_Z (map (fun c => max_score (snd c)) cats)).
  { apply IH. intros c' Hc'. apply H. now right. }
  unfold sum_Z in *. lia.
Qed.

Lemma ratio_bounds (t m : Z) :
  0 < m -> 0 <= t <= m ->
  (0 <= inject_Z t / inject_Z m * 100 /\ inject_Z t / inject_Z m * 100 <= 100)%Q.
Proof.
  intros Hm Ht. destruct m as [|p|p]; try lia.
  unfold Qle, Qdiv, Qmult, Qinv, inject_Z. cbn. split; nia.
Qed.



(** ** The issue a failed test run leaves *)

Lemma backend_failing_issue w l c l' cp :
  subprocess_run w ["mvn"; "test"; "-q"] = Ret cp ->
  returncode cp <> 0 ->
  assess_code_quality w l = (Ret c, l') ->
  In "Backend tests failing" (issues c).
Proof.
  intros Hrun Hrc H.
  unfold assess_code_quality, with_results, code_quality_body in H.
  set (s0 := mk_pstate init_results [] l) in H.
  unfold bind at 1 in H.
  assert (E1 : exists s1, backend_tests_probe w s0 = (Ret tt, s1) /\
                 issues (results s1) = ["Backend tests failing"]).
  { unfold backend_tests_probe. exec. rewrite Hrun. proj.
    destruct (Z.eqb_spec (returncode cp) 0) as [?|_]; [contradiction|].
    eexists. split; reflexivity. }
  destruct E1 as (s1 & E1 & I1). rewrite E1 in H.
  assert (G : graded step_rel 70
            (test_coverage_probe w ;; static_analysis_probe w ;;
             security_scan_probe w)).
  { pose proof (test_coverage_gains w). pose proof (static_analysis_gains w).
    pose proof (security_scan_gains w). gains 70. }
  destruct (G s1) as (_ & _ & [x Hx] & _).
  destruct ((test_coverage_probe w ;; static_analysis_probe w ;;
             security_scan_probe w) s1) as [[[]|e] s2]; [|discriminate].
  injection H as <- <-. cbn [snd] in Hx. rewrite Hx, I1. now left.
Qed.

Lemma In_filter_split (f : string -> bool) (l : list string) (x : string) :
  In x l ->
  (In x (List.filter f l) /\ ~ In x (List.filter (fun i => negb (f i)) l) /\
   f x = true) \/
  (In x (List.filter (fun i => negb (f i)) l) /\ ~ In x (List.filter f l) /\
   f x = false).
Proof.
  intros Hx. destruct (f x) eqn:E; [left | right]; repeat split.
  - apply List.filter_In. auto.
  - rewrite List.filter_In, E. cbn. intros [_ ?]. discriminate.
  - apply List.filter_In. rewrite E. auto.
  - rewrite List.filter_In, E. intros [_ ?]. discriminate.
Qed.

(** C3.  Every issue of a completed run is put in exactly one of the two
    lists: the critical issues when its lower-cased text contains "critical",
    "failed", "error" or "not found", the warnings otherwise; nothing else is
    put in either list.  "Backend tests failing", the issue of a test run
    that exits with a non-zero status, is a warning. *)
Theorem issue_classification cfg w l rep l' :
  run_assessment cfg w l = (Ret rep, l') ->
  (forall issue, In issue (all_issues (categories rep)) ->
     (In issue (critical_issues rep) /\ ~ In issue (warnings rep) /\
      exists kw, In kw critical_keywords /\ str_in kw (lower issue) = true) \/
     (In issue (warnings rep) /\ ~ In issue (critical_issues rep) /\
      forall kw, In kw critical_keywords -> str_in kw (lower issue) = false)) /\
  (forall issue, In issue (critical_issues rep) \/ In issue (warnings rep) ->
     In issue (all_issues (categories rep))) /\
  critical_keywords = ["critical"; "failed"; "error"; "not found"] /\
  is_critical "Backend tests failing" = false /\
  (forall cp, subprocess_run w ["mvn"; "test"; "-q"] = Ret cp ->
     returncode cp <> 0 ->
     In "Backend tests failing" (warnings rep) /\
     ~ In "Backend tests failing" (critical_issues rep)).
Proof.
  intros H.
  apply run_assessment_inv in H
    as (c1 & c2 & c3 & c4 & l1 & l2 & l3 & rs & E1 & _ & _ & _ & Hrs & _ & ->).
  cbn [categories critical_issues warnings].
  set (cats := run_categories c1 c2 c3 c4).
  rewrite (collect_issues_filter cats [] []). cbn [fst snd app].
  assert (Hclass : forall issue, In issue (all_issues cats) ->
     (In issue (List.filter is_critical (all_issues cats)) /\
      ~ In issue (List.filter (fun i => negb (is_critical i)) (all_issues cats)) /\
      exists kw, In kw critical_keywords /\ str_in kw (lower issue) = true) \/
     (In issue (List.filter (fun i => negb (is_critical i)) (all_issues cats)) /\
      ~ In issue (List.filter is_critical (all_issues cats)) /\
      forall kw, In kw critical_keywords -> str_in kw (lower issue) = false)).
  { intros issue Hi.
    destruct (In_filter_split is_critical _ _ Hi) as [(A & B & C)|(A & B & C)].
    - left. repeat split; try assumption. now apply is_critical_iff.
    - right. repeat split; try assumption. now apply not_critical_iff. }
  split; [exact Hclass|].
  split.
  { intros issue [Hi|Hi]; apply List.filter_In in Hi; tauto. }
  split; [reflexivity|]. split; [reflexivity|].
  intros cp Hrun Hrc.
  assert (Hin : In "Backend tests failing" (all_issues cats)).
  { unfold all_issues, cats, run_categories. cbn [map snd concat].
    apply in_or_app. left. eapply backend_failing_issue; eassumption. }
  destruct (Hclass _ Hin) as [(_ & _ & kw & Hkw & Hs)|(A & B & _)]; [|tauto].
  exfalso. unfold critical_keywords in Hkw. cbn [In] in Hkw.
  destruct Hkw as [<- | [<- | [<- | [<- | []]]]]; vm_compute in Hs; discriminate.
Qed.

Lemma issue_classification_witness :
  exists rep l',
    run_assessment (default_config "") tests_failed_world [] = (Ret rep, l') /\
    In "Backend tests failing" (warnings rep) /\
    ~ In "Backend tests failing" (critical_issues rep).
Proof.
  destruct (run_assessment (default_config "") tests_failed_world [])
    as [[rep|e] l'] eqn:E.
  - exists rep, l'. split; [reflexivity|].
    destruct (issue_classification _ _ _ _ _ E) as (_ & _ & _ & _ & H).
    apply (H (mk_completed 1 EmptyString)); [reflexivity | discriminate].
  - vm_compute in E. discriminate E.
Defined.

(** ** Recommendations *)

Lemma In_existsb (r : string) (l : list string) :
  In r l <-> existsb (String.eqb r) l = true.
Proof.
  rewrite existsb_exists. split.
  - intros H. exists r. split; [exact H | apply String.eqb_refl].
  - intros (x & Hx & E). apply String.eqb_eq in E. now subst.
Qed.

Lemma opening_cases (ratio : Q) :
  opening_of_ratio ratio = ready_opening \/
  opening_of_ratio ratio = warnings_opening \/
  opening_of_ratio ratio = not_ready_opening.
Proof.
  unfold opening_of_ratio.
  destruct (Qle_bool (9 # 10) ratio); [tauto|].
  destruct (Qle_bool (7 # 10) ratio); tauto.
Qed.

Lemma generate_recommendations_inv cats recs :
  generate_recommendations cats = Ret recs ->
  max_total_score cats <> 0 /\
  recs = opening_of_ratio
           (inject_Z (total_score cats) / inject_Z (max_total_score cats))%Q
         ++ trigger_recommendations (all_issues cats).
Proof.
  unfold generate_recommendations.
  destruct (Z.eqb_spec (max_total_score cats) 0); [discriminate|].
  intros [= <-]. split; [assumption | reflexivity].
Qed.

(** Membership of a line of a block, whatever the opening and the other
    blocks. *)
Lemma block_line_iff (ratio : Q) (t p m d : bool) (r : string) :
  let recs := opening_of_ratio ratio
              ++ when_block t test_block ++ when_block p performance_block
              ++ when_block m memory_block ++ when_block d database_block in
  (In r test_block -> (In r recs <-> t = true)) /\
  (In r performance_block -> (In r recs <-> p = true)) /\
  (In r memory_block -> (In r recs <-> m = true)) /\
  (In r database_block -> (In r recs <-> d = true)).
Proof.
  intros recs. subst recs.
  unfold test_block, performance_block, memory_block, database_block.
  (split; [|split; [|split]]); cbn [In]; intros Hr;
    repeat (destruct Hr as [<- | Hr]); try contradiction;
    rewrite In_existsb;
    destruct (opening_cases ratio) as [-> | [-> | ->]];
    destruct t, p, m, d; vm_compute; try tauto; try congruence.
Qed.

Lemma mentions_iff kw l :
  mentions kw l = true <-> exists i, In i l /\ str_in kw (lower i) = true.
Proof. unfold mentions. apply existsb_exists. Qed.

Lemma performance_trigger_iff l :
  performance_trigger l = true <->
  exists i, In i l /\
    (str_in "performance" (lower i) = true \/ str_in "slow" (lower i) = true).
Proof.
  unfold performance_trigger. rewrite existsb_exists.
  split; intros (i & Hi & H); exists i; split; try assumption.
  - now apply orb_true_iff in H.
  - now apply orb_true_iff.
Qed.

(** C8.  The recommendations after the opening are four blocks, each added
    when its keyword -- "test"; "performance" or "slow"; "memory";
    "database" -- occurs, in any case, in some issue of any category, and
    whatever the other three do.  Each block has one or two lines.  Issues
    that mention "slow" and "memory" yield both blocks. *)
Theorem recommendation_triggers_independent cats recs :
  generate_recommendations cats = Ret recs ->
  let corpus := all_issues cats in
  (exists opening,
     recs = opening
            ++ when_block (test_trigger corpus) test_block
            ++ when_block (performance_trigger corpus) performance_block
            ++ when_block (memory_trigger corpus) memory_block
            ++ when_block (database_trigger corpus) database_block) /\
  (forall r, In r test_block ->
     (In r recs <-> exists i, In i corpus /\ str_in "test" (lower i) = true)) /\
  (forall r, In r performance_block ->
     (In r recs <->
      exists i, In i corpus /\
        (str_in "performance" (lower i) = true \/
         str_in "slow" (lower i) = true))) /\
  (forall r, In r memory_block ->
     (In r recs <-> exists i, In i corpus /\ str_in "memory" (lower i) = true)) /\
  (forall r, In r database_block ->
     (In r recs <->
      exists i, In i corpus /\ str_in "database" (lower i) = true)) /\
  (forall b, In b [test_block; performance_block; memory_block; database_block] ->
     (1 <= length b <= 2)%nat) /\
  (forall i1 i2, In i1 corpus -> In i2 corpus ->
     str_in "slow" (lower i1) = true -> str_in "memory" (lower i2) = true ->
     incl performance_block recs /\ incl memory_block recs).
Proof.
  intros H corpus.
  apply generate_recommendations_inv in H as (_ & ->).
  fold corpus. unfold trigger_recommendations.
  set (ratio := (inject_Z (total_score cats) / inject_Z (max_total_score cats))%Q).
  pose proof (fun r => block_line_iff ratio (test_trigger corpus)
                (performance_trigger corpus) (memory_trigger corpus)
                (database_trigger corpus) r) as B.
  cbv zeta in B.
  assert (Ht : forall r, In r test_block -> _) by (intros r; apply (B r)).
  assert (Hp : forall r, In r performance_block -> _) by (intros r; apply (B r)).
  assert (Hm : forall r, In r memory_block -> _) by (intros r; apply (B r)).
  assert (Hd : forall r, In r database_block -> _) by (intros r; apply (B r)).
  split; [eexists; reflexivity|].
  split. { intros r Hr. rewrite (Ht r Hr). apply mentions_iff. }
  split. { intros r Hr. rewrite (Hp r Hr). apply performance_trigger_iff. }
  split. { intros r Hr. rewrite (Hm r Hr). apply mentions_iff. }
  split. { intros r Hr. rewrite (Hd r Hr). apply mentions_iff. }
  split.
  { intros b Hb. cbn [In] in Hb.
    destruct Hb as [<- | [<- | [<- | [<- | []]]]]; cbn; lia. }
  intros i1 i2 H1 H2 S1 S2. split; intros r Hr.
  - apply (Hp r Hr). apply performance_trigger_iff. exists i1. tauto.
  - apply (Hm r Hr). apply mentions_iff. exists i2. tauto.
Qed.

Lemma recommendation_triggers_independent_witness :
  exists recs,
    generate_recommendations slow_memory_categories = Ret recs /\
    incl performance_block recs /\ incl memory_block recs.
Proof.
  destruct (generate_recommendations slow_memory_categories) as [recs|e] eqn:E.
  - exists recs. split; [reflexivity|].
    destruct (recommendation_triggers_independent _ _ E)
      as (_ & _ & _ & _ & _ & _ & H).
    apply (H "DCF calculation too slow: 5000.00ms" "High memory usage: 3072MB");
      try reflexivity; cbn; tauto.
  - vm_compute in E. discriminate E.
Defined.

Lemma ratio_ge_iff (a b : Z) (q : Q) :
  0 <= a -> (inject_Z a / 100 == b # 10)%Q ->
  ((b # 10) <= q <-> inject_Z a <= q * 100)%Q.
Proof.
  intros _ E. destruct q as [n d].
  unfold Qeq, Qdiv, Qmult, Qinv, inject_Z in E. cbn in E.
  unfold Qle, Qmult, inject_Z. cbn. rewrite Pos.mul_1_r. lia.
Qed.

Lemma opening_of_ratio_iff (ratio : Q) :
  (opening_of_ratio ratio = ready_opening <-> (90 <= ratio * 100)%Q) /\
  (opening_of_ratio ratio = warnings_opening <->
   (70 <= ratio * 100)%Q /\ ~ (90 <= ratio * 100)%Q) /\
  (opening_of_ratio ratio = not_ready_opening <-> ~ (70 <= ratio * 100)%Q).
Proof.
  assert (H9 : ((9 # 10) <= ratio <-> 90 <= ratio * 100)%Q)
    by (apply (ratio_ge_iff 90 9); [lia | reflexivity]).
  assert (H7 : ((7 # 10) <= ratio <-> 70 <= ratio * 100)%Q)
    by (apply (ratio_ge_iff 70 7); [lia | reflexivity]).
  assert (H97 : ((9 # 10) <= ratio -> (7 # 10) <= ratio)%Q).
  { intros H. eapply Qle_trans; [|exact H]. discriminate. }
  unfold opening_of_ratio.
  destruct (Qle_bool (9 # 10) ratio) eqn:E9.
  - apply Qle_bool_iff in E9.
    split; [|split]; (split; [intros D; try discriminate D | intros]); tauto.
  - assert (~ ((9 # 10) <= ratio)%Q)
      by (intros D; apply Qle_bool_iff in D; congruence).
    destruct (Qle_bool (7 # 10) ratio) eqn:E7.
    + apply Qle_bool_iff in E7.
      split; [|split]; (split; [intros D; try discriminate D | intros]); tauto.
    + assert (~ ((7 # 10) <= ratio)%Q)
        by (intros D; apply Qle_bool_iff in D; congruence).
      split; [|split]; (split; [intros D; try discriminate D | intros]); tauto.
Qed.

Lemma all_issues_nil (cats : list (string * category)) :
  (forall c, In c cats -> issues (snd c) = []) -> all_issues cats = [].
Proof.
  unfold all_issues. induction cats as [|c cats IH]; intros H; [reflexivity|].
  cbn [map concat]. rewrite (H c (or_introl eq_refl)), IH; [reflexivity|].
  intros c' Hc'. apply H. now right.
Qed.

Lemma full_marks_run (c1 c2 c3 c4 : category) :
  (forall c, In c (run_categories c1 c2 c3 c4) ->
     score (snd c) = max_score (snd c) /\ issues (snd c) = []) ->
  max_score c1 = 100 -> max_score c2 = 100 -> max_score c3 = 100 ->
  max_score c4 = 100 ->
  total_score (run_categories c1 c2 c3 c4) = 400 /\
  all_issues (run_categories c1 c2 c3 c4) = [].
Proof.
  intros Hfull M1 M2 M3 M4.
  destruct (Hfull ("code_quality", c1)) as [S1 I1]; [cbn; tauto|].
  destruct (Hfull ("database", c2)) as [S2 I2]; [cbn; tauto|].
  destruct (Hfull ("api", c3)) as [S3 I3]; [cbn; tauto|].
  destruct (Hfull ("system_resources", c4)) as [S4 I4]; [cbn; tauto|].
  cbn [snd] in *. split.
  - rewrite run_total. lia.
  - unfold all_issues, run_categories. cbn [map concat snd].
    now rewrite I1, I2, I3, I4.
Qed.

(** A decidable form of "every category has its full score and no issue". *)
Lemma all_full_spec (cats : list (string * category)) :
  forallb (fun c => (score (snd c) =? max_score (snd c))
                    && is_empty_list (issues (snd c))) cats = true ->
  forall c, In c cats ->
    score (snd c) = max_score (snd c) /\ issues (snd c) = [].
Proof.
  intros H c Hc. rewrite forallb_forall in H. specialize (H c Hc).
  apply andb_true_iff in H as [H1 H2]. apply Z.eqb_eq in H1.
  split; [exact H1|]. now destruct (issues (snd c)).
Qed.

(** C5, as amended.  The recommendations of a completed run are the opening
    chosen by the readiness score alone -- the READY opening when the score
    is at least 90, the READY_WITH_WARNINGS opening when it is at least 70
    and below 90, the NOT_READY opening below 70 -- followed by the blocks the
    issues trigger.  The opening is that of the status whenever the run has
    no critical issue.  When every category has its full score and no issue,
    the score is 100, the status READY, and the list is the READY opening
    alone. *)
Theorem recommendations_follow_score cfg w l rep l' :
  run_assessment cfg w l = (Ret rep, l') ->
  let rs := readiness_score rep in
  (exists opening,
     recommendations rep =
       opening ++ trigger_recommendations (all_issues (categories rep)) /\
     (opening = ready_opening <-> (90 <= rs)%Q) /\
     (opening = warnings_opening <-> (70 <= rs)%Q /\ ~ (90 <= rs)%Q) /\
     (opening = not_ready_opening <-> ~ (70 <= rs)%Q) /\
     (critical_issues rep = [] ->
        (opening = ready_opening <-> overall_status rep = READY) /\
        (opening = warnings_opening <->
         overall_status rep = READY_WITH_WARNINGS) /\
        (opening = not_ready_opening <-> overall_status rep = NOT_READY))) /\
  ((forall c, In c (categories rep) ->
      score (snd c) = max_score (snd c) /\ issues (snd c) = []) ->
   (rs == 100)%Q /\ overall_status rep = READY /\
   recommendations rep = ready_opening).
Proof.
  intros H.
  apply run_assessment_inv in H
    as (c1 & c2 & c3 & c4 & l1 & l2 & l3 & rs & E1 & E2 & E3 & E4 & Hc & Hrec & Hrep).
  cbv zeta in Hc, Hrec, Hrep.
  assert (Hst := determine_status_cases (readiness_score rep)
                   (critical_issues rep)).
  assert (Hos : overall_status rep =
                determine_status (readiness_score rep) (critical_issues rep))
    by (rewrite Hrep; reflexivity).
  rewrite <- Hos in Hst. cbv zeta in Hst.
  destruct (run_assessors_bounds _ _ _ _ _ _ _ _ _ _ _ E1 E2 E3 E4)
    as ((_ & M1) & (_ & M2) & (_ & M3) & (_ & M4)).
  destruct (run_readiness_score _ _ _ _ _ _ _ _ _ _ _ E1 E2 E3 E4)
    as (Hpts & Hmax & Hc').
  set (cats := run_categories c1 c2 c3 c4) in *.
  rewrite Hc in Hc'. injection Hc' as Hval.
  apply generate_recommendations_inv in Hrec as (_ & Hrec).
  rewrite Hmax in Hrec.
  set (ratio := (inject_Z (total_score cats) / inject_Z 400)%Q) in *.
  assert (Hrs : readiness_score rep = rs) by (rewrite Hrep; reflexivity).
  assert (Hcats : categories rep = cats) by (rewrite Hrep; reflexivity).
  destruct (opening_of_ratio_iff ratio) as (O1 & O2 & O3).
  destruct (score_thresholds (total_score cats)) as (T90 & T70 & _).
  destruct (points_score (total_score cats) Hpts) as (P90 & P70 & _).
  cbv zeta in T90, T70, P90, P70. fold ratio in T90, T70, P90, P70.
  rewrite <- Hval in P90, P70.
  cbv zeta. rewrite Hrs in *. rewrite Hcats.
  destruct Hst as (S1 & S2 & S3).
  split.
  - exists (opening_of_ratio ratio).
    split; [exact Hrec|].
    rewrite T90 in O1, O2. rewrite T70 in O2, O3.
    split; [now rewrite O1, P90|]. split; [now rewrite O2, P90, P70|].
    split; [now rewrite O3, P70|].
    intros Hnil. rewrite Hnil in S1, S2, S3. cbn [length] in S1, S2, S3.
    assert (N0 : 0%nat = 0%nat) by reflexivity.
    assert (N2 : (0 <= 2)%nat) by lia.
    rewrite O1, O2, O3, S1, S2, S3, P90, P70. lia.
  - intros Hfull.
    destruct (full_marks_run c1 c2 c3 c4 Hfull M1 M2 M3 M4) as (Htot & Hiss).
    fold cats in Htot, Hiss.
    assert (Hratio : ratio = (inject_Z 400 / inject_Z 400)%Q).
    { unfold ratio. now rewrite Htot. }
    assert (Hcrit : critical_issues rep = []).
    { rewrite Hrep. cbn [critical_issues].
      rewrite (collect_issues_filter cats [] []), Hiss. reflexivity. }
    rewrite Hcrit in S1. cbn [length] in S1.
    rewrite Hrec, Hiss, Hratio.
    assert (H100 : (rs == 100)%Q).
    { rewrite Hval, Hratio. vm_compute. reflexivity. }
    split; [exact H100|]. split; [|reflexivity].
    apply S1. split; [apply P90; lia | reflexivity].
Qed.

Lemma recommendations_follow_score_witness :
  exists rep l',
    run_assessment (default_config "") healthy_world [] = (Ret rep, l') /\
    (readiness_score rep == 100)%Q /\ overall_status rep = READY /\
    recommendations rep = ready_opening.
Proof.
  destruct (run_assessment (default_config "") healthy_world [])
    as [[rep|e] l'] eqn:E.
  - exists rep, l'. split; [reflexivity|].
    destruct (recommendations_follow_score _ _ _ _ _ E) as (_ & H).
    apply H. apply all_full_spec.
    assert (Hr : rep = match fst (run_assessment (default_config "")
                                    healthy_world []) with
                       | Ret r => r
                       | Raise _ => rep
                       end) by (rewrite E; reflexivity).
    rewrite Hr. vm_compute. reflexivity.
  - vm_compute in E. discriminate E.
Defined.

(** C5, the claim as stated fails: with the coverage report failing the
    score is 95 and the status READY_WITH_WARNINGS, yet the list opens with
    the READY statement. *)
Lemma ready_opening_without_ready_status :
  exists rep l',
    run_assessment (default_config "") coverage_failed_world [] = (Ret rep, l') /\
    (readiness_score rep == 95)%Q /\
    critical_issues rep = ["Test coverage report generation failed"] /\
    overall_status rep = READY_WITH_WARNINGS /\
    firstn 2 (recommendations rep) = ready_opening /\
    ~ (firstn 2 (recommendations rep) = ready_opening <->
       overall_status rep = READY).
Proof.
  eexists _, _. split; [vm_compute; reflexivity|].
  cbn [readiness_score critical_issues overall_status recommendations].
  split; [reflexivity|]. split; [reflexivity|]. split; [reflexivity|].
  split; [reflexivity|]. intros [H _]. specialize (H eq_refl). discriminate H.
Qed.

(** C9.  A category returned by any of the four assessors has a score
    between 0 and its maximum, which is 100, whatever the outside world
    answers.  While the assessor runs the score never decreases: every block
    leaves it where it was or adds at most its own points. *)
Theorem category_score_within_budget cfg w l :
  (exists c l', assess_code_quality w l = (Ret c, l') /\
     0 <= score c <= max_score c /\ max_score c = 100) /\
  (exists c l', assess_system_resources cfg w l = (Ret c, l') /\
     0 <= score c <= max_score c /\ max_score c = 100) /\
  (forall c l', assess_database_readiness cfg w l = (Ret c, l') ->
     0 <= score c <= max_score c /\ max_score c = 100) /\
  (forall c l', assess_api_readiness cfg w l = (Ret c, l') ->
     0 <= score c <= max_score c /\ max_score c = 100) /\
  (forall probe points, In (probe, points) (probe_blocks cfg w) ->
     forall s,
       score (results s) <= score (results (snd (probe s)))
         <= score (results s) + points /\
       max_score (results (snd (probe s))) = max_score (results s)).
Proof.
  split; [|split; [|split; [|split]]].
  - destruct (code_quality_returns w l) as (c & E).
    exists c, (l ++ code_quality_events). split; [exact E|].
    eapply with_results_bounds; [apply code_quality_gains | exact E].
  - destruct (system_returns cfg w l) as (c & l' & E & _). exists c, l'.
    split; [exact E|].
    eapply with_results_bounds; [apply system_gains | exact E].
  - intros c l' E.
    eapply with_results_bounds; [apply database_gains | exact E].
  - intros c l' E. eapply with_results_bounds; [apply api_gains | exact E].
  - intros probe points Hin s.
    assert (G : graded step_rel points probe).
    { unfold probe_blocks in Hin. cbn [In] in Hin.
      repeat (destruct Hin as [[= <- <-] | Hin];
              [eauto using backend_tests_gains, test_coverage_gains,
                 static_analysis_gains, security_scan_gains,
                 open_connection_gains, connectivity_gains,
                 table_structure_gains, data_integrity_gains,
                 query_performance_gains, database_finally_gains,
                 health_gains, financial_gains, dcf_gains, memory_gains,
                 disk_gains, load_gains|]).
      contradiction. }
    destruct (G s) as (Hs & Hm & _). split; assumption.
Qed.

Lemma category_score_within_budget_witness :
  exists c l',
    assess_database_readiness (default_config "") db_down_world [] = (Ret c, l') /\
    0 <= score c <= max_score c /\ max_score c = 100.
Proof.
  destruct (assess_database_readiness (default_config "") db_down_world [])
    as [[c|e] l'] eqn:E.
  - exists c, l'. split; [reflexivity|].
    destruct (category_score_within_budget (default_config "") db_down_world [])
      as (_ & _ & H & _).
    exact (H c l' E).
  - vm_compute in E. discriminate E.
Defined.

Lemma connection_error_is_critical (msg : string) :
  str_in "error" (lower ("Database connection error: " +:+ msg)) = true /\
  is_critical ("Database connection error: " +:+ msg) = true.
Proof.
  assert (H : str_in "error" (lower ("Database connection error: " +:+ msg)) = true).
  { rewrite lower_app. apply str_in_app_l. reflexivity. }
  split; [exact H|]. apply is_critical_iff. exists "error". split; [|exact H].
  unfold critical_keywords. cbn [In]. tauto.
Qed.

(** C10.  When the connection attempt raises a database error, the Database
    category has score 0, the single details entry [database_error] and the
    single issue "Database connection error: <message>"; the issue contains
    "error" and is critical.  With the three other categories at 100 the
    score is 75, that issue is the only critical one, and the status is
    READY_WITH_WARNINGS. *)
Theorem database_outage_is_one_critical_issue cfg w d msg :
  dict_get "database" cfg = Some (JDict d) ->
  db_connect w d = Raise (mk_exn MySQLError msg) ->
  let issue := "Database connection error: " +:+ msg in
  (forall l,
     assess_database_readiness cfg w l =
     (Ret (mk_category 0 100 {["database_error" := msg]} [issue]),
      l ++ [EvDbConnect])) /\
  size ({["database_error" := msg]} : gmap string string) = 1%nat /\
  String.prefix "Database connection error: " issue = true /\
  str_in "error" (lower issue) = true /\
  is_critical issue = true /\
  (forall l rep l',
     run_assessment cfg w l = (Ret rep, l') ->
     (forall name c, In (name, c) (categories rep) ->
        name <> "database" -> score c = 100) ->
     (readiness_score rep == 75)%Q /\
     critical_issues rep = [issue] /\
     overall_status rep = READY_WITH_WARNINGS).
Proof.
  intros Hd Hc issue.
  destruct (connection_error_is_critical msg) as (Hin & Hcrit).
  split; [intros l; exact (database_outage_result cfg w l d msg Hd Hc)|].
  split; [apply map_size_singleton|].
  split; [apply prefix_app; reflexivity|].
  split; [exact Hin|]. split; [exact Hcrit|].
  intros l rep l' Hrun Hfull.
  apply run_assessment_inv in Hrun
    as (c1 & c2 & c3 & c4 & l1 & l2 & l3 & rs & E1 & E2 & E3 & E4 & Hrs & _ & Hrep).
  cbv zeta in Hrep.
  rewrite (database_outage_result cfg w l1 d msg Hd Hc) in E2.
  injection E2 as <- _.
  assert (Hcats : categories rep =
            run_categories c1 (mk_category 0 100 {["database_error" := msg]} [issue])
              c3 c4) by (rewrite Hrep; reflexivity).
  assert (S1 : score c1 = 100).
  { apply (Hfull "code_quality"); [rewrite Hcats; cbn; tauto | discriminate]. }
  assert (S3 : score c3 = 100).
  { apply (Hfull "api"); [rewrite Hcats; cbn; tauto | discriminate]. }
  assert (S4 : score c4 = 100).
  { apply (Hfull "system_resources"); [rewrite Hcats; cbn; tauto | discriminate]. }
  pose proof (with_results_full _ _ _ _ (code_quality_all_or_less w) E1 S1) as I1.
  pose proof (with_results_full _ _ _ _ (api_all_or_less cfg w) E3 S3) as I3.
  pose proof (with_results_full _ _ _ _ (system_all_or_less cfg w) E4 S4) as I4.
  apply with_results_bounds in E1 as (_ & M1); [|apply code_quality_gains].
  apply with_results_bounds in E3 as (_ & M3); [|apply api_gains].
  apply with_results_bounds in E4 as (_ & M4); [|apply system_gains].
  destruct c1 as [s1 m1 d1 i1], c3 as [s3 m3 d3 i3], c4 as [s4 m4 d4 i4].
  cbn [score max_score issues] in *. subst s1 s3 s4 m1 m3 m4 i1 i3 i4.
  rewrite Hrep. cbn [readiness_score critical_issues overall_status].
  rewrite (collect_issues_filter _ [] []).
  unfold all_issues, run_categories. cbn [map concat snd issues app fst List.filter].
  rewrite Hcrit.
  unfold compute_readiness_score, max_total_score, total_score in Hrs.
  cbn [map snd score max_score sum_Z fold_right run_categories] in Hrs.
  vm_compute in Hrs. injection Hrs as <-.
  split; [reflexivity|]. split; reflexivity.
Qed.

Lemma database_outage_is_one_critical_issue_witness :
  exists rep l',
    run_assessment (default_config "") db_down_world [] = (Ret rep, l') /\
    (readiness_score rep == 75)%Q /\
    critical_issues rep =
      ["Database connection error: 2003: Can't connect to MySQL server"] /\
    overall_status rep = READY_WITH_WARNINGS.
Proof.
  destruct (run_assessment (default_config "") db_down_world [])
    as [[rep|e] l'] eqn:E.
  - exists rep, l'. split; [reflexivity|].
    destruct (database_outage_is_one_critical_issue (default_config "")
                db_down_world
                [("host", JStr "localhost"); ("database", JStr "dcf_calculator");
                 ("user", JStr "dcf_user"); ("password", JStr "")]
                "2003: Can't connect to MySQL server" eq_refl eq_refl)
      as (_ & _ & _ & _ & _ & H).
    apply (H [] rep l' E).
    intros name c Hin Hname.
    assert (Hb : forallb (fun nc => String.eqb (fst nc) "database"
                                    || (score (snd nc) =? 100))
                   (categories rep) = true).
    { assert (Hr : rep = match fst (run_assessment (default_config "")
                                      db_down_world []) with
                         | Ret r => r
                         | Raise _ => rep
                         end) by (rewrite E; reflexivity).
      rewrite Hr. vm_compute. reflexivity. }
    rewrite forallb_forall in Hb. specialize (Hb _ Hin). cbn [fst snd] in Hb.
    apply orb_true_iff in Hb as [Hb|Hb].
    + apply String.eqb_eq in Hb. contradiction.
    + now apply Z.eqb_eq.
  - vm_compute in E. discriminate E.
Defined.

(** ** The concrete worlds are well behaved *)

Lemma healthy_get_returns base path : exists r, healthy_get base path = Ret r.
Proof. unfold healthy_get. destruct (String.eqb _ _); eexists; reflexivity. Qed.

Lemma healthy_http_handled (w : world) :
  http_get w = healthy_get ->
  http_post w = (fun _ _ => Ret (mk_response 200 "{}")) ->
  http_failures_handled w.
Proof.
  intros Hg Hp base path e. rewrite Hg, Hp. split; [|discriminate].
  destruct (healthy_get_returns base path) as [r ->]. discriminate.
Qed.

Lemma healthy_cleanup_ok (w : world) :
  db_is_connected w = Ret true -> db_cursor w = Ret tt ->
  db_cursor_close w = Ret tt -> db_connection_close w = Ret tt ->
  cleanup_ok w.
Proof. intros. right. tauto. Qed.

(** One exception ends the database [try] block: it is recorded once and
    nothing more is attempted. *)
Lemma database_try_ends_at_first_exception cfg w s e s1 :
  database_try_body cfg w s = (Raise e, s1) ->
  exists s2 k i,
    try_except (database_try_body cfg w) database_handlers s = (Ret tt, s2) /\
    log s2 = log s1 /\
    In k ["database_error"; "unexpected_error"] /\
    details (results s2) = <[k := str_exn e]> (details (results s1)) /\
    score (results s2) = score (results s1) /\
    issues (results s2) = issues (results s1) ++ [i].
Proof.
  intros H. unfold try_except. rewrite H.
  unfold database_handlers, or_except, except_class, except_Exception.
  destruct (is_class MySQLError e); exec;
    eexists _, _, _; (split; [reflexivity|]); proj;
    (split; [reflexivity|]); (split; [|split; [reflexivity|split; reflexivity]]);
    cbn [In]; tauto.
Qed.




(** ** The entry point *)

(** A console that encodes every line prints every list of lines. *)
Lemma print_all_console_ok w lines :
  console_ok w -> print_all w lines = Ret tt.
Proof.
  intros H. induction lines as [|line rest IH]; [reflexivity|].
  cbn [print_all]. unfold print. rewrite (H line).
  destruct (is_ascii line); exact IH.
Qed.

(** A console that refuses every line that is not ASCII stops at the first
    such line. *)
Lemma print_all_refused w e lines :
  (forall line, stdout_encode w line = Raise e) ->
  existsb (fun line => negb (is_ascii line)) lines = true ->
  print_all w lines = Raise e.
Proof.
  intros H. induction lines as [|line rest IH]; [discriminate|].
  cbn [existsb print_all]. unfold print. rewrite (H line).
  destruct (is_ascii line); cbn [negb orb]; [exact IH | reflexivity].
Qed.

Lemma opening_not_ascii (ratio : Q) :
  exists first rest,
    opening_of_ratio ratio = first :: rest /\ is_ascii ("  " +:+ first) = false.
Proof.
  destruct (opening_cases ratio) as [-> | [-> | ->]];
    eexists _, _; split; reflexivity.
Qed.

(** The summary of a completed run holds a line that is not ASCII. *)
Lemma summary_needs_encoding w e cfg l rep l' :
  run_assessment cfg w l = (Ret rep, l') ->
  (forall line, stdout_encode w line = Raise e) ->
  print_all w (print_summary rep) = Raise e.
Proof.
  intros Hrun Hcon. apply print_all_refused; [exact Hcon|].
  apply run_assessment_inv in Hrun
    as (c1 & c2 & c3 & c4 & l1 & l2 & l3 & rs & _ & _ & _ & _ & _ & Hrec & _).
  cbv zeta in Hrec. apply generate_recommendations_inv in Hrec as (_ & Hrec).
  destruct (opening_not_ascii
              (inject_Z (total_score (run_categories c1 c2 c3 c4))
               / inject_Z (max_total_score (run_categories c1 c2 c3 c4))))
    as (first & rest & Ho & Ha).
  rewrite Ho in Hrec. apply existsb_exists.
  exists ("  " +:+ first). split; [|now rewrite Ha].
  unfold print_summary. rewrite Hrec.
  apply in_or_app. right. apply in_or_app. right. apply in_or_app. right.
  apply in_or_app. right. right. left. reflexivity.
Qed.

Lemma load_config_raises w path e :
  path <> EmptyString -> path_exists w path = true ->
  read_json w path = Raise e ->
  load_config w (Some path) [] = (Raise e, [EvReadConfig path]).
Proof.
  intros Hp He Hr. unfold load_config.
  destruct (String.eqb_spec path EmptyString) as [?|_]; [contradiction|].
  rewrite He. cbn [negb andb]. unfold bind, log_call. rewrite Hr. reflexivity.
Qed.

Lemma run_categories_names rep cfg w l l' :
  run_assessment cfg w l = (Ret rep, l') ->
  map fst (categories rep) =
    ["code_quality"; "database"; "api"; "system_resources"] /\
  overall_status rep <> UNKNOWN.
Proof.
  intros H. apply run_assessment_inv in H
    as (c1 & c2 & c3 & c4 & l1 & l2 & l3 & rs & _ & _ & _ & _ & Hrs & _ & ->).
  cbn [categories overall_status]. split; [reflexivity|].
  apply determine_status_known.
Qed.




(** ** What a failure leaves behind *)

(** The financial-data request: answered with status 200 it feeds two
    checks, each an entry and 25 points or an issue; otherwise it is recorded
    once. *)
Lemma financial_outcome cfg w s s' :
  financial_probe cfg w s = (Ret tt, s') ->
  (exists v1 v2 new,
     details (results s') =
       <["decimal_format" := v2]> (<["serialization" := v1]> (details (results s))) /\
     issues (results s') = issues (results s) ++ new /\
     (length new <= 2)%nat /\
     score (results s') = score (results s) + 50 - 25 * Z.of_nat (length new)) \/
  (exists v i,
     details (results s') = <["financial_endpoint" := v]> (details (results s)) /\
     score (results s') = score (results s) /\
     issues (results s') = issues (results s) ++ [i]).
Proof.
  intros H. unfold financial_probe in H. exec_in H. split_in H;
    financial_leaf.
Qed.





(** * Further properties *)

(** ** The two lists of issues *)

Lemma filter_partition_perm {A} (f : A -> bool) (l : list A) :
  Permutation (List.filter f l ++ List.filter (fun x => negb (f x)) l) l.
Proof.
  induction l as [|x l IH]; [constructor|].
  cbn [List.filter]. destruct (f x); cbn [negb app].
  - now constructor.
  - rewrite <- Permutation_middle. now constructor.
Qed.

(** X1.  The critical issues of a completed run are the issues of its
    categories that match a keyword, in the order the categories produced
    them; the warnings are the others, in order; together the two lists hold
    every issue once for each time it was raised. *)
Theorem issues_split_in_order cfg w l rep l' :
  run_assessment cfg w l = (Ret rep, l') ->
  critical_issues rep = List.filter is_critical (all_issues (categories rep)) /\
  warnings rep =
    List.filter (fun i => negb (is_critical i)) (all_issues (categories rep)) /\
  Permutation (critical_issues rep ++ warnings rep)
    (all_issues (categories rep)) /\
  (length (critical_issues rep) + length (warnings rep)
   = length (all_issues (categories rep)))%nat.
Proof.
  intros H. apply run_assessment_inv in H
    as (c1 & c2 & c3 & c4 & l1 & l2 & l3 & rs & _ & _ & _ & _ & Hrs & _ & ->).
  cbn [categories critical_issues warnings].
  rewrite (collect_issues_filter _ [] []). cbn [fst snd app].
  split; [reflexivity|]. split; [reflexivity|].
  pose proof (filter_partition_perm is_critical
                (all_issues (run_categories c1 c2 c3 c4))) as P.
  split; [exact P|].
  apply Permutation_length in P. now rewrite length_app in P.
Qed.

Lemma issues_split_in_order_witness :
  exists rep l',
    run_assessment (default_config "") slow_and_big_world [] = (Ret rep, l') /\
    (length (critical_issues rep) + length (warnings rep)
     = length (all_issues (categories rep)))%nat.
Proof.
  destruct (run_assessment (default_config "") slow_and_big_world [])
    as [[rep|e] l'] eqn:E.
  - exists rep, l'. split; [reflexivity|].
    apply (issues_split_in_order _ _ _ _ _ E).
  - vm_compute in E. discriminate E.
Defined.

(** ** The status policy is monotone *)

(** X2.  A higher score or fewer critical issues never gives a worse tier:
    the exit code can only go down. *)
Theorem status_monotone (rs rs' : Q) (c c' : list string) :
  (rs <= rs')%Q -> (length c' <= length c)%nat ->
  exit_code (determine_status rs' c') <= exit_code (determine_status rs c).
Proof.
  intros Hrs Hc.
  destruct (determine_status_cases rs c) as (A1 & A2 & A3).
  destruct (determine_status_cases rs' c') as (B1 & B2 & B3).
  cbv zeta in *.
  assert (U9 : (90 <= rs -> 90 <= rs')%Q) by (intros; eapply Qle_trans; eauto).
  assert (U7 : (70 <= rs -> 70 <= rs')%Q) by (intros; eapply Qle_trans; eauto).
  pose proof (determine_status_known rs c) as K.
  pose proof (determine_status_known rs' c') as K'.
  destruct (determine_status rs c) eqn:E; try contradiction;
    destruct (determine_status rs' c') eqn:E'; try contradiction;
    cbn [exit_code]; try lia; exfalso.
  - destruct (proj1 A1 eq_refl). destruct (proj1 B2 eq_refl) as [N _].
    apply N. split; [auto | lia].
  - destruct (proj1 A1 eq_refl). destruct (proj1 B3 eq_refl) as [N _].
    apply N. split; [auto | lia].
  - destruct (proj1 A2 eq_refl) as [_ [? ?]].
    destruct (proj1 B3 eq_refl) as [_ N]. apply N. split; [auto | lia].
Qed.

Lemma status_monotone_witness :
  exit_code (determine_status 95 []) <= exit_code (determine_status 75 ["x error"]).
Proof.
  apply status_monotone; [discriminate | cbn; lia].
Defined.

(** ** Full score and no issue go together *)

Lemma strict_bind (p q : Z) (m k : M pstate unit) :
  strict p m -> strict q k -> 0 <= p -> 0 < q ->
  strict (p + q) (bind m (fun _ => k)).
Proof.
  intros Hm Hk Hp Hq s o s' H. unfold bind in H.
  destruct (m s) as [[[]|e] s1] eqn:E1.
  - destruct (Hm _ _ _ E1) as (n1 & I1 & C1).
    destruct (Hk _ _ _ H) as (n2 & I2 & C2).
    exists (n1 ++ n2). split; [now rewrite I2, I1, app_assoc|].
    destruct o.
    + destruct C1 as [[S1 ->]|[S1 N1]], C2 as [[S2 ->]|[S2 N2]].
      * left. split; [lia | reflexivity].
      * right. split; [lia | now destruct n2].
      * right. split; [lia | now destruct n1].
      * right. split; [lia | now destruct n1].
    + destruct C2 as [S2 S2']. specialize (S2' Hq).
      destruct C1 as [[S1 _]|[S1 _]]; split; intros; lia.
  - injection H as <- <-.
    destruct (Hm _ _ _ E1) as (n1 & I1 & S1 & _).
    exists n1. split; [exact I1|]. split; intros; lia.
Qed.

Section Strict.

Variable cfg : list (string * json).
Variable w : world.

Lemma backend_tests_strict : strict 30 (backend_tests_probe w).
Proof. prove_strict backend_tests_probe. Qed.

Lemma test_coverage_strict : strict 20 (test_coverage_probe w).
Proof. prove_strict test_coverage_probe. Qed.

Lemma static_analysis_strict : strict 25 (static_analysis_probe w).
Proof. prove_strict static_analysis_probe. Qed.

Lemma security_scan_strict : strict 25 (security_scan_probe w).
Proof. prove_strict security_scan_probe. Qed.

Lemma code_quality_strict : strict 100 (code_quality_body w).
Proof.
  unfold code_quality_body. change 100 with (30 + (20 + (25 + 25))).
  repeat (apply strict_bind; try lia);
    auto using backend_tests_strict, test_coverage_strict,
      static_analysis_strict, security_scan_strict.
Qed.

Lemma health_strict : strict 25 (health_probe cfg w).
Proof. prove_strict health_probe. Qed.

Lemma financial_strict : strict 50 (financial_probe cfg w).
Proof. prove_strict financial_probe. Qed.

Lemma dcf_strict : strict 25 (dcf_probe cfg w).
Proof. prove_strict dcf_probe. Qed.

Lemma api_strict : strict 100 (api_body cfg w).
Proof.
  unfold api_body. change 100 with (25 + (50 + 25)).
  repeat (apply strict_bind; try lia);
    auto using health_strict, financial_strict, dcf_strict.
Qed.

Lemma open_connection_strict : strict 0 (open_connection cfg w).
Proof. prove_strict open_connection. Qed.

Lemma connectivity_strict : strict 20 (connectivity_check w).
Proof. prove_strict connectivity_check. Qed.

Lemma table_structure_strict : strict 30 (table_structure_check cfg w).
Proof. prove_strict table_structure_check. Qed.

Lemma data_integrity_strict : strict 25 (data_integrity_check w).
Proof. prove_strict data_integrity_check. Qed.

Lemma query_performance_strict : strict 25 (query_performance_check cfg w).
Proof. prove_strict query_performance_check. Qed.

Lemma database_try_strict : strict 100 (database_try_body cfg w).
Proof.
  unfold database_try_body, database_checks.
  change 100 with (0 + (20 + (30 + (25 + 25)))).
  repeat (apply strict_bind; try lia);
    auto using open_connection_strict, connectivity_strict,
      table_structure_strict, data_integrity_strict, query_performance_strict.
Qed.

Lemma database_finally_keeps_results s o s' :
  database_finally w s = (o, s') -> results s' = results s.
Proof.
  unfold database_finally. intros H.
  destruct (is_bound "connection" s); destruct (is_bound "cursor" s);
    exec_in H; split_in H; injection H as <- <-; reflexivity.
Qed.

Lemma database_body_strict s s' :
  database_body cfg w s = (Ret tt, s') ->
  exists new,
    issues (results s') = issues (results s) ++ new /\
    ((score (results s') = score (results s) + 100 /\ new = []) \/
     (score (results s') < score (results s) + 100 /\ new <> [])).
Proof.
  intros H. unfold database_body, try_finally in H.
  destruct (try_except (database_try_body cfg w) database_handlers s)
    as [o1 s1] eqn:E1.
  assert (G : exists new,
            issues (results s1) = issues (results s) ++ new /\
            ((score (results s1) = score (results s) + 100 /\ new = []) \/
             (score (results s1) < score (results s) + 100 /\ new <> [])) /\
            o1 = Ret tt).
  { unfold try_except in E1.
    destruct (database_try_body cfg w s) as [[[]|e] s0] eqn:E0.
    - injection E1 as <- <-.
      destruct (database_try_strict _ _ _ E0) as (new & I & C).
      exists new. tauto.
    - destruct (database_try_strict _ _ _ E0) as (new & I & _ & C).
      specialize (C ltac:(lia)).
      unfold database_handlers, or_except, except_class, except_Exception in E1.
      destruct (is_class MySQLError e); exec_in E1; injection E1 as <- <-; proj;
        (eexists; split; [rewrite I, <- app_assoc; reflexivity|]);
        (split; [right; split; [lia | now destruct new]|reflexivity]). }
  destruct G as (new & I & C & ->).
  destruct (database_finally w s1) as [[[]|e2] s2] eqn:E2; [|discriminate].
  injection H as <-.
  rewrite (database_finally_keeps_results _ _ _ E2).
  exists new. tauto.
Qed.

End Strict.

Lemma with_results_strict (body : M pstate unit) l l' c :
  (forall s s', body s = (Ret tt, s') ->
     exists new,
       issues (results s') = issues (results s) ++ new /\
       ((score (results s') = score (results s) + 100 /\ new = []) \/
        (score (results s') < score (results s) + 100 /\ new <> []))) ->
  with_results body l = (Ret c, l') ->
  (score c = 100 <-> issues c = []).
Proof.
  intros Hb H. unfold with_results in H.
  destruct (body (mk_pstate init_results [] l)) as [[[]|e] s] eqn:E; [|discriminate].
  injection H as <- <-.
  destruct (Hb _ _ E) as (new & I & C). cbn in I, C. rewrite I.
  destruct C as [[? ->]|[? ?]]; split; intros; (reflexivity || lia || contradiction).
Qed.

Lemma strict_returned (body : M pstate unit) :
  strict 100 body ->
  forall s s', body s = (Ret tt, s') ->
    exists new,
      issues (results s') = issues (results s) ++ new /\
      ((score (results s') = score (results s) + 100 /\ new = []) \/
       (score (results s') < score (results s) + 100 /\ new <> [])).
Proof. intros Hb s s' E. exact (Hb _ _ _ E). Qed.

(** X3.  A Code Quality, Database or API category that is returned has the
    score 100 exactly when it has no issue: every point that is not earned
    comes with an issue.  System Resources is different: its disk and load
    probes can lose their points silently. *)
Theorem full_score_iff_no_issue cfg w l :
  (forall c l', assess_code_quality w l = (Ret c, l') ->
     (score c = 100 <-> issues c = [])) /\
  (forall c l', assess_database_readiness cfg w l = (Ret c, l') ->
     (score c = 100 <-> issues c = [])) /\
  (forall c l', assess_api_readiness cfg w l = (Ret c, l') ->
     (score c = 100 <-> issues c = [])) /\
  (exists c l',
     assess_system_resources (default_config "") no_uptime_world [] = (Ret c, l') /\
     issues c = [] /\ score c = 40).
Proof.
  split; [intros c l' H;
          exact (with_results_strict _ _ _ _
                   (strict_returned _ (code_quality_strict w)) H)|].
  split; [intros c l' H;
          exact (with_results_strict _ _ _ _ (database_body_strict cfg w) H)|].
  split; [intros c l' H;
          exact (with_results_strict _ _ _ _
                   (strict_returned _ (api_strict cfg w)) H)|].
  eexists _, _. split; [vm_compute; reflexivity|]. split; reflexivity.
Qed.

Lemma full_score_iff_no_issue_witness :
  exists c l',
    assess_database_readiness (default_config "") schema_denied_world []
      = (Ret c, l') /\
    (score c = 100 <-> issues c = []).
Proof.
  destruct (assess_database_readiness (default_config "") schema_denied_world [])
    as [[c|e] l'] eqn:E.
  - exists c, l'. split; [reflexivity|].
    destruct (full_score_iff_no_issue (default_config "") schema_denied_world [])
      as (_ & H & _).
    exact (H c l' E).
  - vm_compute in E. discriminate E.
Defined.

(** ** The steps after the assessors *)



(** ** The entries of Code Quality *)

Lemma outcome_dom keys p (m : M pstate unit) s s' :
  probe_outcome keys p m -> m s = (Ret tt, s') ->
  exists k, In k keys /\
    dom (details (results s')) = {[k]} ∪ dom (details (results s)).
Proof.
  intros Ho E. destruct (Ho s s' E) as (k & v & Hk & D & _).
  exists k. split; [exact Hk|]. rewrite D. apply dom_insert_L.
Qed.

(** X5.  The details of the Code Quality category always have the same four
    keys, one per probe, whatever the four commands did. *)
Theorem code_quality_details_keys w l :
  exists c l',
    assess_code_quality w l = (Ret c, l') /\
    dom (details c) =
      ({["backend_tests"; "test_coverage"; "static_analysis"; "security_scan"]}
       : gset string) /\
    size (details c) = 4%nat.
Proof.
  destruct (code_quality_returns w l) as (c & E).
  exists c, (l ++ code_quality_events).
  split; [exact E|].
  unfold assess_code_quality, with_results, code_quality_body, bind in E.
  set (s0 := mk_pstate init_results [] l) in E.
  destruct (backend_tests_probe w s0) as [[[]|e1] s1] eqn:E1; [|discriminate].
  destruct (test_coverage_probe w s1) as [[[]|e2] s2] eqn:E2; [|discriminate].
  destruct (static_analysis_probe w s2) as [[[]|e3] s3] eqn:E3; [|discriminate].
  destruct (security_scan_probe w s3) as [[[]|e4] s4] eqn:E4; [|discriminate].
  injection E as <-.
  destruct (outcome_dom _ _ _ _ _ (backend_tests_outcome w) E1) as (k1 & K1 & D1).
  destruct (outcome_dom _ _ _ _ _ (test_coverage_outcome w) E2) as (k2 & K2 & D2).
  destruct (outcome_dom _ _ _ _ _ (static_analysis_outcome w) E3) as (k3 & K3 & D3).
  destruct (outcome_dom _ _ _ _ _ (security_scan_outcome w) E4) as (k4 & K4 & D4).
  cbn [In] in K1, K2, K3, K4.
  destruct K1 as [<-|[]], K2 as [<-|[]], K3 as [<-|[]], K4 as [<-|[]].
  assert (D : dom (details (results s4)) =
              ({["backend_tests"; "test_coverage"; "static_analysis";
                 "security_scan"]} : gset string)).
  { rewrite D4, D3, D2, D1. unfold s0, init_results. cbn [results details].
    rewrite dom_empty_L. set_solver. }
  split; [exact D|].
  rewrite <- size_dom, D. reflexivity.
Qed.

(** ** The severity of a caught exception *)

Lemma critical_prefix (p msg : string) :
  is_critical p = true -> is_critical (p +:+ msg) = true.
Proof.
  intros H. apply is_critical_iff in H as (kw & Hkw & Hin).
  apply is_critical_iff. exists kw. split; [exact Hkw|].
  rewrite lower_app. now apply str_in_app_l.
Qed.

Ltac raised_leaf :=
  eexists; split; [reflexivity|];
  first [ apply critical_prefix; reflexivity | reflexivity ].



(** ** Thresholds are strict upper bounds *)

(** X7.  The disk probe earns its 30 points exactly when [df] exits with
    status 0, prints a second line with at least five fields, and the fifth,
    without its trailing percent signs, reads as an integer below 90.  At 90
    and above it records "Low disk space". *)
Theorem disk_probe_threshold w s cp line available field used :
  subprocess_run w ["df"; "-h"; "."] = Ret cp ->
  returncode cp = 0 ->
  nth_error (split_on newline (strip (stdout cp))) 1 = Some line ->
  nth_error (split_ws line) 3 = Some available ->
  nth_error (split_ws line) 4 = Some field ->
  py_int (rstrip_char "%" field) = Ret used ->
  let s' := snd (disk_probe w s) in
  (used < 90 ->
   score (results s') = score (results s) + 30 /\
   issues (results s') = issues (results s) /\
   details (results s') =
     <["disk_space" := available +:+ " available ("
                       +:+ rstrip_char "%" field +:+ "% used)"]>
       (details (results s))) /\
  (90 <= used ->
   score (results s') = score (results s) /\
   issues (results s') =
     issues (results s)
     ++ ["Low disk space: " +:+ rstrip_char "%" field +:+ "% used"]).
Proof.
  intros Hrun Hrc Hline Hav Hf Hint s'. subst s'.
  assert (Hlen : (1 <? length (split_on newline (strip (stdout cp))))%nat = true).
  { apply Nat.ltb_lt. apply nth_error_Some. congruence. }
  unfold disk_probe. exec. rewrite Hrun. proj. rewrite Hrc. cbn [Z.eqb].
  rewrite Hlen. unfold list_item. rewrite Hline. proj.
  rewrite Hav, Hf. proj. rewrite Hint. proj.
  split; intros H.
  - destruct (Z.ltb_spec used 90); [|lia]. proj. repeat split.
  - destruct (Z.ltb_spec used 90); [lia|]. proj. repeat split.
Qed.

Lemma disk_probe_threshold_witness :
  let s := mk_pstate init_results [] [] in
  let s' := snd (disk_probe healthy_world s) in
  score (results s') = score (results s) + 30 /\
  issues (results s') = issues (results s) /\
  details (results s') =
    <["disk_space" := "60G available (40% used)"]> (details (results s)).
Proof.
  apply (disk_probe_threshold healthy_world (mk_pstate init_results [] [])
           (mk_completed 0
              ("Filesystem Size Used Avail Use% Mounted on" +:+ nl
               +:+ "/dev/sda1 100G 40G 60G 40% /" +:+ nl))
           "/dev/sda1 100G 40G 60G 40% /" "60G" "40%" 40);
    try reflexivity.
Defined.

(** X8.  With a Java process found, a resident size that reads as an integer
    number of kilobytes and an integer threshold, the memory probe compares
    the size in whole megabytes (rounded down) with the threshold: strictly
    below, it earns 40 points; at the threshold or above, it records "High
    memory usage". *)
Theorem memory_probe_threshold cfg w s jp mi kb limit :
  subprocess_run w ["pgrep"; "-f"; "dcf-calculator"] = Ret jp ->
  strip (stdout jp) <> EmptyString ->
  subprocess_run w
    ["ps"; "-p"; hd EmptyString (split_on newline (strip (stdout jp)));
     "-o"; "rss="] = Ret mi ->
  strip (stdout mi) <> EmptyString ->
  py_int (strip (stdout mi)) = Ret kb ->
  config_item cfg "thresholds" "memory_usage_mb" = Ret (JInt limit) ->
  let s' := snd (memory_probe cfg w s) in
  let memory_mb := kb / 1024 in
  (1024 * memory_mb <= kb < 1024 * memory_mb + 1024) /\
  (memory_mb < limit ->
   score (results s') = score (results s) + 40 /\
   issues (results s') = issues (results s) /\
   details (results s') =
     <["memory_usage" := str_Z memory_mb +:+ "MB"]> (details (results s))) /\
  (limit <= memory_mb ->
   score (results s') = score (results s) /\
   issues (results s') =
     issues (results s) ++ ["High memory usage: " +:+ str_Z memory_mb +:+ "MB"]).
Proof.
  intros Hjp Hne1 Hmi Hne2 Hint Hthr s' memory_mb. subst s'.
  split.
  { unfold memory_mb. pose proof (Z.div_mod kb 1024 ltac:(lia)).
    pose proof (Z.mod_pos_bound kb 1024 ltac:(lia)). lia. }
  unfold memory_probe. exec. rewrite Hjp. proj.
  destruct (String.eqb_spec (strip (stdout jp)) EmptyString) as [?|_];
    [contradiction|]. cbn [negb].
  rewrite Hmi. proj.
  destruct (String.eqb_spec (strip (stdout mi)) EmptyString) as [?|_];
    [contradiction|]. cbn [negb].
  rewrite Hint. proj. rewrite Hthr. proj.
  unfold py_lt, Qlt_bool. fold memory_mb.
  destruct (Qle_bool (inject_Z limit) (inject_Z memory_mb)) eqn:E; cbn [negb]; proj.
  - apply Qle_bool_iff in E. rewrite <- Zle_Qle in E.
    split; intros; [lia | repeat split].
  - assert (~ limit <= memory_mb).
    { intros H. rewrite Zle_Qle in H. apply Qle_bool_iff in H. congruence. }
    split; intros; [repeat split | lia].
Qed.

Lemma memory_probe_threshold_witness :
  let s := mk_pstate init_results [] [] in
  let s' := snd (memory_probe (default_config "") slow_and_big_world s) in
  score (results s') = score (results s) /\
  issues (results s') = issues (results s) ++ ["High memory usage: 3072MB"].
Proof.
  destruct (memory_probe_threshold (default_config "") slow_and_big_world
              (mk_pstate init_results [] [])
              (mk_completed 0 ("4242" +:+ nl))
              (mk_completed 0 ("3145728" +:+ nl)) 3145728 2048)
    as (_ & _ & H); try reflexivity; try discriminate.
  apply H. reflexivity || (vm_compute; discriminate).
Defined.


(** ** A threshold that cannot be read *)

Lemma py_lt_value t x v :
  is_number v = true -> py_lt t x v = Ret (Qlt_bool x (number_value v)).
Proof. destruct v; try discriminate; intros _; reflexivity. Qed.

Lemma py_lt_type_error t x v :
  is_number v = false ->
  exists msg, py_lt t x v = Raise (mk_exn TypeError msg).
Proof. destruct v; try discriminate; intros _; eexists; reflexivity. Qed.

(** X9.  The calculation probe reads its threshold only when the endpoint
    answers 200.  With a numeric threshold -- an integer like the default
    2000, a float or a boolean -- it earns 25 points exactly when the
    measured time is strictly below it; with a threshold that is not a number
    the comparison raises TypeError, which the probe does not catch; any other
    status is the critical issue "DCF calculation failed", whatever the
    configuration holds. *)
Theorem dcf_probe_threshold cfg w s base r :
  dict_get "api_base_url" cfg = Some base ->
  http_post w base "/api/dcf/calculate" = Ret r ->
  let s' := snd (dcf_probe cfg w s) in
  let ms := elapsed_ms w (EvHttpPost "/api/dcf/calculate") in
  (status_code r <> 200 ->
   dcf_probe cfg w s = (Ret tt, s') /\
   score (results s') = score (results s) /\
   issues (results s') =
     issues (results s)
     ++ ["DCF calculation failed: " +:+ str_Z (status_code r)] /\
   is_critical ("DCF calculation failed: " +:+ str_Z (status_code r)) = true) /\
  (forall v : json,
     status_code r = 200 ->
     config_item cfg "thresholds" "response_time_ms" = Ret v ->
     is_number v = true ->
     dcf_probe cfg w s = (Ret tt, s') /\
     ((ms < number_value v)%Q ->
      score (results s') = score (results s) + 25 /\
      issues (results s') = issues (results s)) /\
     ((number_value v <= ms)%Q ->
      score (results s') = score (results s) /\
      issues (results s') =
        issues (results s)
        ++ ["DCF calculation too slow: " +:+ format_2f ms +:+ "ms"])) /\
  (forall v : json,
     status_code r = 200 ->
     config_item cfg "thresholds" "response_time_ms" = Ret v ->
     is_number v = false ->
     exists msg, fst (dcf_probe cfg w s) = Raise (mk_exn TypeError msg)).
Proof.
  intros Hb Hr s' ms. subst s'. split; [|split].
  - intros Hst.
    assert (E : exists st, dcf_probe cfg w s = (Ret tt, st) /\
              score (results st) = score (results s) /\
              issues (results st) =
                issues (results s)
                ++ ["DCF calculation failed: " +:+ str_Z (status_code r)]).
    { unfold dcf_probe. exec. unfold subscript at 1.
      rewrite Hb, Hr. proj.
      destruct (Z.eqb_spec (status_code r) 200) as [?|_]; [contradiction|].
      proj. eexists. repeat split. }
    destruct E as (st & -> & S & I). cbn [snd].
    repeat split; try assumption. apply critical_prefix. reflexivity.
  - intros v Hst Hthr Hnum.
    remember (dcf_probe cfg w s) as p eqn:Ep.
    unfold dcf_probe in Ep. exec_in Ep. unfold subscript at 1 in Ep.
    rewrite Hb, Hr in Ep. proj. rewrite Hst in Ep. cbn [Z.eqb Pos.eqb] in Ep.
    rewrite Hthr in Ep. proj.
    rewrite (py_lt_value _ _ _ Hnum) in Ep. unfold Qlt_bool in Ep.
    fold ms in Ep.
    destruct (Qle_bool (number_value v) ms) eqn:E; cbn [negb] in Ep; proj;
      subst p; proj; (split; [reflexivity|]).
    + apply Qle_bool_iff in E. split; intros H.
      * exfalso. apply Qlt_not_le in H. contradiction.
      * split; reflexivity.
    + split; intros H.
      * split; reflexivity.
      * apply Qle_bool_iff in H. congruence.
  - intros v Hst Hthr Hnum.
    destruct (py_lt_type_error "float" ms v Hnum) as (msg & Hlt).
    exists msg. unfold dcf_probe. exec. unfold subscript at 1.
    rewrite Hb, Hr. proj. rewrite Hst. cbn [Z.eqb Pos.eqb].
    rewrite Hthr. proj. fold ms. rewrite Hlt. proj. reflexivity.
Qed.

Lemma dcf_probe_threshold_witness :
  let s := mk_pstate init_results [] [] in
  let s' := snd (dcf_probe (default_config "") healthy_world s) in
  score (results s') = score (results s) + 25 /\
  issues (results s') = issues (results s).
Proof.
  destruct (dcf_probe_threshold (default_config "") healthy_world
              (mk_pstate init_results [] [])
              (JStr "http://localhost:8080") (mk_response 200 "{}")
              eq_refl eq_refl) as (_ & H & _).
  destruct (H (JInt 2000) eq_refl eq_refl eq_refl) as (_ & H1 & _).
  apply H1. reflexivity.
Defined.

(** X10.  A threshold that cannot be read from the configuration is handled
    differently by the three probes that read one.  The memory probe and the
    database block catch the exception and record a critical issue.  The
    calculation probe catches request errors only: when the endpoint answers
    200 the exception leaves the API assessor, the run, and the process. *)
Theorem unreadable_threshold cfg w e :
  (forall s jp mi kb,
     config_item cfg "thresholds" "memory_usage_mb" = Raise e ->
     subprocess_run w ["pgrep"; "-f"; "dcf-calculator"] = Ret jp ->
     strip (stdout jp) <> EmptyString ->
     subprocess_run w
       ["ps"; "-p"; hd EmptyString (split_on newline (strip (stdout jp)));
        "-o"; "rss="] = Ret mi ->
     strip (stdout mi) <> EmptyString ->
     py_int (strip (stdout mi)) = Ret kb ->
     exists s',
       memory_probe cfg w s = (Ret tt, s') /\
       score (results s') = score (results s) /\
       issues (results s') =
         issues (results s) ++ ["Resource check error: " +:+ str_exn e] /\
       is_critical ("Resource check error: " +:+ str_exn e) = true) /\
  (forall s,
     config_item cfg "thresholds" "query_time_ms" = Raise e ->
     db_execute w JoinCount = Ret tt ->
     exists s1 s2 i,
       query_performance_check cfg w s = (Raise e, s1) /\
       results s1 = results s /\
       try_except (query_performance_check cfg w) database_handlers s
         = (Ret tt, s2) /\
       score (results s2) = score (results s) /\
       issues (results s2) = issues (results s) ++ [i] /\
       is_critical i = true) /\
  (forall base r l,
     config_item cfg "thresholds" "response_time_ms" = Raise e ->
     dict_get "api_base_url" cfg = Some base ->
     http_failures_handled w ->
     http_post w base "/api/dcf/calculate" = Ret r ->
     status_code r = 200 ->
     exists l', assess_api_readiness cfg w l = (Raise e, l')) /\
  (forall base r l,
     config_item cfg "thresholds" "response_time_ms" = Raise e ->
     dict_get "api_base_url" cfg = Some base ->
     http_failures_handled w ->
     http_post w base "/api/dcf/calculate" = Ret r ->
     status_code r = 200 ->
     cleanup_ok w ->
     exists l', run_assessment cfg w l = (Raise e, l')).
Proof.
  split; [|split; [|split]].
  - intros s jp mi kb Hthr Hjp Hne1 Hmi Hne2 Hint.
    unfold memory_probe. exec. rewrite Hjp. proj.
    destruct (String.eqb_spec (strip (stdout jp)) EmptyString) as [?|_];
      [contradiction|]. cbn [negb].
    rewrite Hmi. proj.
    destruct (String.eqb_spec (strip (stdout mi)) EmptyString) as [?|_];
      [contradiction|]. cbn [negb].
    rewrite Hint. proj. rewrite Hthr. proj.
    eexists. repeat split. apply critical_prefix. reflexivity.
  - intros s Hthr Hex.
    unfold try_except, query_performance_check. exec. rewrite Hex. proj.
    rewrite Hthr. proj.
    unfold database_handlers, or_except, except_class, except_Exception.
    destruct (is_class MySQLError e); exec;
      eexists _, _, _; repeat split; apply critical_prefix; reflexivity.
  - intros base r l Hthr Hb Hhttp Hr Hst.
    now apply api_threshold_escapes with (base := base) (r := r).
  - intros base r l Hthr Hb Hhttp Hr Hst Hdb.
    now apply run_threshold_escapes with (base := base) (r := r).
Qed.

Lemma unreadable_threshold_witness :
  exists l',
    run_assessment
      [("api_base_url", JStr "http://localhost:8080");
       ("thresholds", JDict [("query_time_ms", JInt 500)])]
      healthy_world []
    = (Raise (mk_exn KeyError "'response_time_ms'"), l').
Proof.
  destruct (unreadable_threshold
              [("api_base_url", JStr "http://localhost:8080");
               ("thresholds", JDict [("query_time_ms", JInt 500)])]
              healthy_world (mk_exn KeyError "'response_time_ms'"))
    as (_ & _ & _ & H).
  apply (H (JStr "http://localhost:8080") (mk_response 200 "{}") []).
  - reflexivity.
  - reflexivity.
  - apply healthy_http_handled; reflexivity.
  - reflexivity.
  - reflexivity.
  - apply healthy_cleanup_ok; reflexivity.
Defined.

(** ** Releasing the database connection *)

Lemma database_checks_queries cfg w :
  graded (emits_only is_query) 0 (database_checks cfg w).
Proof.
  unfold database_checks, connectivity_check, table_structure_check,
    data_integrity_check, query_performance_check.
  emits_go is_query.
Qed.

Lemma database_handlers_silent e h s :
  database_handlers e = Some h -> log (snd (h s)) = log s.
Proof.
  unfold database_handlers, or_except, except_class, except_Exception.
  destruct (is_class MySQLError e); intros [= <-]; reflexivity.
Qed.

(** The guarded block once the connection is open: the cursor is asked for,
    then only queries are made. *)
Lemma database_guarded_trace cfg w l d :
  dict_get "database" cfg = Some (JDict d) ->
  db_connect w d = Ret tt ->
  exists s1 queries,
    try_except (database_try_body cfg w) database_handlers
      (mk_pstate init_results [] l) = (Ret tt, s1) /\
    log s1 = l ++ [EvDbConnect; EvDbCursor] ++ queries /\
    forallb is_query queries = true /\
    ((db_cursor w = Ret tt /\ locals s1 = ["cursor"; "connection"]) \/
     ((exists e, db_cursor w = Raise e) /\ locals s1 = ["connection"] /\
      queries = [])).
Proof.
  intros Hd Hc.
  destruct (database_guarded_total cfg w (mk_pstate init_results [] l))
    as ([] & s1 & E).
  exists s1. rewrite E.
  unfold try_except, database_try_body, bind in E.
  assert (Ho : open_connection cfg w (mk_pstate init_results [] l) =
               match db_cursor w with
               | Ret _ => (Ret tt, mk_pstate init_results ["cursor"; "connection"]
                                    (l ++ [EvDbConnect; EvDbCursor]))
               | Raise e => (Raise e, mk_pstate init_results ["connection"]
                                      (l ++ [EvDbConnect; EvDbCursor]))
               end).
  { unfold open_connection. exec. unfold subscript, as_mapping.
    rewrite Hd. proj. rewrite Hc. proj. rewrite <- !app_assoc. cbn [app].
    destruct (db_cursor w) as [[]|e]; reflexivity. }
  rewrite Ho in E. clear Ho.
  destruct (db_cursor w) as [[]|e] eqn:Hcur.
  - pose proof (database_checks_locals cfg w
                  (mk_pstate init_results ["cursor"; "connection"]
                     (l ++ [EvDbConnect; EvDbCursor]))) as Hk.
    destruct (database_checks_queries cfg w
                (mk_pstate init_results ["cursor"; "connection"]
                   (l ++ [EvDbConnect; EvDbCursor]))) as (q & Hq & Fq).
    unfold keeps_locals in Hk.
    destruct (database_checks cfg w _) as [[[]|e] sb]; cbn [snd] in Hk, Hq;
      proj.
    + injection E as <-. exists q. split; [reflexivity|].
      split; [now rewrite Hq, <- app_assoc|]. split; [exact Fq|]. left. tauto.
    + destruct (database_handlers e) as [h|] eqn:Eh; [|discriminate].
      pose proof (database_handlers_locals e h Eh sb) as Hh.
      pose proof (database_handlers_silent e h sb Eh) as Hs.
      unfold keeps_locals in Hh. rewrite E in Hh, Hs. cbn [snd] in Hh, Hs.
      exists q. split; [reflexivity|].
      split; [now rewrite Hs, Hq, <- app_assoc|]. split; [exact Fq|].
      left. split; [reflexivity | congruence].
  - destruct (database_handlers e) as [h|] eqn:Eh; [|discriminate].
    pose proof (database_handlers_locals e h Eh
                  (mk_pstate init_results ["connection"]
                     (l ++ [EvDbConnect; EvDbCursor]))) as Hh.
    pose proof (database_handlers_silent e h
                  (mk_pstate init_results ["connection"]
                     (l ++ [EvDbConnect; EvDbCursor])) Eh) as Hs.
    unfold keeps_locals in Hh. rewrite E in Hh, Hs. cbn [snd] in Hh, Hs.
    proj. exists []. split; [reflexivity|].
    split; [now rewrite Hs, app_nil_r|]. split; [reflexivity|].
    right. split; [now exists e|]. split; [exact Hh | reflexivity].
Qed.

(** X11.  When the Database assessor returns after its connection was
    opened, its calls were, in this order: the connection, the cursor,
    queries only, one [is_connected], and -- when the answer was yes -- the
    closing of the cursor and then of the connection, both of which returned.
    Nothing is closed before the last query, and nothing follows the
    closing. *)
Theorem connection_released_on_return cfg w l d c l' :
  dict_get "database" cfg = Some (JDict d) ->
  db_connect w d = Ret tt ->
  assess_database_readiness cfg w l = (Ret c, l') ->
  exists connected queries,
    db_is_connected w = Ret connected /\
    forallb is_query queries = true /\
    l' = l ++ [EvDbConnect; EvDbCursor] ++ queries
           ++ EvDbIsConnected
              :: (if connected : bool
                  then [EvDbCursorClose; EvDbConnectionClose] else []) /\
    (connected = true ->
     db_cursor w = Ret tt /\ db_cursor_close w = Ret tt /\
     db_connection_close w = Ret tt).
Proof.
  intros Hd Hc H.
  destruct (database_guarded_trace cfg w l d Hd Hc)
    as (s1 & q & E & Hl & Fq & Hloc).
  unfold assess_database_readiness, with_results, database_body, try_finally
    in H.
  rewrite E in H. unfold database_finally, is_bound in H.
  destruct Hloc as [(Hcur & Hb) | ((e & Hcur) & Hb & ->)]; rewrite Hb in H;
    cbn [existsb String.eqb Ascii.eqb Bool.eqb orb andb] in H;
    exec_in H; destruct (db_is_connected w) as [[|]|e1]; proj;
    try discriminate H.
  - destruct (db_cursor_close w) as [[]|e2]; proj; [|discriminate H].
    destruct (db_connection_close w) as [[]|e3]; proj; [|discriminate H].
    injection H as <- <-. exists true, q. split; [reflexivity|].
    split; [exact Fq|]. split; [|tauto].
    rewrite Hl, <- !app_assoc. reflexivity.
  - injection H as <- <-. exists false, q. split; [reflexivity|].
    split; [exact Fq|]. split; [|discriminate].
    rewrite Hl, <- !app_assoc. reflexivity.
  - injection H as <- <-. exists false, []. split; [reflexivity|].
    split; [reflexivity|]. split; [|discriminate].
    rewrite Hl, <- !app_assoc. reflexivity.
Qed.

Lemma connection_released_on_return_witness :
  exists c l',
    assess_database_readiness (default_config "") healthy_world [] = (Ret c, l') /\
    exists queries,
      forallb is_query queries = true /\
      l' = [EvDbConnect; EvDbCursor] ++ queries
           ++ [EvDbIsConnected; EvDbCursorClose; EvDbConnectionClose].
Proof.
  destruct (assess_database_readiness (default_config "") healthy_world [])
    as [[c|e] l'] eqn:E; [|vm_compute in E; discriminate E].
  exists c, l'. split; [reflexivity|].
  destruct (connection_released_on_return (default_config "") healthy_world []
              [("host", JStr "localhost"); ("database", JStr "dcf_calculator");
               ("user", JStr "dcf_user"); ("password", JStr "")]
              c l' eq_refl eq_refl E)
    as (connected & q & Hi & Fq & Hl & _).
  exists q. split; [exact Fq|].
  injection Hi as <-. exact Hl.
Defined.

(** X12.  When the connection opens and [connection.cursor()] raises, the
    exception is caught and recorded, but the [finally] block then names the
    cursor that was never bound: with the connection still open the assessor
    ends with UnboundLocalError instead of returning its results, the
    connection is not closed, and the run ends with that exception before the
    API and System Resources assessors are reached. *)
Theorem cursor_failure_leaks_connection cfg w l d e :
  dict_get "database" cfg = Some (JDict d) ->
  db_connect w d = Ret tt ->
  db_cursor w = Raise e ->
  db_is_connected w = Ret true ->
  assess_database_readiness cfg w l =
    (Raise unbound_cursor, l ++ [EvDbConnect; EvDbCursor; EvDbIsConnected]) /\
  run_assessment cfg w l =
    (Raise unbound_cursor,
     l ++ code_quality_events ++ [EvDbConnect; EvDbCursor; EvDbIsConnected]).
Proof.
  intros Hd Hc Hcur Hconn.
  assert (H : forall l0, assess_database_readiness cfg w l0 =
    (Raise unbound_cursor, l0 ++ [EvDbConnect; EvDbCursor; EvDbIsConnected])).
  { intros l0.
    destruct (database_guarded_trace cfg w l0 d Hd Hc)
      as (s1 & q & E & Hl & Fq & Hloc).
    unfold assess_database_readiness, with_results, database_body, try_finally.
    rewrite E. unfold database_finally, is_bound.
    destruct Hloc as [(Hcur' & _) | (_ & Hb & ->)]; [congruence|].
    rewrite Hb. cbn [existsb String.eqb Ascii.eqb Bool.eqb orb andb].
    exec. rewrite Hconn. proj. rewrite Hl, <- !app_assoc. reflexivity. }
  split; [apply H|].
  destruct (code_quality_returns w l) as (c1 & E1).
  unfold run_assessment, bind. rewrite E1, H, <- app_assoc. reflexivity.
Qed.

Lemma cursor_failure_leaks_connection_witness :
  let w := set_db_cursor (Raise (mk_exn MySQLError "Lost connection"))
             healthy_world in
  run_assessment (default_config "") w [] =
    (Raise unbound_cursor,
     code_quality_events ++ [EvDbConnect; EvDbCursor; EvDbIsConnected]).
Proof.
  intros w.
  apply (cursor_failure_leaks_connection (default_config "") w []
           [("host", JStr "localhost"); ("database", JStr "dcf_calculator");
            ("user", JStr "dcf_user"); ("password", JStr "")]
           (mk_exn MySQLError "Lost connection")); reflexivity.
Defined.

(** ** Configuration overrides *)

Lemma dict_get_set (k k' : string) (v : json) (d : list (string * json)) :
  dict_get k (dict_set k' v d) =
  if String.eqb k k' then Some v else dict_get k d.
Proof.
  induction d as [|[k0 v0] d IH]; cbn [dict_set dict_get].
  - destruct (String.eqb k k'); reflexivity.
  - destruct (String.eqb_spec k' k0) as [->|Hne]; cbn [dict_get].
    + destruct (String.eqb k k0); reflexivity.
    + rewrite IH. destruct (String.eqb_spec k k0) as [->|_]; [|reflexivity].
      destruct (String.eqb_spec k0 k') as [<-|_]; [contradiction|reflexivity].
Qed.

Lemma dict_get_absent (k : string) (d : list (string * json)) :
  ~ In k (map fst d) -> dict_get k d = None.
Proof.
  induction d as [|[k0 v0] d IH]; [reflexivity|]. cbn [map fst In dict_get].
  intros H. destruct (String.eqb_spec k k0) as [->|_]; [tauto|].
  apply IH. tauto.
Qed.

(** [d.update(u)] for a dictionary [u]: a key of [u] has the value of [u],
    any other key keeps its value. *)
Lemma dict_get_update (k : string) (u d : list (string * json)) :
  List.NoDup (map fst u) ->
  dict_get k (fold_left (fun acc kv => dict_set (fst kv) (snd kv) acc) u d) =
  match dict_get k u with
  | Some v => Some v
  | None => dict_get k d
  end.
Proof.
  revert d; induction u as [|[k1 v1] u IH]; intros d Hnd; [reflexivity|].
  cbn [map fst] in Hnd. apply List.NoDup_cons_iff in Hnd as [Hn Hnd].
  cbn [fold_left fst snd dict_get]. rewrite (IH _ Hnd), dict_get_set.
  destruct (String.eqb_spec k k1) as [->|_]; [|reflexivity].
  now rewrite (dict_get_absent _ _ Hn).
Qed.

Lemma load_config_object w path u l :
  path <> EmptyString -> path_exists w path = true ->
  read_json w path = Ret (JDict u) -> List.NoDup (map fst u) ->
  exists cfg,
    load_config w (Some path) l = (Ret cfg, l ++ [EvReadConfig path]) /\
    (forall k,
       dict_get k cfg =
       match dict_get k u with
       | Some v => Some v
       | None => dict_get k (default_config (env_db_password w))
       end).
Proof.
  intros Hp He Hr Hnd. unfold load_config.
  destruct (String.eqb_spec path EmptyString) as [?|_]; [contradiction|].
  rewrite He. cbn [negb andb]. unfold bind, log_call, lift. rewrite Hr.
  cbn [dict_update]. eexists. split; [reflexivity|].
  intros k. now apply dict_get_update.
Qed.

(** X13.  A configuration file that holds a JSON object is merged into the
    defaults one level deep: a top-level key of the file replaces the whole
    default value, every other key keeps its default.  So the three keys the
    script reads are always present, but a file that gives its own
    [thresholds] or [database] object loses the defaults of every entry it
    leaves out: reading such an entry raises KeyError. *)
Theorem load_config_shallow_merge w path u l :
  path <> EmptyString -> path_exists w path = true ->
  read_json w path = Ret (JDict u) -> List.NoDup (map fst u) ->
  exists cfg,
    load_config w (Some path) l = (Ret cfg, l ++ [EvReadConfig path]) /\
    (forall k,
       dict_get k cfg =
       match dict_get k u with
       | Some v => Some v
       | None => dict_get k (default_config (env_db_password w))
       end) /\
    (forall k, In k ["api_base_url"; "database"; "thresholds"] ->
       exists v, dict_get k cfg = Some v) /\
    (forall k1 k2 v, dict_get k1 u = Some v ->
       config_item cfg k1 k2 = subscript v k2) /\
    (forall k1 k2 t, dict_get k1 u = Some (JDict t) -> dict_get k2 t = None ->
       config_item cfg k1 k2 = Raise (mk_exn KeyError ("'" +:+ k2 +:+ "'"))).
Proof.
  intros Hp He Hr Hnd.
  destruct (load_config_object w path u l Hp He Hr Hnd) as (cfg & Hl & G).
  exists cfg. split; [exact Hl|].
  split; [exact G|]. split; [|split].
  - intros k Hk. rewrite G. destruct (dict_get k u) as [v|]; [now exists v|].
    cbn [In] in Hk. destruct Hk as [<-|[<-|[<-|[]]]]; eexists; reflexivity.
  - intros k1 k2 v Hk. unfold config_item, subscript at 1.
    now rewrite G, Hk.
  - intros k1 k2 t Hk Hn. unfold config_item, subscript at 1.
    rewrite G, Hk. unfold subscript. now rewrite Hn.
Qed.

Lemma load_config_shallow_merge_witness :
  exists cfg,
    load_config partial_thresholds_world (Some "config.json") [] =
      (Ret cfg, [EvReadConfig "config.json"]) /\
    config_item cfg "thresholds" "query_time_ms" = Ret (JInt 500) /\
    config_item cfg "thresholds" "response_time_ms" =
      Raise (mk_exn KeyError "'response_time_ms'") /\
    config_item cfg "database" "host" = Ret (JStr "localhost").
Proof.
  destruct (load_config_shallow_merge partial_thresholds_world "config.json"
              [("thresholds", JDict [("query_time_ms", JInt 500)])] [])
    as (cfg & Hl & Hg & _ & Hs & Hm).
  - discriminate.
  - reflexivity.
  - reflexivity.
  - repeat constructor. intros [].
  - exists cfg. split; [exact Hl|]. split; [|split].
    + rewrite (Hs "thresholds" "query_time_ms" _ eq_refl). reflexivity.
    + apply (Hm "thresholds" "response_time_ms" _ eq_refl). reflexivity.
    + unfold config_item, subscript at 1. rewrite Hg. reflexivity.
Defined.

(** ** The calls of a whole run *)

Lemma database_finally_calls w :
  graded (emits_only is_assessor_call) 0 (database_finally w).
Proof.
  intros s. unfold database_finally.
  destruct (is_bound "connection" s); [|apply emits_only_refl].
  destruct (is_bound "cursor" s).
  - assert (G : forall m : M pstate unit,
                graded (emits_only is_assessor_call) 0 m ->
                emits_only is_assessor_call 0 s (snd (m s)))
      by (intros m Hm; apply Hm).
    apply G. emits_go is_assessor_call.
  - assert (G : forall m : M pstate unit,
                graded (emits_only is_assessor_call) 0 m ->
                emits_only is_assessor_call 0 s (snd (m s)))
      by (intros m Hm; apply Hm).
    apply G. emits_go is_assessor_call.
Qed.

Lemma code_quality_calls w :
  graded (emits_only is_assessor_call) 0 (code_quality_body w).
Proof.
  unfold code_quality_body, backend_tests_probe, test_coverage_probe,
    static_analysis_probe, security_scan_probe.
  emits_go is_assessor_call.
Qed.

Lemma database_calls cfg w :
  graded (emits_only is_assessor_call) 0 (database_body cfg w).
Proof.
  pose proof (database_finally_calls w).
  unfold database_body, database_handlers, database_try_body, open_connection,
    database_checks, connectivity_check, table_structure_check,
    data_integrity_check, query_performance_check.
  emits_go is_assessor_call.
Qed.

Lemma api_calls cfg w :
  graded (emits_only is_assessor_call) 0 (api_body cfg w).
Proof.
  unfold api_body, health_probe, financial_probe, dcf_probe.
  emits_go is_assessor_call.
Qed.

Lemma system_calls cfg w :
  graded (emits_only is_assessor_call) 0 (system_body cfg w).
Proof.
  unfold system_body, memory_probe, disk_probe, load_probe.
  emits_go is_assessor_call.
Qed.

Lemma with_results_calls body l o l' :
  graded (emits_only is_assessor_call) 0 body ->
  with_results body l = (o, l') ->
  exists x, l' = l ++ x /\ forallb is_assessor_call x = true.
Proof.
  intros Hb H. unfold with_results in H.
  destruct (Hb (mk_pstate init_results [] l)) as (x & Hx & Fx).
  destruct (body (mk_pstate init_results [] l)) as [[[]|e] s];
    injection H as <- <-; exists x; split; assumption.
Qed.

(** Whatever a run does, and however it ends, it only makes assessor
    calls. *)
Lemma run_assessment_calls cfg w l o l' :
  run_assessment cfg w l = (o, l') ->
  exists x, l' = l ++ x /\ forallb is_assessor_call x = true.
Proof.
  unfold run_assessment, bind. intros H.
  destruct (assess_code_quality w l) as [o1 l1] eqn:E1.
  apply with_results_calls in E1 as (x1 & -> & F1); [|apply code_quality_calls].
  destruct o1 as [c1|e1];
    [|injection H as <- <-; exists x1; split; [reflexivity|exact F1]].
  destruct (assess_database_readiness cfg w (l ++ x1)) as [o2 l2] eqn:E2.
  apply with_results_calls in E2 as (x2 & -> & F2); [|apply database_calls].
  assert (F12 : forallb is_assessor_call (x1 ++ x2) = true)
    by now rewrite forallb_app, F1, F2.
  rewrite <- app_assoc in H.
  destruct o2 as [c2|e2];
    [|injection H as <- <-; exists (x1 ++ x2); split; [reflexivity|exact F12]].
  destruct (assess_api_readiness cfg w (l ++ x1 ++ x2)) as [o3 l3] eqn:E3.
  apply with_results_calls in E3 as (x3 & -> & F3); [|apply api_calls].
  assert (F13 : forallb is_assessor_call ((x1 ++ x2) ++ x3) = true)
    by now rewrite forallb_app, F12, F3.
  replace ((l ++ x1 ++ x2) ++ x3) with (l ++ (x1 ++ x2) ++ x3) in H
    by now rewrite <- !app_assoc.
  destruct o3 as [c3|e3];
    [|injection H as <- <-; eexists; split; [reflexivity|exact F13]].
  destruct (assess_system_resources cfg w (l ++ (x1 ++ x2) ++ x3))
    as [o4 l4] eqn:E4.
  apply with_results_calls in E4 as (x4 & -> & F4); [|apply system_calls].
  assert (F14 : forallb is_assessor_call (((x1 ++ x2) ++ x3) ++ x4) = true)
    by now rewrite forallb_app, F13, F4.
  replace ((l ++ (x1 ++ x2) ++ x3) ++ x4)
    with (l ++ ((x1 ++ x2) ++ x3) ++ x4) in H by now rewrite <- !app_assoc.
  destruct o4 as [c4|e4];
    [|injection H as <- <-; eexists; split; [reflexivity|exact F14]].
  unfold lift, ret in H.
  destruct (compute_readiness_score _);
    [|injection H as <- <-; eexists; split; [reflexivity|exact F14]].
  destruct (generate_recommendations _); injection H as <- <-;
    eexists; split; try reflexivity; exact F14.
Qed.

(** X14.  The calls of a whole process, however it ends: the configuration
    file is read at most once and before anything else, and only when a path
    was given on the command line; then come calls of the assessors only;
    the report is written at most once and as the last call.  A process that
    exits with a code has written the report. *)
Theorem main_trace_shape argv w r l :
  main argv w = (r, l) ->
  exists pre mid post,
    l = pre ++ mid ++ post /\
    (pre = [] \/
     exists path, nth_error argv 1 = Some path /\ pre = [EvReadConfig path]) /\
    forallb is_assessor_call mid = true /\
    (post = [] \/ post = [EvSaveReport]) /\
    (forall code, r = Exited code ->
       post = [EvSaveReport] /\ write_report w = Ret tt).
Proof.
  unfold main, program, bind. intros H.
  assert (Hload : exists o pre,
    load_config w (nth_error argv 1) [] = (o, pre) /\
    (pre = [] \/
     exists path, nth_error argv 1 = Some path /\ pre = [EvReadConfig path])).
  { unfold load_config. destruct (nth_error argv 1) as [path|].
    - destruct (negb (path =? "")%string && path_exists w path).
      + unfold bind, log_call, lift. cbn [app].
        destruct (read_json w path); eexists _, _;
          (split; [reflexivity|]); right; exists path; split; reflexivity.
      + eexists _, _. split; [reflexivity|]. now left.
    - eexists _, _. split; [reflexivity|]. now left. }
  destruct Hload as (o & pre & -> & Hpre) in H.
  destruct o as [cfg|e].
  - destruct (run_assessment cfg w pre) as [o1 l1] eqn:E1.
    apply run_assessment_calls in E1 as (mid & -> & Fm).
    destruct o1 as [rep|e1].
    + unfold save_report, log_call, lift, ret in H.
      exists pre, mid, [EvSaveReport].
      destruct (write_report w) as [[]|e2];
        [destruct (print_all w (print_summary rep)) as [[]|e3]|];
        injection H as <- <-;
        (split; [now rewrite app_assoc|]); (split; [exact Hpre|]);
        (split; [exact Fm|]); (split; [now right|]); intros code Hc;
        first [split; reflexivity | discriminate Hc].
    + injection H as <- <-. exists pre, mid, [].
      split; [now rewrite app_nil_r|]. split; [exact Hpre|].
      split; [exact Fm|]. split; [now left|]. intros code Hc. discriminate Hc.
  - injection H as <- <-. exists pre, [], [].
    split; [now rewrite !app_nil_r|]. split; [exact Hpre|].
    split; [reflexivity|]. split; [now left|]. intros code Hc. discriminate Hc.
Qed.

Lemma main_trace_shape_witness :
  exists mid,
    main ["assess.py"] healthy_world = (Exited 0, mid ++ [EvSaveReport]) /\
    forallb is_assessor_call mid = true.
Proof.
  destruct (main ["assess.py"] healthy_world) as [r l] eqn:E.
  destruct (main_trace_shape _ _ _ _ E)
    as (pre & mid & post & Hl & Hpre & Fm & _ & Hexit).
  assert (Hr : r = Exited 0) by (vm_compute in E; congruence).
  destruct (Hexit 0 Hr) as (-> & _).
  destruct Hpre as [->|(path & Hp & _)]; [|discriminate Hp].
  subst r l. exists mid. split; [reflexivity | exact Fm].
Defined.

(** X15.  A configuration file that gives its own [thresholds] object without
    the response-time entry ends a process uncaught whose services are all
    up: the file is read, the Code Quality and Database assessors run, the
    calculation endpoint answers 200, and the KeyError of the missing entry
    leaves the API assessor.  The process ends with exit status 1, the status
    of READY_WITH_WARNINGS, and no report is written. *)
Theorem partial_thresholds_end_uncaught argv w path u t :
  nth_error argv 1 = Some path ->
  path <> EmptyString -> path_exists w path = true ->
  read_json w path = Ret (JDict u) -> List.NoDup (map fst u) ->
  dict_get "thresholds" u = Some (JDict t) ->
  dict_get "response_time_ms" t = None ->
  http_failures_handled w -> cleanup_ok w ->
  (forall base, exists r,
     http_post w base "/api/dcf/calculate" = Ret r /\ status_code r = 200) ->
  exists l,
    main argv w = (Uncaught (mk_exn KeyError "'response_time_ms'"), l) /\
    exit_status (fst (main argv w)) = exit_code READY_WITH_WARNINGS /\
    hd_error l = Some (EvReadConfig path) /\
    ~ In EvSaveReport l.
Proof.
  intros Ha Hp He Hr Hnd Ht Hn Hhttp Hdb Hpost.
  destruct (load_config_object w path u [] Hp He Hr Hnd) as (cfg & Hl & G).
  assert (Hb : exists base, dict_get "api_base_url" cfg = Some base).
  { rewrite G. destruct (dict_get "api_base_url" u) as [v|]; eexists;
      reflexivity. }
  destruct Hb as (base & Hb).
  destruct (Hpost base) as (r & Hpr & Hst).
  assert (Hthr : config_item cfg "thresholds" "response_time_ms" =
                 Raise (mk_exn KeyError "'response_time_ms'")).
  { unfold config_item, subscript at 1. rewrite G, Ht.
    unfold subscript. now rewrite Hn. }
  destruct (run_threshold_escapes cfg w _ base r [EvReadConfig path]
              Hthr Hb Hhttp Hpr Hst Hdb) as (l' & Hrun).
  destruct (run_assessment_calls _ _ _ _ _ Hrun) as (x & -> & Fx).
  assert (Hmain : main argv w =
    (Uncaught (mk_exn KeyError "'response_time_ms'"), [EvReadConfig path] ++ x)).
  { unfold main, program, bind. rewrite Ha, Hl. cbn [app] in Hrun |- *.
    rewrite Hrun. reflexivity. }
  exists ([EvReadConfig path] ++ x). split; [exact Hmain|].
  rewrite Hmain. split; [reflexivity|]. split; [reflexivity|].
  cbn [app In]. intros [H|H]; [discriminate H|].
  rewrite forallb_forall in Fx. specialize (Fx _ H). discriminate Fx.
Qed.

Lemma partial_thresholds_end_uncaught_witness :
  exists l,
    main ["assess.py"; "config.json"] partial_thresholds_world
      = (Uncaught (mk_exn KeyError "'response_time_ms'"), l) /\
    ~ In EvSaveReport l.
Proof.
  destruct (partial_thresholds_end_uncaught
              ["assess.py"; "config.json"] partial_thresholds_world
              "config.json"
              [("thresholds", JDict [("query_time_ms", JInt 500)])]
              [("query_time_ms", JInt 500)])
    as (l & Hm & _ & _ & Hs).
  - reflexivity.
  - discriminate.
  - reflexivity.
  - reflexivity.
  - repeat constructor. intros [].
  - reflexivity.
  - reflexivity.
  - apply healthy_http_handled; reflexivity.
  - apply healthy_cleanup_ok; reflexivity.
  - intros base. eexists. split; reflexivity.
  - exists l. split; [exact Hm | exact Hs].
Defined.

(** ** The status in points *)



(** ** The serialization checks of the API assessor *)

Lemma str_in_app_r (k a b : string) :
  str_in k b = true -> str_in k (a +:+ b) = true.
Proof.
  intros H. induction a as [|c a IH]; [exact H|].
  rewrite append_cons.
  change (str_in k (String c (a +:+ b)))
    with (String.prefix k (String c (a +:+ b)) || str_in k (a +:+ b)).
  rewrite IH. apply orb_true_r.
Qed.

Lemma prefix_lower (k t : string) :
  String.prefix k t = true -> String.prefix (lower k) (lower t) = true.
Proof.
  revert t; induction k as [|c k IH]; intros t H;
    [cbn [lower]; destruct (lower t); reflexivity|].
  destruct t as [|c' t]; [discriminate|].
  cbn [lower String.prefix] in *.
  destruct (ascii_dec c c') as [->|]; [|discriminate].
  destruct (ascii_dec (lower_char c') (lower_char c')); [now apply IH | congruence].
Qed.

Lemma str_in_lower (k t : string) :
  str_in k t = true -> str_in (lower k) (lower t) = true.
Proof.
  induction t as [|c t IH]; intros H.
  - destruct k; [reflexivity | discriminate H].
  - change (str_in k (String c t))
      with (String.prefix k (String c t) || str_in k t) in H.
    cbn [lower].
    change (str_in (lower k) (String (lower_char c) (lower t)))
      with (String.prefix (lower k) (String (lower_char c) (lower t))
            || str_in (lower k) (lower t)).
    apply orb_true_iff in H as [H|H].
    + apply prefix_lower in H. cbn [lower] in H. now rewrite H.
    + rewrite (IH H). apply orb_true_r.
Qed.

(** X17.  When the financial-data endpoint answers 200, the two checks on
    the body are independent and worth 25 points each.  The first fails on
    any body that holds the letter e in either case, wherever it stands (the
    separate test for a capital E never changes the result); the second
    passes when the body holds a double quote and a full stop.  Both issues
    are warnings. *)
Theorem financial_probe_checks cfg w s base r :
  dict_get "api_base_url" cfg = Some base ->
  http_get w base "/api/financial-data/AAPL" = Ret r ->
  status_code r = 200 ->
  let s' := snd (financial_probe cfg w s) in
  let letter_e := str_in "e" (lower (text r)) in
  let decimals := str_in dquote (text r) && str_in "." (text r) in
  score (results s') =
    score (results s) + (if letter_e then 0 else 25)
    + (if decimals then 25 else 0) /\
  issues (results s') =
    issues (results s)
    ++ (if letter_e then ["API responses contain scientific notation"] else [])
    ++ (if decimals then [] else ["API responses missing decimal values"]) /\
  (str_in "E" (text r) = true -> letter_e = true) /\
  (forall a b, text r = a +:+ "e" +:+ b \/ text r = a +:+ "E" +:+ b ->
     letter_e = true) /\
  is_critical "API responses contain scientific notation" = false /\
  is_critical "API responses missing decimal values" = false.
Proof.
  intros Hb Hr Hst s' letter_e decimals.
  assert (HE : str_in "E" (text r) = true -> letter_e = true).
  { intros H. apply str_in_lower in H. exact H. }
  assert (E : exists st, financial_probe cfg w s = (Ret tt, st) /\
    score (results st) =
      score (results s) + (if letter_e then 0 else 25)
      + (if decimals then 25 else 0) /\
    issues (results st) =
      issues (results s)
      ++ (if letter_e then ["API responses contain scientific notation"] else [])
      ++ (if decimals then [] else ["API responses missing decimal values"])).
  { unfold financial_probe. exec. unfold subscript. rewrite Hb, Hr. proj.
    rewrite Hst. cbn [Z.eqb Pos.eqb].
    fold letter_e. fold decimals.
    destruct letter_e eqn:L; cbn [orb].
    - destruct decimals; proj; eexists; (split; [reflexivity|]); proj;
        rewrite <- ?app_assoc; split; first [lia | reflexivity].
    - destruct (str_in "E" (text r)) eqn:L2;
        [specialize (HE eq_refl); discriminate HE|].
      destruct decimals; proj; eexists; (split; [reflexivity|]); proj;
        rewrite ?app_nil_r; split; first [lia | reflexivity]. }
  destruct E as (st & Est & Hs & Hi). subst s'. rewrite Est. cbn [snd].
  split; [exact Hs|]. split; [exact Hi|]. split; [exact HE|].
  split; [|split; vm_compute; reflexivity].
  intros a b [Ht|Ht]; unfold letter_e; rewrite Ht, !lower_app;
    apply str_in_app_r; apply str_in_app_l; reflexivity.
Qed.

Lemma financial_probe_checks_witness :
  let body := "{" +:+ dquote +:+ "revenue" +:+ dquote +:+ ": 1234.50}" in
  let w := set_http_get (fun _ _ => Ret (mk_response 200 body)) healthy_world in
  let s := mk_pstate init_results [] [] in
  let s' := snd (financial_probe (default_config "") w s) in
  score (results s') = 25 /\
  issues (results s') = ["API responses contain scientific notation"].
Proof.
  intros body w s s'.
  destruct (financial_probe_checks (default_config "") w s
              (JStr "http://localhost:8080") (mk_response 200 body)
              eq_refl eq_refl eq_refl) as (Hs & Hi & _).
  split; [exact Hs | exact Hi].
Defined.

(** ** Probes that lose their points silently *)

(** X18.  The disk and load probes have no branch for a command that exits
    with a non-zero status, and the disk probe none for an output of a single
    line: the 30 points are not earned, and the results carry no issue and no
    detail of it.  An output of [df] whose second line has fewer than five
    fields is different: the IndexError is caught and becomes a critical
    issue. *)
Theorem system_probe_edge_cases w s cp :
  let lines := split_on newline (strip (stdout cp)) in
  (subprocess_run w ["df"; "-h"; "."] = Ret cp ->
   returncode cp <> 0 \/ (length lines <= 1)%nat ->
   disk_probe w s =
     (Ret tt, mk_pstate (results s) (locals s)
                (log s ++ [EvSubprocess ["df"; "-h"; "."]]))) /\
  (subprocess_run w ["uptime"] = Ret cp ->
   returncode cp <> 0 ->
   load_probe w s =
     (Ret tt, mk_pstate (results s) (locals s)
                (log s ++ [EvSubprocess ["uptime"]]))) /\
  (subprocess_run w ["df"; "-h"; "."] = Ret cp ->
   returncode cp = 0 ->
   forall line,
     nth_error lines 1 = Some line ->
     (length (split_ws line) < 5)%nat ->
     exists s',
       disk_probe w s = (Ret tt, s') /\
       score (results s') = score (results s) /\
       issues (results s') =
         issues (results s)
         ++ ["Disk space check error: list index out of range"] /\
       is_critical "Disk space check error: list index out of range" = true).
Proof.
  intros lines. split; [|split].
  - intros Hr Hc. unfold disk_probe. exec. rewrite Hr. proj.
    destruct (Z.eqb_spec (returncode cp) 0) as [Hz|_]; [|reflexivity].
    destruct Hc as [Hc|Hc]; [contradiction|].
    fold lines. destruct (Nat.ltb_spec 1 (length lines)); [lia|reflexivity].
  - intros Hr Hc. unfold load_probe. exec. rewrite Hr. proj.
    destruct (Z.eqb_spec (returncode cp) 0) as [Hz|_];
      [contradiction|reflexivity].
  - intros Hr Hc line Hline Hlen. unfold disk_probe. exec. rewrite Hr. proj.
    rewrite Hc. cbn [Z.eqb]. fold lines.
    assert (H1 : (1 < length lines)%nat).
    { apply nth_error_Some. rewrite Hline. discriminate. }
    destruct (Nat.ltb_spec 1 (length lines)); [|lia].
    unfold list_item. rewrite Hline. proj.
    assert (H4 : nth_error (split_ws line) 4 = None)
      by (apply nth_error_None; lia).
    rewrite H4.
    destruct (nth_error (split_ws line) 3); proj;
      eexists; repeat split; vm_compute; reflexivity.
Qed.

Lemma system_probe_edge_cases_witness :
  let w := set_subprocess (fun _ => Ret (mk_completed 1 "df: no file systems processed"))
             healthy_world in
  let s := mk_pstate init_results [] [] in
  disk_probe w s = (Ret tt, mk_pstate init_results [] [EvSubprocess ["df"; "-h"; "."]]).
Proof.
  intros w s.
  destruct (system_probe_edge_cases w s
              (mk_completed 1 "df: no file systems processed")) as (H & _).
  apply H; [reflexivity|]. left. discriminate.
Defined.

(** ** The console summary *)

Lemma format_1f_points (s : Z) :
  0 <= s ->
  format_1f (inject_Z s / inject_Z 100 * 100) = str_Z s +:+ ".0".
Proof.
  intros Hs. unfold format_1f, round_half_even.
  assert (Hn : Qnum (inject_Z s / inject_Z 100 * 100 * 10) = s * 1000)
    by (cbn; lia).
  assert (Hd : Z.pos (Qden (inject_Z s / inject_Z 100 * 100 * 10)) = 100)
    by reflexivity.
  assert (Hq : Qnum (inject_Z s / inject_Z 100 * 100) = s * 100)
    by (cbn; lia).
  rewrite Hn, Hd, Hq.
  replace (s * 1000) with (10 * s * 100) by lia.
  rewrite Z.div_mul, Z.mod_mul by lia.
  change (2 * 0 <? 100) with true. cbv iota.
  rewrite Z.abs_eq by lia.
  replace (10 * s) with (s * 10) by lia.
  rewrite Z.div_mul, Z.mod_mul by lia.
  destruct (Z.ltb_spec (s * 10) 0); [lia|].
  destruct (Z.ltb_spec (s * 100) 0); [lia|].
  rewrite andb_false_r. reflexivity.
Qed.

Lemma append_assoc (a b c : string) : (a +:+ b) +:+ c = a +:+ b +:+ c.
Proof.
  induction a as [|x a IH]; [reflexivity|].
  rewrite !append_cons. now rewrite IH.
Qed.

Lemma in_map_lines (f : string -> string) (x : string) (l : list string) :
  In x l -> In (f x) (map f l).
Proof. apply in_map. Qed.

(** X19.  The summary printed after a completed run.  Each of the four
    category lines shows the title-cased name and the points of the category
    as a percentage with one decimal, which is the score itself.  Every
    critical issue is listed.  Of the warnings only the first five are
    listed; when there are more, one further line gives the number of those
    left out, so that the lines listed and the number announced account for
    every warning. *)
Theorem summary_of_a_run cfg w l rep l' :
  run_assessment cfg w l = (Ret rep, l') ->
  let out := print_summary rep in
  let shown := firstn 5 (warnings rep) in
  let hidden := (length (warnings rep) - 5)%nat in
  (forall name c, In (name, c) (categories rep) ->
     category_line name c =
       "  " +:+ title (replace_char "_" " " name) +:+ ": "
       +:+ str_Z (score c) +:+ ".0% (" +:+ str_Z (score c) +:+ "/100)") /\
  map (fun c => title (replace_char "_" " " (fst c))) (categories rep) =
    ["Code Quality"; "Database"; "Api"; "System Resources"] /\
  (forall i, In i (critical_issues rep) -> In ("  ❌ " +:+ i) out) /\
  (forall i, In i shown -> In ("  ⚠️ " +:+ i) out) /\
  (length shown + hidden = length (warnings rep))%nat /\
  (hidden <> 0%nat ->
   In ("  ... and " +:+ str_nat hidden +:+ " more warnings") out) /\
  (length (warning_lines (warnings rep)) <= 7)%nat.
Proof.
  intros H out shown hidden. subst out shown hidden.
  apply run_assessment_inv in H
    as (c1 & c2 & c3 & c4 & l1 & l2 & l3 & rs & E1 & E2 & E3 & E4 & Hrs & _ & Hrep).
  destruct (run_assessors_bounds _ _ _ _ _ _ _ _ _ _ _ E1 E2 E3 E4)
    as ((S1 & M1) & (S2 & M2) & (S3 & M3) & (S4 & M4)).
  assert (Hcats : categories rep = run_categories c1 c2 c3 c4)
    by (rewrite Hrep; reflexivity).
  assert (Hline : forall name c, 0 <= score c -> max_score c = 100 ->
    category_line name c =
      "  " +:+ title (replace_char "_" " " name) +:+ ": "
      +:+ str_Z (score c) +:+ ".0% (" +:+ str_Z (score c) +:+ "/100)").
  { intros name c Hs Hm. unfold category_line. rewrite Hm. cbn [Z.ltb Z.compare].
    rewrite (format_1f_points _ Hs).
    change (str_Z 100) with "100".
    rewrite append_assoc. reflexivity. }
  split; [|split; [|split; [|split; [|split; [|split]]]]].
  - intros name c Hin. rewrite Hcats in Hin.
    unfold run_categories in Hin. cbn [In] in Hin.
    destruct Hin as [[= <- <-]|[[= <- <-]|[[= <- <-]|[[= <- <-]|[]]]]];
      apply Hline; lia.
  - rewrite Hcats. reflexivity.
  - intros i Hi. unfold print_summary.
    apply in_or_app. right. apply in_or_app. right. apply in_or_app. left.
    unfold critical_lines.
    destruct (critical_issues rep) as [|x xs] eqn:Ec; [destruct Hi|].
    cbn [is_empty_list]. right.
    apply (in_map_lines (fun issue => "  ❌ " +:+ issue)). exact Hi.
  - intros i Hi. unfold print_summary.
    apply in_or_app. right. apply in_or_app. right. apply in_or_app. right.
    apply in_or_app. left. unfold warning_lines.
    destruct (warnings rep) as [|x xs]; [destruct Hi|].
    cbn [is_empty_list]. right. apply in_or_app. left.
    apply (in_map_lines (fun warning => "  ⚠️ " +:+ warning)). exact Hi.
  - rewrite length_firstn. lia.
  - intros Hh. unfold print_summary.
    apply in_or_app. right. apply in_or_app. right. apply in_or_app. right.
    apply in_or_app. left. unfold warning_lines.
    destruct (warnings rep) as [|x xs]; [cbn in Hh; congruence|].
    cbn [is_empty_list]. right. apply in_or_app. right.
    destruct (Nat.ltb_spec 5 (length (x :: xs))) as [_|Hle];
      [left; reflexivity | lia].
  - unfold warning_lines.
    destruct (warnings rep) as [|x xs]; cbn [is_empty_list length]; [lia|].
    rewrite length_app, length_map, length_firstn.
    destruct (Nat.ltb 5 (S (length xs))); cbn [length]; lia.
Qed.

Lemma summary_of_a_run_witness :
  exists rep l',
    run_assessment (default_config "") many_warnings_world [] = (Ret rep, l') /\
    length (warnings rep) = 6%nat /\
    In "  ... and 1 more warnings" (print_summary rep) /\
    In "  Code Quality: 20.0% (20/100)" (print_summary rep).
Proof.
  destruct (run_assessment (default_config "") many_warnings_world [])
    as [[rep|e] l'] eqn:E; [|vm_compute in E; discriminate E].
  exists rep, l'. split; [reflexivity|].
  destruct (summary_of_a_run _ _ _ _ _ E) as (Hline & _ & _ & _ & _ & Hmore & _).
  assert (Hr : rep = match fst (run_assessment (default_config "")
                                  many_warnings_world []) with
                     | Ret r => r
                     | Raise _ => rep
                     end) by (rewrite E; reflexivity).
  assert (Hw : length (warnings rep) = 6%nat)
    by (rewrite Hr; vm_compute; reflexivity).
  assert (Hc : exists c, In ("code_quality", c) (categories rep) /\ score c = 20).
  { rewrite Hr. vm_compute. eexists. split; [left; reflexivity | reflexivity]. }
  split; [exact Hw|]. split.
  - rewrite Hw in Hmore. apply Hmore. discriminate.
  - destruct Hc as (c & Hin & Hs).
    pose proof (Hline _ _ Hin) as Hl. rewrite Hs in Hl.
    unfold print_summary. apply in_or_app. right. apply in_or_app. left.
    change "  Code Quality: 20.0% (20/100)"
      with ("  " +:+ title (replace_char "_" " " "code_quality") +:+ ": "
            +:+ str_Z 20 +:+ ".0% (" +:+ str_Z 20 +:+ "/100)").
    rewrite <- Hl.
    apply (in_map (fun c => category_line (fst c) (snd c))) in Hin. exact Hin.
Defined.

(** ** The points of the database checks *)

(** X20.  When every query is answered, the four database checks are worth
    20, 30, 25 and 25 points: connectivity always; the table structure when
    at least one column has the type decimal; the data when both tables hold
    a row; the performance when the join took strictly less than the
    threshold.  Each check that does not earn its points adds its own issue,
    in this order, and all three are warnings. *)
Theorem database_checks_points cfg w s schema cols n_in n_out limit :
  (forall q, db_execute w q = Ret tt) ->
  config_item cfg "database" "database" = Ret schema ->
  db_fetchall w = Ret cols ->
  db_fetchone w CountInputs = Ret (Some n_in) ->
  db_fetchone w CountOutputs = Ret (Some n_out) ->
  config_item cfg "thresholds" "query_time_ms" = Ret (JInt limit) ->
  let ms := elapsed_ms w (EvDbExecute JoinCount) in
  let decimal :=
    existsb (fun col => String.eqb (data_type col) "decimal") cols in
  let data := (0 <? n_in) && (0 <? n_out) in
  let fast := Qlt_bool ms (inject_Z limit) in
  exists s',
    database_checks cfg w s = (Ret tt, s') /\
    score (results s') =
      score (results s) + 20 + (if decimal then 30 else 0)
      + (if data then 25 else 0) + (if fast then 25 else 0) /\
    issues (results s') =
      issues (results s)
      ++ (if decimal then [] else ["BigDecimal columns not implemented"])
      ++ (if data then [] else ["No test data available"])
      ++ (if fast then []
          else ["Query performance below threshold: " +:+ format_2f ms +:+ "ms"]) /\
    is_critical "BigDecimal columns not implemented" = false /\
    is_critical "No test data available" = false.
Proof.
  intros Hex Hschema Hall Hin Hout Hthr ms decimal data fast.
  assert (Hdec : negb (is_empty_list
                   (List.filter (fun col => String.eqb (data_type col) "decimal")
                      cols)) = decimal).
  { unfold decimal. clear. induction cols as [|c cols IH]; [reflexivity|].
    cbn [List.filter existsb].
    destruct (String.eqb (data_type c) "decimal"); [reflexivity | exact IH]. }
  unfold database_checks, connectivity_check, table_structure_check,
    data_integrity_check, query_performance_check.
  exec. rewrite !Hex. proj. rewrite Hschema. proj. rewrite Hall. proj.
  rewrite Hdec.
  destruct decimal; proj; rewrite Hin; proj; unfold first_field; proj;
    rewrite Hout; proj; fold data; destruct data; proj;
    rewrite Hthr; proj; unfold py_lt; proj; fold ms; fold fast;
    destruct fast; proj; eexists; (split; [reflexivity|]); proj;
    (split; [lia|]);
    (split; [rewrite <- ?app_assoc; cbn [app]; rewrite ?app_nil_r; reflexivity|]);
    split; vm_compute; reflexivity.
Qed.

Lemma database_checks_points_witness :
  exists s',
    database_checks (default_config "") slow_and_big_world
      (mk_pstate init_results [] []) = (Ret tt, s') /\
    score (results s') = 75 /\
    issues (results s') = ["Query performance below threshold: 5000.00ms"].
Proof.
  destruct (database_checks_points (default_config "") slow_and_big_world
              (mk_pstate init_results [] []) (JStr "dcf_calculator")
              [mk_column "dcf_inputs" "discount_rate" "decimal" (Some 20) (Some 10)]
              5 5 1000)
    as (s' & E & Hs & Hi & _); try reflexivity.
  exists s'. split; [exact E|]. split; [exact Hs | exact Hi].
Defined.
